(** * TaxiFareNY: the ride request form of [app.py]

    A shallow embedding of the Streamlit script [app.py] and the properties
    of its geofence, its default pickup time, its two map pickers and its
    fare request.

    - Coordinates are Python floats: IEEE 754 binary64, here Rocq's
      primitive [float] with its comparison [<?].
    - [st.session_state] is a dictionary with string keys: a [gmap string float].
    - A run of the script is a computation in a small monad that threads the
      session state, records what the page shows and which outside calls it
      makes, and propagates Python exceptions.
    - What the outside world answers (the clock, the widgets, the geocoder,
      the fare API) is an input of a run. *)

From Stdlib Require Import ZArith Floats Bool List Ascii Lia.
From stdpp Require Import base option list gmap strings pretty.

Local Open Scope Z_scope.

(* Python reads a decimal literal as the nearest binary64 value, and so does
   Rocq: [-73.70] is the same float in both. *)
Set Warnings "-inexact-float,-register-all".

(** ** 3. Constants *)

Definition DEFAULT_LAT : float := 40.75%float.
Definition DEFAULT_LON : float := (-73.98)%float.

(** [NYC_BOUNDS] is a dictionary literal that is only ever read at its four
    literal keys: a record with these four fields. *)
Record bounds := {
  min_lon : float;
  max_lon : float;
  min_lat : float;
  max_lat : float
}.

Definition NYC_BOUNDS : bounds := {|
  min_lon := (-74.25)%float;
  max_lon := (-73.70)%float;
  min_lat := 40.50%float;
  max_lat := 40.92%float
|}.

(** Python's chained comparison [a < x < b] is [a < x and x < b]. *)
Definition is_within_nyc (lon lat : float) : bool :=
  ((min_lon NYC_BOUNDS <? lon)%float && (lon <? max_lon NYC_BOUNDS)%float) &&
  ((min_lat NYC_BOUNDS <? lat)%float && (lat <? max_lat NYC_BOUNDS)%float).

(** ** Python's [datetime] module, as far as the script uses it

    After CPython's [_pydatetime]: dates of the proleptic Gregorian calendar,
    [timedelta] normalised to days, seconds and microseconds, addition of a
    [timedelta] through the day ordinal, comparison field by field. *)

Module Datetime.

Record date := mkdate { year : Z; month : Z; day : Z }.

Record time := mktime { hour : Z; minute : Z; second : Z; microsecond : Z }.

(** [datetime.combine(date, time)] is the constructor. *)
Record datetime := combine { dt_date : date; dt_time : time }.

Record timedelta := mkdelta { days : Z; seconds : Z; microseconds : Z }.

Definition MAXORDINAL : Z := 3652059.

Definition is_leap (y : Z) : bool :=
  (y mod 4 =? 0) && (negb (y mod 100 =? 0) || (y mod 400 =? 0)).

Definition DAYS_IN_MONTH (m : Z) : Z :=
  match m with
  | 1 => 31 | 2 => 28 | 3 => 31 | 4 => 30 | 5 => 31 | 6 => 30
  | 7 => 31 | 8 => 31 | 9 => 30 | 10 => 31 | 11 => 30 | 12 => 31
  | _ => -1
  end.

Definition DAYS_BEFORE_MONTH (m : Z) : Z :=
  match m with
  | 1 => 0 | 2 => 31 | 3 => 59 | 4 => 90 | 5 => 120 | 6 => 151
  | 7 => 181 | 8 => 212 | 9 => 243 | 10 => 273 | 11 => 304 | 12 => 334
  | _ => -1
  end.

Definition days_before_year (y : Z) : Z :=
  let y := y - 1 in y * 365 + y / 4 - y / 100 + y / 400.

Definition days_in_month (y m : Z) : Z :=
  if (m =? 2) && is_leap y then 29 else DAYS_IN_MONTH m.

Definition days_before_month (y m : Z) : Z :=
  DAYS_BEFORE_MONTH m + (if (2 <? m) && is_leap y then 1 else 0).

Definition ymd2ord (y m d : Z) : Z :=
  days_before_year y + days_before_month y m + d.

Definition DI400Y : Z := Eval vm_compute in days_before_year 401.
Definition DI100Y : Z := Eval vm_compute in days_before_year 101.
Definition DI4Y : Z := Eval vm_compute in days_before_year 5.

Definition ord2ymd (n : Z) : date :=
  let n := n - 1 in
  let n400 := n / DI400Y in
  let n := n mod DI400Y in
  let y := n400 * 400 + 1 in
  let n100 := n / DI100Y in
  let n := n mod DI100Y in
  let n4 := n / DI4Y in
  let n := n mod DI4Y in
  let n1 := n / 365 in
  let n := n mod 365 in
  let y := y + (n100 * 100 + n4 * 4 + n1) in
  if (n1 =? 4) || (n100 =? 4) then mkdate (y - 1) 12 31
  else
    let leapyear := (n1 =? 3) && (negb (n4 =? 24) || (n100 =? 3)) in
    let m := Z.shiftr (n + 50) 5 in
    let preceding :=
      DAYS_BEFORE_MONTH m + (if (2 <? m) && leapyear then 1 else 0) in
    let '(m, preceding) :=
      if n <? preceding
      then (m - 1,
            preceding - (DAYS_IN_MONTH (m - 1) +
                         (if (m - 1 =? 2) && leapyear then 1 else 0)))
      else (m, preceding) in
    mkdate y m (n - preceding + 1).

Definition toordinal (d : date) : Z := ymd2ord (year d) (month d) (day d).
Definition fromordinal (n : Z) : date := ord2ymd n.

(** [timedelta(days, seconds, microseconds)] on integers: the carries of
    the constructor. *)
Definition timedelta_of (d s us : Z) : timedelta :=
  let s := s + us / 1000000 in
  mkdelta (d + s / 86400) (s mod 86400) (us mod 1000000).

(** [timedelta(minutes=m)] *)
Definition minutes_delta (m : Z) : timedelta := timedelta_of 0 (m * 60) 0.

Definition timedelta_add (a b : timedelta) : timedelta :=
  timedelta_of (days a + days b) (seconds a + seconds b)
               (microseconds a + microseconds b).

(** [datetime.__add__]: [None] is the [OverflowError] of a result outside
    years 1..9999. *)
Definition add (t : datetime) (other : timedelta) : option datetime :=
  let tm := dt_time t in
  let delta :=
    timedelta_add
      (timedelta_of (toordinal (dt_date t))
                    (hour tm * 3600 + minute tm * 60 + second tm)
                    (microsecond tm))
      other in
  let h := seconds delta / 3600 in
  let rem := seconds delta mod 3600 in
  let mi := rem / 60 in
  let s := rem mod 60 in
  if (0 <? days delta) && (days delta <=? MAXORDINAL)
  then Some (combine (fromordinal (days delta))
                     (mktime h mi s (microseconds delta)))
  else None.

(** [t.replace(second=0, microsecond=0)] *)
Definition replace_second_microsecond (t : datetime) (s us : Z) : datetime :=
  let tm := dt_time t in
  combine (dt_date t) (mktime (hour tm) (minute tm) s us).

(** Comparison is that of the tuples of fields, first difference decides. *)
Definition fields (t : datetime) : list Z :=
  let d := dt_date t in
  let tm := dt_time t in
  [year d; month d; day d; hour tm; minute tm; second tm; microsecond tm].

Fixpoint cmp (a b : list Z) : comparison :=
  match a, b with
  | [], [] => Eq
  | [], _ :: _ => Lt
  | _ :: _, [] => Gt
  | x :: a, y :: b =>
      match x ?= y with
      | Eq => cmp a b
      | c => c
      end
  end.

Definition compare (a b : datetime) : comparison := cmp (fields a) (fields b).

(** [a >= b] *)
Definition ge (a b : datetime) : bool :=
  match compare a b with Lt => false | _ => true end.

(** [a < b] *)
Definition lt (a b : datetime) : bool :=
  match compare a b with Lt => true | _ => false end.

Definition valid_date (d : date) : Prop :=
  1 <= year d <= 9999 /\ 1 <= month d <= 12 /\
  1 <= day d <= days_in_month (year d) (month d).

Definition valid_time (t : time) : Prop :=
  0 <= hour t < 24 /\ 0 <= minute t < 60 /\ 0 <= second t < 60 /\
  0 <= microsecond t < 1000000.

Definition valid (t : datetime) : Prop :=
  valid_date (dt_date t) /\ valid_time (dt_time t).

(** [strftime] at the script's only format, ["%Y-%m-%d %H:%M:%S"]: the
    month, day, hour, minute and second in decimal, zero-filled to two
    digits; the year in decimal as the C library's [%Y] prints it, which on
    glibc is without zero-fill (["1-01-01 00:00:00"] for the first day of
    the calendar). From the year 1000 on the year has its four digits. *)
Fixpoint zeros (n : nat) : string :=
  match n with
  | O => ""
  | S n => String "0"%char (zeros n)
  end.

Definition zfill (width : nat) (s : string) : string :=
  zeros (width - String.length s) +:+ s.

Definition strftime_Ymd_HMS (t : datetime) : string :=
  let d := dt_date t in
  let tm := dt_time t in
  pretty (year d) +:+ "-" +:+ zfill 2 (pretty (month d)) +:+ "-" +:+
  zfill 2 (pretty (day d)) +:+ " " +:+ zfill 2 (pretty (hour tm)) +:+ ":" +:+
  zfill 2 (pretty (minute tm)) +:+ ":" +:+ zfill 2 (pretty (second tm)).

(** microseconds since midnight *)
Definition time_us (t : time) : Z :=
  ((hour t * 60 + minute t) * 60 + second t) * 1000000 + microsecond t.

(** microseconds since the midnight before 0001-01-01: the point on the
    time line that a datetime stands for *)
Definition timestamp (t : datetime) : Z :=
  toordinal (dt_date t) * 86400000000 + time_us (dt_time t).

(** the length of a [timedelta] in microseconds *)
Definition delta_us (d : timedelta) : Z :=
  (days d * 86400 + seconds d) * 1000000 + microseconds d.

(** a time on the quarter-hour grid: 0, 15, 30 or 45 minutes past the hour *)
Definition on_grid (t : time) : Prop :=
  minute t mod 15 = 0 /\ second t = 0 /\ microsecond t = 0.

(** the order of dates: year, then month, then day *)
Definition date_before (a b : date) : Prop :=
  year a < year b \/
  year a = year b /\
  (month a < month b \/ month a = month b /\ day a < day b).

(** the month and the day of the day [n] (from 0) of a year, as the end of
    [ord2ymd] finds them *)
Definition month_day (leapyear : bool) (n : Z) : Z * Z :=
  let m := Z.shiftr (n + 50) 5 in
  let preceding :=
    DAYS_BEFORE_MONTH m + (if (2 <? m) && leapyear then 1 else 0) in
  let '(m, preceding) :=
    if n <? preceding
    then (m - 1,
          preceding - (DAYS_IN_MONTH (m - 1) +
                       (if (m - 1 =? 2) && leapyear then 1 else 0)))
    else (m, preceding) in
  (m, n - preceding + 1).

(** What is checked of each day of a year: its month and day exist, and the
    days before them count up to it. *)
Definition month_day_ok (leapyear : bool) (n : Z) : bool :=
  let '(m, d) := month_day leapyear n in
  (1 <=? m) && (m <=? 12) && (1 <=? d) &&
  (d <=? (if (m =? 2) && leapyear then 29 else DAYS_IN_MONTH m)) &&
  (DAYS_BEFORE_MONTH m + (if (2 <? m) && leapyear then 1 else 0) + d =? n + 1).

End Datetime.

(** ** Python values and exceptions *)

(** What [resp.json()] can return. *)
Inductive pyval :=
| PyNone
| PyBool (b : bool)
| PyInt (n : Z)
| PyFloat (x : float)
| PyStr (s : string)
| PyList (l : list pyval)
| PyDict (d : list (string * pyval)).

(** A raised exception: whether its class derives from [Exception] (what
    [except Exception] catches; a bare [except:] catches everything), and
    its [str()]. *)
Record exn := mkexn { is_Exception : bool; exn_str : string }.

Inductive result (A : Type) :=
| Ok (a : A)
| Raise (e : exn).
Arguments Ok {A} a.
Arguments Raise {A} e.

Definition type_name (v : pyval) : string :=
  match v with
  | PyNone => "NoneType"
  | PyBool _ => "bool"
  | PyInt _ => "int"
  | PyFloat _ => "float"
  | PyStr _ => "str"
  | PyList _ => "list"
  | PyDict _ => "dict"
  end.

Definition AttributeError (v : pyval) (attr : string) : exn :=
  mkexn true ("'" +:+ type_name v +:+ "' object has no attribute '" +:+ attr +:+ "'").

Definition TypeError_float (v : pyval) : exn :=
  mkexn true ("float() argument must be a string or a real number, not '"
              +:+ type_name v +:+ "'").

Definition OverflowError_float : exn :=
  mkexn true "int too large to convert to float".

Definition KeyError (key : string) : exn := mkexn true ("'" +:+ key +:+ "'").

Definition OverflowError_date : exn := mkexn true "date value out of range".

Fixpoint dict_lookup (d : list (string * pyval)) (key : string) : option pyval :=
  match d with
  | [] => None
  | (k, v) :: d => if String.eqb k key then Some v else dict_lookup d key
  end.

(** [v.get(key)]: [None] for a missing key; only a dictionary has [get]. *)
Definition py_get (v : pyval) (key : string) : result pyval :=
  match v with
  | PyDict d => Ok (default PyNone (dict_lookup d key))
  | _ => Raise (AttributeError v "get")
  end.

(** [float(n)] of an integer: the nearest binary64 value, ties to even, and
    [OverflowError] beyond the largest one. *)
Definition float_of_int (n : Z) : result float :=
  match SpecFloat.binary_normalize prec emax n 0 false with
  | S754_infinity _ => Raise OverflowError_float
  | sf => Ok (SF2Prim sf)
  end.

(** [float(v)]. How Python reads a string as a float is left to
    [float_of_str], which answers with the float or with the [ValueError]. *)
Definition py_float (float_of_str : string -> result float) (v : pyval)
  : result float :=
  match v with
  | PyFloat x => Ok x
  | PyInt n => float_of_int n
  | PyBool b => Ok (if b then 1%float else 0%float)
  | PyStr s => float_of_str s
  | PyNone | PyList _ | PyDict _ => Raise (TypeError_float v)
  end.

(** ** [f"{x:.2f}"]

    The decimal with two digits after the point that is nearest to the exact
    value of the float, ties to the even last digit. *)

(** the integer nearest to [m * 2^e], ties to even *)
Definition round_half_even (m e : Z) : Z :=
  if 0 <=? e then m * 2 ^ e
  else
    let d := 2 ^ (- e) in
    let q := m / d in
    let r := m mod d in
    match 2 * r ?= d with
    | Lt => q
    | Gt => q + 1
    | Eq => if Z.even q then q else q + 1
    end.

Definition sign_str (s : bool) : string := if s then "-" else "".

Definition format_2f (x : float) : string :=
  match Prim2SF x with
  | S754_nan => "nan"
  | S754_infinity s => sign_str s +:+ "inf"
  | S754_zero s => sign_str s +:+ "0.00"
  | S754_finite s m e =>
      let n := round_half_even (100 * Z.pos m) e in
      sign_str s +:+ pretty (n / 100) +:+ "." +:+
      Datetime.zfill 2 (pretty (n mod 100))
  end.

(** ** Runs of the script

    A run threads the session state, appends to the page what it shows and
    which outside calls it makes, and ends normally or in an exception. What
    was written before an exception stays written. *)

Record latlng := { lat : float; lng : float }.

(** A [geopy] Location; it is truthy. *)
Record Location := { address : string }.

(** The response of the fare API: [resp.json()] parses on demand and can
    raise. *)
Record response := { status_code : Z; json : result pyval }.

(** What a run leaves on the page and asks of the outside, as far as the
    properties below speak of it; titles, headers and the maps themselves
    are not recorded. *)
Inductive event :=
| Error (msg : string)      (* st.error *)
| Success (msg : string)    (* st.success *)
| Caption (msg : string)    (* st.caption *)
| Reverse (lat lon : float) (* geolocator.reverse(f"{lat}, {lon}") *)
| Get (url : string) (params : list (string * pyval)) (timeout : Z).
                            (* requests.get(url, params=params, timeout=timeout) *)

Record world := mkworld {
  session_state : gmap string float;
  page : list event
}.

Definition M (A : Type) : Type := world -> result A * world.

Definition ret {A} (a : A) : M A := fun w => (Ok a, w).

Definition bind {A B} (c : M A) (k : A -> M B) : M B :=
  fun w =>
    match c w with
    | (Ok a, w) => k a w
    | (Raise e, w) => (Raise e, w)
    end.

#[export] Instance M_ret : MRet M := @ret.
#[export] Instance M_bind : MBind M := fun A B k c => bind c k.

Definition lift {A} (r : result A) : M A := fun w => (r, w).

Definition emit (e : event) : M unit :=
  fun w => (Ok tt, mkworld (session_state w) (page w ++ [e])).

(** [try: body  except <catches>: handler] *)
Definition try_except {A} (body : M A) (catches : exn -> bool)
    (handler : exn -> M A) : M A :=
  fun w =>
    match body w with
    | (Ok a, w) => (Ok a, w)
    | (Raise e, w) => if catches e then handler e w else (Raise e, w)
    end.

(** [key in st.session_state] *)
Definition contains (key : string) : M bool :=
  fun w => (Ok (bool_decide (is_Some (session_state w !! key))), w).

(** [st.session_state[key]] *)
Definition getitem (key : string) : M float :=
  fun w =>
    match session_state w !! key with
    | Some v => (Ok v, w)
    | None => (Raise (KeyError key), w)
    end.

(** [st.session_state[key] = v] *)
Definition setitem (key : string) (v : float) : M unit :=
  fun w => (Ok tt, mkworld (<[key := v]> (session_state w)) (page w)).

Fixpoint for_each {A} (l : list A) (body : A -> M unit) : M unit :=
  match l with
  | [] => mret tt
  | x :: l => body x;; for_each l body
  end.

(** [sub in s] on strings *)
Fixpoint str_in (sub s : string) : bool :=
  String.prefix sub s ||
  match s with
  | EmptyString => false
  | String _ s => str_in sub s
  end.

(** What the outside world hands to one run of the script. *)
Record inputs := {
  API_URL : string;                         (* st.secrets['API_URL'] *)
  now : Datetime.datetime;                  (* datetime.datetime.now() *)
  date_input : option Datetime.date;        (* the date picked, if any *)
  time_input : option Datetime.time;        (* the time picked, if any *)
  slider : option Z;                        (* the passenger count picked *)
  pick_state : option latlng;               (* pick_state["last_clicked"] *)
  pick_address : result (option Location);  (* answer of the geocoder *)
  drop_state : option latlng;               (* drop_state["last_clicked"] *)
  drop_address : result (option Location);
  button : bool;                            (* "Estimate Fare" pressed *)
  get_answer : result response;             (* answer of requests.get *)
  float_of_str : string -> result float     (* float() of a string *)
}.

Definition geolocator_reverse (answer : result (option Location))
    (lat lon : float) : M (option Location) :=
  emit (Reverse lat lon);; lift answer.

Definition requests_get (answer : result response) (url : string)
    (params : list (string * pyval)) (timeout : Z) : M response :=
  emit (Get url params timeout);; lift answer.

(** ** 4. Session state *)

(** the body of the loop *)
Definition init_key (key : string) : M unit :=
  present ← contains key;
  if negb present
  then setitem key (if str_in "lat" key then DEFAULT_LAT else DEFAULT_LON)
  else mret tt.

Definition init_session : M unit :=
  for_each ["pickup_lat"; "pickup_lon"; "dropoff_lat"; "dropoff_lon"] init_key.

(** ** 6. Sidebar *)

(** The script's globals set in the sidebar and read at submit. *)
Record sidebar_values := {
  dt_raw : Datetime.datetime;
  dt_valid : bool;
  pickup_datetime_formatted : string;
  passenger_count : Z
}.

Definition minutes_to_next (now : Datetime.datetime) : Z :=
  (15 - (Datetime.minute (Datetime.dt_time now) mod 15)) mod 15.

(** [(now + timedelta(minutes=minutes_to_next)).replace(second=0, microsecond=0)] *)
Definition rounded_time (now : Datetime.datetime) : option Datetime.datetime :=
  match Datetime.add now (Datetime.minutes_delta (minutes_to_next now)) with
  | Some t => Some (Datetime.replace_second_microsecond t 0 0)
  | None => None
  end.

Definition sidebar (i : inputs) : M sidebar_values :=
  let date_data := default (Datetime.dt_date (now i)) (date_input i) in
  rounded ← lift (match rounded_time (now i) with
                  | Some t => Ok t
                  | None => Raise OverflowError_date
                  end);
  let time_data := default (Datetime.dt_time rounded) (time_input i) in
  let dt_raw := Datetime.combine date_data time_data in
  let dt_valid := Datetime.ge dt_raw (now i) in
  (if negb dt_valid then emit (Error "Time must be in the future.") else mret tt);;
  mret {| dt_raw := dt_raw;
          dt_valid := dt_valid;
          pickup_datetime_formatted := Datetime.strftime_Ymd_HMS dt_raw;
          passenger_count := default 2 (slider i) |}.

(** ** 7. Two maps *)

(** The map is centred on, and the marker placed at, the stored coordinate:
    four reads of the session state. *)
Definition render_map (lat_key lon_key : string) : M unit :=
  getitem lat_key;; getitem lon_key;; getitem lat_key;; getitem lon_key;;
  mret tt.

(** [if state and state.get("last_clicked"): ...] *)
Definition click_handler (lat_key lon_key : string) (outside : string)
    (clicked : option latlng) : M unit :=
  match clicked with
  | Some c =>
      let lat := lat c in
      let lon := lng c in
      if is_within_nyc lon lat
      then setitem lat_key lat;; setitem lon_key lon
      else emit (Error outside)
  | None => mret tt
  end.

(** The [try: ... except: ...] around the address lookup; the bare [except:]
    catches every exception. *)
Definition address_caption (lat_key lon_key : string)
    (answer : result (option Location)) : M unit :=
  try_except
    (lat ← getitem lat_key;
     lon ← getitem lon_key;
     loc ← geolocator_reverse answer lat lon;
     emit (Caption ("📨 Address: " +:+
                    match loc with
                    | Some l => address l
                    | None => "Not found"
                    end)))
    (fun _ => true)
    (fun _ => emit (Caption "Address lookup unavailable.")).

Definition pickup_click (clicked : option latlng) : M unit :=
  click_handler "pickup_lat" "pickup_lon" "Selected pickup is outside NYC." clicked.

Definition dropoff_click (clicked : option latlng) : M unit :=
  click_handler "dropoff_lat" "dropoff_lon" "Selected dropoff is outside NYC." clicked.

Definition pickup_column (i : inputs) : M unit :=
  render_map "pickup_lat" "pickup_lon";;
  pickup_click (pick_state i);;
  address_caption "pickup_lat" "pickup_lon" (pick_address i).

Definition dropoff_column (i : inputs) : M unit :=
  render_map "dropoff_lat" "dropoff_lon";;
  dropoff_click (drop_state i);;
  address_caption "dropoff_lat" "dropoff_lon" (drop_address i).

(** ** 8. Estimate fare API call *)

(** The body of [try:] after a successful [requests.get]. *)
Definition show_fare (i : inputs) (resp : response) : M unit :=
  if status_code resp =? 200 then
    result ← lift (json resp);
    fare ← lift (py_get result "fare");
    match fare with
    | PyNone => emit (Error "No 'fare' in API response.")
    | _ =>
        x ← lift (py_float (float_of_str i) fare);
        emit (Success ("Estimated Fare: **$" +:+ format_2f x +:+ "**"))
    end
  else emit (Error ("API error " +:+ pretty (status_code resp))).

(** What happens when the button is pressed. *)
Definition estimate_fare (i : inputs) (sv : sidebar_values) : M unit :=
  if negb (dt_valid sv) then emit (Error "Please select a valid future time.")
  else
    pickup_lon ← getitem "pickup_lon";
    pickup_lat ← getitem "pickup_lat";
    if negb (is_within_nyc pickup_lon pickup_lat)
    then emit (Error "Pickup outside NYC.")
    else
      dropoff_lon ← getitem "dropoff_lon";
      dropoff_lat ← getitem "dropoff_lat";
      if negb (is_within_nyc dropoff_lon dropoff_lat)
      then emit (Error "Dropoff outside NYC.")
      else
        pickup_longitude ← getitem "pickup_lon";
        pickup_latitude ← getitem "pickup_lat";
        dropoff_longitude ← getitem "dropoff_lon";
        dropoff_latitude ← getitem "dropoff_lat";
        let params :=
          [("pickup_datetime", PyStr (pickup_datetime_formatted sv));
           ("pickup_longitude", PyFloat pickup_longitude);
           ("pickup_latitude", PyFloat pickup_latitude);
           ("dropoff_longitude", PyFloat dropoff_longitude);
           ("dropoff_latitude", PyFloat dropoff_latitude);
           ("passenger_count", PyInt (passenger_count sv))] in
        try_except
          (resp ← requests_get (get_answer i) (API_URL i) params 10;
           show_fare i resp)
          is_Exception
          (fun e => emit (Error ("Network error: " +:+ exn_str e))).

Definition submit (i : inputs) (sv : sidebar_values) : M unit :=
  if button i then estimate_fare i sv else mret tt.

(** The whole script, top to bottom. *)
Definition app (i : inputs) : M unit :=
  init_session;;
  sv ← sidebar i;
  pickup_column i;;
  dropoff_column i;;
  submit i sv.

(** One rerun of the script on the session the last one left; the page is
    drawn anew. *)
Definition rerun (i : inputs) (s : gmap string float) : result unit * world :=
  app i (mkworld s []).

(** The sessions the script can be in: a new session is empty, and a rerun
    leaves behind what it wrote, also when it ended in an exception. *)
Inductive reachable : gmap string float -> Prop :=
| reachable_new : reachable ∅
| reachable_rerun i s :
    reachable s -> reachable (session_state (rerun i s).2).

(** ** What is observed of a run *)

(** the HTTP requests among the events of a page *)
Definition is_get (e : event) : bool :=
  match e with
  | Get _ _ _ => true
  | _ => false
  end.

Definition gets (p : list event) : list event := List.filter is_get p.

(** everything on a page but the address captions and the lookups behind them *)
Definition is_geocoding (e : event) : bool :=
  match e with
  | Caption _ | Reverse _ _ => true
  | _ => false
  end.

Definition without_geocoding (p : list event) : list event :=
  List.filter (fun e => negb (is_geocoding e)) p.

(** the same inputs with other answers of the geocoder *)
Definition with_addresses (i : inputs) (a b : result (option Location)) : inputs :=
  {| API_URL := API_URL i; now := now i; date_input := date_input i;
     time_input := time_input i; slider := slider i;
     pick_state := pick_state i; pick_address := a;
     drop_state := drop_state i; drop_address := b;
     button := button i; get_answer := get_answer i;
     float_of_str := float_of_str i |}.

(** A computation that leaves the session state as it found it, however it
    ends. *)
Definition session_unchanged {A} (c : M A) : Prop :=
  forall w, session_state (c w).2 = session_state w.

(** A property of the world that a computation keeps, however it ends. *)
Definition keeps {A} (I : world -> Prop) (c : M A) : Prop :=
  forall w, I w -> I (c w).2.

(** The stored coordinate under [lat_key] and [lon_key] is there and passes
    the geofence. *)
Definition coordinate_in_nyc (lat_key lon_key : string)
    (s : gmap string float) : Prop :=
  exists lat lon,
    s !! lat_key = Some lat /\ s !! lon_key = Some lon /\
    is_within_nyc lon lat = true.

Definition coordinates_in_nyc (s : gmap string float) : Prop :=
  coordinate_in_nyc "pickup_lat" "pickup_lon" s /\
  coordinate_in_nyc "dropoff_lat" "dropoff_lon" s.

(** [s] matches [pattern] character by character, where a [d] of the pattern
    stands for any decimal digit. *)
Definition is_digit (c : ascii) : bool :=
  (48 <=? nat_of_ascii c)%nat && (nat_of_ascii c <=? 57)%nat.

Fixpoint matches (pattern s : string) : bool :=
  match pattern, s with
  | EmptyString, EmptyString => true
  | String p pattern, String c s =>
      (if Ascii.eqb p "d" then is_digit c else Ascii.eqb p c) && matches pattern s
  | _, _ => false
  end.

(** e.g. [2026-11-03 10:15:00] *)
Definition is_Ymd_HMS (s : string) : bool := matches "dddd-dd-dd dd:dd:dd" s.

(** the world with one more event on the page *)
Definition shows (w : world) (e : event) : world :=
  mkworld (session_state w) (page w ++ [e]).

(** the query parameters of the fare request *)
Definition fare_params (sv : sidebar_values) (plon plat dlon dlat : float)
  : list (string * pyval) :=
  [("pickup_datetime", PyStr (pickup_datetime_formatted sv));
   ("pickup_longitude", PyFloat plon);
   ("pickup_latitude", PyFloat plat);
   ("dropoff_longitude", PyFloat dlon);
   ("dropoff_latitude", PyFloat dlat);
   ("passenger_count", PyInt (passenger_count sv))].

(** a string that ends in a point and two decimal digits *)
Fixpoint two_decimals (s : string) : bool :=
  match s with
  | EmptyString => false
  | String c s' =>
      (Ascii.eqb c "." &&
       match s' with
       | String a (String b EmptyString) => is_digit a && is_digit b
       | _ => false
       end)
      || two_decimals s'
  end.

(** ** Sample inputs, for the examples

    Tuesday 3 November 2026, 10:07; pickup at the default coordinate,
    dropoff clicked at (40.76, -73.99), two passengers, and a fare API that
    answers [{"fare": 12.5}]. *)

Definition ValueError (s : string) : exn :=
  mkexn true ("could not convert string to float: '" +:+ s +:+ "'").

Definition sample_inputs : inputs := {|
  API_URL := "https://taxifare.example/predict";
  now := Datetime.combine (Datetime.mkdate 2026 11 3) (Datetime.mktime 10 7 0 0);
  date_input := None;
  time_input := None;
  slider := None;
  pick_state := None;
  pick_address := Ok (Some {| address := "Manhattan, New York" |});
  drop_state := Some {| lat := 40.76%float; lng := (-73.99)%float |};
  drop_address := Ok None;
  button := true;
  get_answer := Ok {| status_code := 200;
                      json := Ok (PyDict [("fare", PyFloat 12.5%float)]) |};
  float_of_str := fun s => Raise (ValueError s)
|}.

(** the same inputs at another time, with another time picked, with another
    answer of the fare API *)
Definition at_time (i : inputs) (t : Datetime.datetime) : inputs :=
  {| API_URL := API_URL i; now := t; date_input := date_input i;
     time_input := time_input i; slider := slider i;
     pick_state := pick_state i; pick_address := pick_address i;
     drop_state := drop_state i; drop_address := drop_address i;
     button := button i; get_answer := get_answer i;
     float_of_str := float_of_str i |}.

Definition picking_time (i : inputs) (t : Datetime.time) : inputs :=
  {| API_URL := API_URL i; now := now i; date_input := date_input i;
     time_input := Some t; slider := slider i;
     pick_state := pick_state i; pick_address := pick_address i;
     drop_state := drop_state i; drop_address := drop_address i;
     button := button i; get_answer := get_answer i;
     float_of_str := float_of_str i |}.

Definition answering (i : inputs) (r : result response) : inputs :=
  {| API_URL := API_URL i; now := now i; date_input := date_input i;
     time_input := time_input i; slider := slider i;
     pick_state := pick_state i; pick_address := pick_address i;
     drop_state := drop_state i; drop_address := drop_address i;
     button := button i; get_answer := r;
     float_of_str := float_of_str i |}.

Definition sample_sidebar : sidebar_values := {|
  dt_raw := Datetime.combine (Datetime.mkdate 2026 11 3) (Datetime.mktime 10 15 0 0);
  dt_valid := true;
  pickup_datetime_formatted := "2026-11-03 10:15:00";
  passenger_count := 2
|}.

(** the session after the dropoff click of [sample_inputs] *)
Definition sample_world : world :=
  mkworld (<["dropoff_lon" := (-73.99)%float]>
             (<["dropoff_lat" := 40.76%float]>
                (<["dropoff_lon" := DEFAULT_LON]>
                   (<["dropoff_lat" := DEFAULT_LAT]>
                      (<["pickup_lon" := DEFAULT_LON]>
                         (<["pickup_lat" := DEFAULT_LAT]> ∅))))))
          [].

(** a session whose pickup coordinate lies west of the box, which no run of
    the script leaves behind *)
Definition stale_world : world :=
  mkworld (<["pickup_lon" := (-75)%float]> (session_state sample_world)) [].

(** a float that is a number: neither [nan] nor an infinity *)
Definition is_number (x : float) : bool :=
  match Prim2SF x with
  | S754_finite _ _ _ | S754_zero _ => true
  | _ => false
  end.

(** a page without the two geofence errors of the submit handler *)
Definition no_submit_geofence_error (p : list event) : Prop :=
  ~ In (Error "Pickup outside NYC.") p /\ ~ In (Error "Dropoff outside NYC.") p.

(** a world whose stored coordinates pass the geofence and whose page is
    without these two errors *)
Definition in_service (w : world) : Prop :=
  coordinates_in_nyc (session_state w) /\ no_submit_geofence_error (page w).

(** [P] holds of the [n] integers from [lo] on *)
Fixpoint forall_from (P : Z -> bool) (lo : Z) (n : nat) : bool :=
  match n with
  | O => true
  | S n => P lo && forall_from P (lo + 1) n
  end.

(** the world once the fare request is out *)
Definition after_request (i : inputs) (sv : sidebar_values) (w : world)
    (plon plat dlon dlat : float) : world :=
  shows w (Get (API_URL i) (fare_params sv plon plat dlon dlat) 10).

(** Two worlds that differ at most in what the geocoder put on the page. *)
Definition same_but_geocoding (w w' : world) : Prop :=
  session_state w = session_state w' /\
  without_geocoding (page w) = without_geocoding (page w').

(** Two computations that, from such worlds, end the same way in such worlds. *)
Definition alike {A} (c c' : M A) : Prop :=
  forall w w', same_but_geocoding w w' ->
    (c w).1 = (c' w').1 /\ same_but_geocoding (c w).2 (c' w').2.


(** ** More of what is observed of a run *)

(** the four keys of the session state *)
Definition session_keys : list string :=
  ["pickup_lat"; "pickup_lon"; "dropoff_lat"; "dropoff_lon"].

(** a world whose session state has the four keys *)
Definition has_keys (w : world) : Prop :=
  forall key, In key session_keys -> is_Some (session_state w !! key).

(** the sidebar's values when the default time is [rounded] *)
Definition sidebar_values_of (i : inputs) (rounded : Datetime.datetime)
  : sidebar_values :=
  let raw :=
    Datetime.combine (default (Datetime.dt_date (now i)) (date_input i))
                     (default (Datetime.dt_time rounded) (time_input i)) in
  {| dt_raw := raw;
     dt_valid := Datetime.ge raw (now i);
     pickup_datetime_formatted := Datetime.strftime_Ymd_HMS raw;
     passenger_count := default 2 (slider i) |}.

(** the click, when there is one and it passes the geofence *)
Definition accepted (clicked : option latlng) : option latlng :=
  match clicked with
  | Some c => if is_within_nyc (lng c) (lat c) then Some c else None
  | None => None
  end.

(** the text of the address caption *)
Definition caption_of (answer : result (option Location)) : string :=
  match answer with
  | Ok (Some l) => "📨 Address: " +:+ address l
  | Ok None => "📨 Address: Not found"
  | Raise _ => "Address lookup unavailable."
  end.

(** the session state with the coordinate [c], if any, stored under the two
    keys *)
Definition store (lat_key lon_key : string) (c : option latlng)
    (s : gmap string float) : gmap string float :=
  match c with
  | Some c => <[lon_key := lng c]> (<[lat_key := lat c]> s)
  | None => s
  end.

(** inputs under which the fare request raises what [except Exception] does
    not catch *)
Definition interrupted_inputs : inputs :=
  answering sample_inputs (Raise (mkexn false "KeyboardInterrupt")).

(** a world whose page is [p0] followed by events none of which is in [bad] *)
Definition adds_none_of (bad p0 : list event) (w : world) : Prop :=
  exists added, page w = p0 ++ added /\ forall e, In e bad -> ~ In e added.

(** the time error of the sidebar and that of the submit handler *)
Definition time_errors : list event :=
  [Error "Time must be in the future.";
   Error "Please select a valid future time."].

(** the number that a string of decimal digits stands for *)
Definition digit_value (c : ascii) : Z := Z.of_nat (nat_of_ascii c) - 48.

Fixpoint digits_value_from (acc : Z) (s : string) : Z :=
  match s with
  | EmptyString => acc
  | String c s => digits_value_from (acc * 10 + digit_value c) s
  end.

Definition digits_value (s : string) : Z := digits_value_from 0 s.

(** the six numbers at the places of the digits of ["dddd-dd-dd dd:dd:dd"] *)
Definition read_Ymd_HMS (s : string) : list Z :=
  [digits_value (String.substring 0 4 s); digits_value (String.substring 5 2 s);
   digits_value (String.substring 8 2 s); digits_value (String.substring 11 2 s);
   digits_value (String.substring 14 2 s); digits_value (String.substring 17 2 s)].

(** a string of this length whose digits stand for [z] *)
Definition reads_as (width : nat) (s : string) (z : Z) : bool :=
  (String.length s =? width)%nat && (digits_value s =? z).

(** the sample ride booked for the next evening, for three *)
Definition evening_inputs : inputs := {|
  API_URL := API_URL sample_inputs;
  now := now sample_inputs;
  date_input := Some (Datetime.mkdate 2026 11 4);
  time_input := Some (Datetime.mktime 18 30 0 0);
  slider := Some 3;
  pick_state := pick_state sample_inputs;
  pick_address := pick_address sample_inputs;
  drop_state := drop_state sample_inputs;
  drop_address := drop_address sample_inputs;
  button := button sample_inputs;
  get_answer := get_answer sample_inputs;
  float_of_str := float_of_str sample_inputs
|}.

Definition evening_sidebar : sidebar_values := {|
  dt_raw := Datetime.combine (Datetime.mkdate 2026 11 4) (Datetime.mktime 18 30 0 0);
  dt_valid := true;
  pickup_datetime_formatted := "2026-11-04 18:30:00";
  passenger_count := 3
|}.

(** * Properties *)

(** ** Checking a range of integers *)

(** A property checked on each of the [n] integers from [lo] on holds of
    them all. *)
Lemma forall_from_spec (P : Z -> bool) (n : nat) : forall lo,
  forall_from P lo n = true ->
  forall z, lo <= z < lo + Z.of_nat n -> P z = true.
Proof.
  induction n as [|n IH]; intros lo H z Hz; [lia|].
  cbn [forall_from] in H. apply andb_true_iff in H as [Hlo H].
  destruct (Z.eq_dec z lo) as [->|Hne]; [exact Hlo|].
  apply (IH (lo + 1) H). lia.
Qed.

(** ** The geofence *)

Lemma is_within_nyc_true lon lat :
  is_within_nyc lon lat = true <->
  (((-74.25) <? lon)%float = true /\ (lon <? (-73.70))%float = true) /\
  ((40.50 <? lat)%float = true /\ (lat <? 40.92)%float = true).
Proof.
  unfold is_within_nyc; cbn [NYC_BOUNDS min_lon max_lon min_lat max_lat].
  rewrite !andb_true_iff. reflexivity.
Qed.

Lemma is_within_nyc_false lon lat :
  is_within_nyc lon lat = false <->
  ((-74.25) <? lon)%float = false \/ (lon <? (-73.70))%float = false \/
  (40.50 <? lat)%float = false \/ (lat <? 40.92)%float = false.
Proof.
  unfold is_within_nyc; cbn [NYC_BOUNDS min_lon max_lon min_lat max_lat].
  rewrite !andb_false_iff. tauto.
Qed.

(** C1. [is_within_nyc lon lat] is true exactly when
    [-74.25 < lon < -73.70] and [40.50 < lat < 40.92], the comparisons being
    those of Python floats and strict: on each of the four edges of the box
    the answer is false, whatever the other coordinate, and so it is at
    [(lon=-74.25, lat=40.75)]. *)
Theorem C1_is_within_nyc_strict_box :
  (forall lon lat,
     is_within_nyc lon lat = true <->
     (((-74.25) <? lon)%float = true /\ (lon <? (-73.70))%float = true) /\
     ((40.50 <? lat)%float = true /\ (lat <? 40.92)%float = true)) /\
  (forall lat, is_within_nyc (-74.25) lat = false) /\
  (forall lat, is_within_nyc (-73.70) lat = false) /\
  (forall lon, is_within_nyc lon 40.50 = false) /\
  (forall lon, is_within_nyc lon 40.92 = false) /\
  is_within_nyc (-74.25) 40.75 = false.
Proof.
  split; [exact is_within_nyc_true|].
  split; [intros lat; apply is_within_nyc_false; left; reflexivity|].
  split; [intros lat; apply is_within_nyc_false; right; left; reflexivity|].
  split; [intros lon; apply is_within_nyc_false; right; right; left; reflexivity|].
  split; [intros lon; apply is_within_nyc_false; right; right; right; reflexivity|].
  reflexivity.
Qed.

Example is_within_nyc_samples :
  is_within_nyc DEFAULT_LON DEFAULT_LAT = true /\
  is_within_nyc (-73.99) 40.76 = true /\
  is_within_nyc (-74.26) 40.75 = false /\
  is_within_nyc (-73.98) 40.93 = false /\
  is_within_nyc nan 40.75 = false /\
  is_within_nyc (-73.98) infinity = false.
Proof. vm_compute. repeat split. Qed.

(** ** Running computations *)

Lemma run_bind {A B} (c : M A) (k : A -> M B) (w : world) :
  (c ≫= k) w =
  match c w with
  | (Ok a, w') => k a w'
  | (Raise e, w') => (Raise e, w')
  end.
Proof. reflexivity. Qed.

Lemma run_getitem key v (w : world) :
  session_state w !! key = Some v -> getitem key w = (Ok v, w).
Proof. intros H. unfold getitem. rewrite H. reflexivity. Qed.

Lemma world_eta (w : world) : mkworld (session_state w) (page w) = w.
Proof. destruct w; reflexivity. Qed.

(** ** Computations that leave the session state alone *)

Section SessionUnchanged.
Context {A B : Type}.

Lemma session_unchanged_ret (a : A) : session_unchanged (mret a : M A).
Proof. intros w; reflexivity. Qed.

Lemma session_unchanged_lift (r : result A) : session_unchanged (lift r).
Proof. intros w; reflexivity. Qed.

Lemma session_unchanged_emit (e : event) : session_unchanged (emit e).
Proof. intros w; reflexivity. Qed.

Lemma session_unchanged_getitem key : session_unchanged (getitem key).
Proof. intros w. unfold getitem. destruct (session_state w !! key); reflexivity. Qed.

Lemma session_unchanged_bind (c : M A) (k : A -> M B) :
  session_unchanged c -> (forall a, session_unchanged (k a)) ->
  session_unchanged (c ≫= k).
Proof.
  intros Hc Hk w. rewrite run_bind. specialize (Hc w).
  destruct (c w) as [[a|e] w']; cbn in *; [rewrite Hk|]; exact Hc.
Qed.

Lemma session_unchanged_try_except (body : M A) catches handler :
  session_unchanged body -> (forall e, session_unchanged (handler e)) ->
  session_unchanged (try_except body catches handler).
Proof.
  intros Hb Hh w. unfold try_except. specialize (Hb w).
  destruct (body w) as [[a|e] w']; cbn in *; [exact Hb|].
  destruct (catches e); cbn; [rewrite Hh|]; exact Hb.
Qed.
End SessionUnchanged.

Create HintDb session discriminated.

Ltac session_unchanged :=
  repeat first
    [ solve [auto with session]
    | apply session_unchanged_ret
    | apply session_unchanged_lift
    | apply session_unchanged_emit
    | apply session_unchanged_getitem
    | apply session_unchanged_bind; [|intros ?]
    | apply session_unchanged_try_except; [|intros ?]
    | match goal with
      | |- session_unchanged (if ?b then _ else _) => destruct b
      | |- session_unchanged (match ?x with _ => _ end) => destruct x
      end ].

Lemma session_unchanged_geolocator_reverse answer lat lon :
  session_unchanged (geolocator_reverse answer lat lon).
Proof. unfold geolocator_reverse. session_unchanged. Qed.
#[export] Hint Resolve session_unchanged_geolocator_reverse : session.

Lemma session_unchanged_requests_get answer url params timeout :
  session_unchanged (requests_get answer url params timeout).
Proof. unfold requests_get. session_unchanged. Qed.
#[export] Hint Resolve session_unchanged_requests_get : session.

Lemma session_unchanged_show_fare i resp : session_unchanged (show_fare i resp).
Proof. unfold show_fare. session_unchanged. Qed.
#[export] Hint Resolve session_unchanged_show_fare : session.

Lemma session_unchanged_estimate_fare i sv : session_unchanged (estimate_fare i sv).
Proof. unfold estimate_fare. session_unchanged. Qed.
#[export] Hint Resolve session_unchanged_estimate_fare : session.

Lemma session_unchanged_submit i sv : session_unchanged (submit i sv).
Proof. unfold submit. session_unchanged. Qed.

Lemma session_unchanged_sidebar i : session_unchanged (sidebar i).
Proof. unfold sidebar. session_unchanged. Qed.

Lemma session_unchanged_render_map lat_key lon_key :
  session_unchanged (render_map lat_key lon_key).
Proof. unfold render_map. session_unchanged. Qed.

Lemma session_unchanged_address_caption lat_key lon_key answer :
  session_unchanged (address_caption lat_key lon_key answer).
Proof. unfold address_caption. session_unchanged. Qed.

(** C8. Pressing (or not pressing) the submit button never writes to the
    session state: whatever the sidebar values, the stored coordinates and
    the answer of the fare API, hence however the attempt ends (rejected by
    a precondition, network error, status other than 200, no fare, success,
    or an exception that is not caught), the session state after it is the
    session state before it. The date, the time and the passenger count are
    widget values handed to the handler, which returns nothing. *)
Theorem C8_submit_leaves_session_state (i : inputs) (sv : sidebar_values)
    (w : world) :
  session_state (submit i sv w).2 = session_state w.
Proof. apply session_unchanged_submit. Qed.

(** ** The two map pickers *)

Lemma click_handler_inside lat_key lon_key outside (c : latlng) (w : world) :
  is_within_nyc (lng c) (lat c) = true ->
  click_handler lat_key lon_key outside (Some c) w =
  (Ok tt, mkworld (<[lon_key := lng c]> (<[lat_key := lat c]> (session_state w)))
                  (page w)).
Proof. intros H. unfold click_handler. rewrite H. reflexivity. Qed.

Lemma click_handler_outside lat_key lon_key outside (c : latlng) (w : world) :
  is_within_nyc (lng c) (lat c) = false ->
  click_handler lat_key lon_key outside (Some c) w =
  (Ok tt, mkworld (session_state w) (page w ++ [Error outside])).
Proof. intros H. unfold click_handler. rewrite H. reflexivity. Qed.

Lemma click_handler_other_keys lat_key lon_key outside clicked (w : world) key :
  key <> lat_key -> key <> lon_key ->
  session_state (click_handler lat_key lon_key outside clicked w).2 !! key
  = session_state w !! key.
Proof.
  intros Hlat Hlon. destruct clicked as [c|]; [|reflexivity].
  destruct (is_within_nyc (lng c) (lat c)) eqn:H.
  - rewrite click_handler_inside by exact H. cbn.
    rewrite !lookup_insert_ne by congruence. reflexivity.
  - rewrite click_handler_outside by exact H. reflexivity.
Qed.

Lemma click_handler_ok lat_key lon_key outside clicked (w : world) :
  (click_handler lat_key lon_key outside clicked w).1 = Ok tt.
Proof.
  destruct clicked as [c|]; [|reflexivity].
  unfold click_handler. destruct (is_within_nyc (lng c) (lat c)); reflexivity.
Qed.

(** C5. A click at [c] on the pickup map: when [c] passes [is_within_nyc],
    the stored pickup coordinate becomes [c] and nothing is shown; when it
    fails, the session state is left as it was and the error
    "Selected pickup is outside NYC." is shown. The same holds for the
    dropoff map with the dropoff coordinate and its own message. A click on
    one map changes no key of the session state other than the two of that
    map, so never the other map's coordinate. *)
Theorem C5_map_click (c : latlng) (w : world) :
  (is_within_nyc (lng c) (lat c) = true ->
     (pickup_click (Some c) w =
        (Ok tt, mkworld (<["pickup_lon" := lng c]>
                           (<["pickup_lat" := lat c]> (session_state w)))
                        (page w)) /\
      session_state (pickup_click (Some c) w).2 !! "pickup_lat" = Some (lat c) /\
      session_state (pickup_click (Some c) w).2 !! "pickup_lon" = Some (lng c)) /\
     (dropoff_click (Some c) w =
        (Ok tt, mkworld (<["dropoff_lon" := lng c]>
                           (<["dropoff_lat" := lat c]> (session_state w)))
                        (page w)) /\
      session_state (dropoff_click (Some c) w).2 !! "dropoff_lat" = Some (lat c) /\
      session_state (dropoff_click (Some c) w).2 !! "dropoff_lon" = Some (lng c))) /\
  (is_within_nyc (lng c) (lat c) = false ->
     pickup_click (Some c) w =
       (Ok tt, mkworld (session_state w)
                       (page w ++ [Error "Selected pickup is outside NYC."])) /\
     dropoff_click (Some c) w =
       (Ok tt, mkworld (session_state w)
                       (page w ++ [Error "Selected dropoff is outside NYC."]))) /\
  (forall key, key <> "pickup_lat" -> key <> "pickup_lon" ->
     session_state (pickup_click (Some c) w).2 !! key = session_state w !! key) /\
  (forall key, key <> "dropoff_lat" -> key <> "dropoff_lon" ->
     session_state (dropoff_click (Some c) w).2 !! key = session_state w !! key).
Proof.
  unfold pickup_click, dropoff_click. repeat split.
  - apply click_handler_inside; assumption.
  - rewrite click_handler_inside by assumption. cbn.
    rewrite lookup_insert_ne by discriminate. apply lookup_insert_eq.
  - rewrite click_handler_inside by assumption. apply lookup_insert_eq.
  - apply click_handler_inside; assumption.
  - rewrite click_handler_inside by assumption. cbn.
    rewrite lookup_insert_ne by discriminate. apply lookup_insert_eq.
  - rewrite click_handler_inside by assumption. apply lookup_insert_eq.
  - apply click_handler_outside; assumption.
  - apply click_handler_outside; assumption.
  - intros; apply click_handler_other_keys; assumption.
  - intros; apply click_handler_other_keys; assumption.
Qed.

Example pickup_click_keeps_dropoff (c : latlng) (w : world) :
  session_state (pickup_click (Some c) w).2 !! "dropoff_lat"
  = session_state w !! "dropoff_lat" /\
  session_state (pickup_click (Some c) w).2 !! "dropoff_lon"
  = session_state w !! "dropoff_lon".
Proof. split; apply click_handler_other_keys; discriminate. Qed.

Example dropoff_click_keeps_pickup (c : latlng) (w : world) :
  session_state (dropoff_click (Some c) w).2 !! "pickup_lat"
  = session_state w !! "pickup_lat" /\
  session_state (dropoff_click (Some c) w).2 !! "pickup_lon"
  = session_state w !! "pickup_lon".
Proof. split; apply click_handler_other_keys; discriminate. Qed.

(** ** Reverse geocoding *)

Lemma address_caption_ok lat_key lon_key answer (w : world) :
  (address_caption lat_key lon_key answer w).1 = Ok tt.
Proof.
  unfold address_caption, try_except, geolocator_reverse, getitem.
  rewrite !run_bind.
  destruct (session_state w !! lat_key); [|reflexivity].
  rewrite !run_bind.
  destruct (session_state w !! lon_key); [|reflexivity].
  destruct answer as [[l|]|e]; reflexivity.
Qed.

Lemma address_caption_page lat_key lon_key answer (w : world) lat lon :
  session_state w !! lat_key = Some lat ->
  session_state w !! lon_key = Some lon ->
  page (address_caption lat_key lon_key answer w).2 =
  page w ++ [Reverse lat lon;
             Caption match answer with
                     | Ok (Some l) => "📨 Address: " +:+ address l
                     | Ok None => "📨 Address: Not found"
                     | Raise _ => "Address lookup unavailable."
                     end].
Proof.
  intros Hlat Hlon.
  unfold address_caption, try_except, geolocator_reverse, getitem.
  rewrite !run_bind, Hlat. rewrite !run_bind, Hlon.
  destruct answer as [[l|]|e]; unfold mbind, M_bind, bind, emit, lift; cbn;
    rewrite <- app_assoc; reflexivity.
Qed.

Lemma address_caption_only_geocoding lat_key lon_key answer (w : world) :
  without_geocoding (page (address_caption lat_key lon_key answer w).2)
  = without_geocoding (page w).
Proof.
  unfold without_geocoding, address_caption, try_except, geolocator_reverse,
    getitem.
  rewrite !run_bind.
  destruct (session_state w !! lat_key);
    [|cbn; rewrite List.filter_app, app_nil_r; reflexivity].
  rewrite !run_bind.
  destruct (session_state w !! lon_key);
    [|cbn; rewrite List.filter_app, app_nil_r; reflexivity].
  destruct answer as [[l|]|e]; unfold mbind, M_bind, bind, emit, lift; cbn;
    rewrite !List.filter_app; cbn; rewrite !app_nil_r; reflexivity.
Qed.

Section Alike.
Context {A B : Type}.

Lemma alike_ret (a : A) : alike (mret a : M A) (mret a).
Proof. intros w w' H; split; [reflexivity|exact H]. Qed.

Lemma alike_lift (r : result A) : alike (lift r) (lift r).
Proof. intros w w' H; split; [reflexivity|exact H]. Qed.

Lemma alike_emit (e : event) : alike (emit e) (emit e).
Proof.
  intros w w' [Hs Hp]; split; [reflexivity|]. split; [exact Hs|].
  cbn. unfold without_geocoding in *. rewrite !List.filter_app, Hp. reflexivity.
Qed.

Lemma alike_getitem key : alike (getitem key) (getitem key).
Proof.
  intros w w' [Hs Hp]. unfold getitem. rewrite Hs.
  destruct (session_state w' !! key); (split; [reflexivity|split; assumption]).
Qed.

Lemma alike_setitem key v : alike (setitem key v) (setitem key v).
Proof.
  intros w w' [Hs Hp]; split; [reflexivity|].
  split; [cbn; rewrite Hs; reflexivity|exact Hp].
Qed.

Lemma alike_contains key : alike (contains key) (contains key).
Proof.
  intros w w' [Hs Hp]. unfold contains. rewrite Hs.
  split; [reflexivity|split; assumption].
Qed.

Lemma alike_bind (c c' : M A) (k k' : A -> M B) :
  alike c c' -> (forall a, alike (k a) (k' a)) -> alike (c ≫= k) (c' ≫= k').
Proof.
  intros Hc Hk w w' H. rewrite !run_bind. destruct (Hc w w' H) as [Hr Hw].
  destruct (c w) as [[a|e] w1], (c' w') as [[a'|e'] w1']; cbn in *;
    try discriminate.
  - injection Hr as ->. apply Hk, Hw.
  - injection Hr as ->. split; [reflexivity|exact Hw].
Qed.

Lemma alike_try_except (body body' : M A) catches handler handler' :
  alike body body' -> (forall e, alike (handler e) (handler' e)) ->
  alike (try_except body catches handler) (try_except body' catches handler').
Proof.
  intros Hb Hh w w' H. unfold try_except. destruct (Hb w w' H) as [Hr Hw].
  destruct (body w) as [[a|e] w1], (body' w') as [[a'|e'] w1']; cbn in *;
    try discriminate.
  - injection Hr as ->. split; [reflexivity|exact Hw].
  - injection Hr as ->. destruct (catches e'); [apply Hh, Hw|].
    split; [reflexivity|exact Hw].
Qed.
End Alike.

Lemma alike_for_each {A} (l : list A) (body : A -> M unit) :
  (forall x, alike (body x) (body x)) -> alike (for_each l body) (for_each l body).
Proof.
  intros Hbody. induction l as [|x l IH]; cbn [for_each].
  - apply alike_ret.
  - apply alike_bind; [apply Hbody|intros _; exact IH].
Qed.

Create HintDb alike discriminated.

Ltac alike :=
  repeat first
    [ solve [auto with alike]
    | apply alike_ret
    | apply alike_lift
    | apply alike_emit
    | apply alike_getitem
    | apply alike_setitem
    | apply alike_contains
    | apply alike_bind; [|intros ?]
    | apply alike_try_except; [|intros ?]
    | apply alike_for_each; intros ?
    | match goal with
      | |- alike (if ?b then _ else _) (if ?b then _ else _) => destruct b
      | |- alike (match ?x with _ => _ end) (match ?x with _ => _ end) =>
          destruct x
      end ].

Lemma alike_init_session : alike init_session init_session.
Proof. unfold init_session. alike. Qed.

Lemma alike_sidebar i : alike (sidebar i) (sidebar i).
Proof. unfold sidebar. alike. Qed.

Lemma alike_render_map lat_key lon_key :
  alike (render_map lat_key lon_key) (render_map lat_key lon_key).
Proof. unfold render_map. alike. Qed.

Lemma alike_click_handler lat_key lon_key outside clicked :
  alike (click_handler lat_key lon_key outside clicked)
        (click_handler lat_key lon_key outside clicked).
Proof. unfold click_handler. alike. Qed.

Lemma alike_requests_get answer url params timeout :
  alike (requests_get answer url params timeout)
        (requests_get answer url params timeout).
Proof. unfold requests_get. alike. Qed.
#[export] Hint Resolve alike_init_session alike_sidebar alike_render_map
  alike_click_handler alike_requests_get : alike.

Lemma alike_show_fare i resp : alike (show_fare i resp) (show_fare i resp).
Proof. unfold show_fare. alike. Qed.
#[export] Hint Resolve alike_show_fare : alike.

Lemma alike_submit i sv : alike (submit i sv) (submit i sv).
Proof. unfold submit, estimate_fare. alike. Qed.

(** Whatever the geocoder answers, the caption ends normally, in the same
    session state, and adds nothing but geocoding to the page. *)
Lemma alike_address_caption lat_key lon_key a b :
  alike (address_caption lat_key lon_key a) (address_caption lat_key lon_key b).
Proof.
  intros w w' [Hs Hp]. rewrite !address_caption_ok. split; [reflexivity|].
  split.
  - rewrite !session_unchanged_address_caption. exact Hs.
  - rewrite !address_caption_only_geocoding. exact Hp.
Qed.
#[export] Hint Resolve alike_submit alike_address_caption : alike.

Lemma sidebar_with_addresses i a b : sidebar (with_addresses i a b) = sidebar i.
Proof. unfold sidebar. reflexivity. Qed.

Lemma submit_with_addresses i a b sv :
  submit (with_addresses i a b) sv = submit i sv.
Proof. unfold submit, estimate_fare, show_fare. reflexivity. Qed.

Lemma alike_app i a b : alike (app (with_addresses i a b)) (app i).
Proof.
  unfold app. rewrite sidebar_with_addresses.
  unfold pickup_column, dropoff_column, pickup_click, dropoff_click.
  apply alike_bind; [alike|intros _].
  apply alike_bind; [alike|intros sv]. rewrite submit_with_addresses.
  cbn [with_addresses pick_state drop_state pick_address drop_address].
  alike.
Qed.

(** C9. The address caption of either map, whatever the geocoder answers
    (an address, nothing, or any exception at all): it ends normally, so the
    script goes on below it; it leaves the session state as it was; and with
    the coordinate stored it shows exactly one caption, "Address: <address>"
    on an address, "Address: Not found" on nothing, and
    "Address lookup unavailable." on an exception. For the whole script:
    how a rerun ends, the session state it leaves, and everything on the
    page but the captions and lookups do not depend on the geocoder's two
    answers. *)
Theorem C9_geocoding_never_blocks :
  (forall lat_key lon_key answer (w : world),
     (address_caption lat_key lon_key answer w).1 = Ok tt /\
     session_state (address_caption lat_key lon_key answer w).2
     = session_state w) /\
  (forall lat_key lon_key answer (w : world) lat lon,
     session_state w !! lat_key = Some lat ->
     session_state w !! lon_key = Some lon ->
     page (address_caption lat_key lon_key answer w).2 =
     page w ++ [Reverse lat lon;
                Caption match answer with
                        | Ok (Some l) => "📨 Address: " +:+ address l
                        | Ok None => "📨 Address: Not found"
                        | Raise _ => "Address lookup unavailable."
                        end]) /\
  (forall i a b s,
     (rerun (with_addresses i a b) s).1 = (rerun i s).1 /\
     session_state (rerun (with_addresses i a b) s).2
     = session_state (rerun i s).2 /\
     without_geocoding (page (rerun (with_addresses i a b) s).2)
     = without_geocoding (page (rerun i s).2)).
Proof.
  split; [|split].
  - intros. split; [apply address_caption_ok|].
    apply session_unchanged_address_caption.
  - intros. apply address_caption_page; assumption.
  - intros i a b s. unfold rerun.
    destruct (alike_app i a b (mkworld s []) (mkworld s []))
      as [Hr [Hs Hp]]; [split; reflexivity|].
    split; [exact Hr|]. split; [exact Hs|exact Hp].
Qed.

(** ** The submit handler *)

Section EstimateFare.
Variables (i : inputs) (sv : sidebar_values) (w : world).
Variables plon plat dlon dlat : float.
Hypothesis Hplon : session_state w !! "pickup_lon" = Some plon.
Hypothesis Hplat : session_state w !! "pickup_lat" = Some plat.
Hypothesis Hdlon : session_state w !! "dropoff_lon" = Some dlon.
Hypothesis Hdlat : session_state w !! "dropoff_lat" = Some dlat.

Lemma estimate_fare_rejects_time :
  dt_valid sv = false ->
  estimate_fare i sv w = (Ok tt, shows w (Error "Please select a valid future time.")).
Proof. intros H. unfold estimate_fare. rewrite H. reflexivity. Qed.

Lemma estimate_fare_rejects_pickup :
  dt_valid sv = true -> is_within_nyc plon plat = false ->
  estimate_fare i sv w = (Ok tt, shows w (Error "Pickup outside NYC.")).
Proof using Hplon Hplat.
  intros Ht Hp. unfold estimate_fare. rewrite Ht. cbn [negb].
  rewrite run_bind, (run_getitem _ _ _ Hplon).
  rewrite run_bind, (run_getitem _ _ _ Hplat), Hp. reflexivity.
Qed.

Lemma estimate_fare_rejects_dropoff :
  dt_valid sv = true -> is_within_nyc plon plat = true ->
  is_within_nyc dlon dlat = false ->
  estimate_fare i sv w = (Ok tt, shows w (Error "Dropoff outside NYC.")).
Proof using Hplon Hplat Hdlon Hdlat.
  intros Ht Hp Hd. unfold estimate_fare. rewrite Ht. cbn [negb].
  rewrite run_bind, (run_getitem _ _ _ Hplon).
  rewrite run_bind, (run_getitem _ _ _ Hplat), Hp. cbn [negb].
  rewrite run_bind, (run_getitem _ _ _ Hdlon).
  rewrite run_bind, (run_getitem _ _ _ Hdlat), Hd. reflexivity.
Qed.

(** With the three preconditions passed, the handler is the [try] block run
    after the request went out. *)
Lemma estimate_fare_requests :
  dt_valid sv = true -> is_within_nyc plon plat = true ->
  is_within_nyc dlon dlat = true ->
  estimate_fare i sv w =
  let w1 := shows w (Get (API_URL i) (fare_params sv plon plat dlon dlat) 10) in
  let handler e := emit (Error ("Network error: " +:+ exn_str e)) in
  match get_answer i with
  | Ok resp => try_except (show_fare i resp) is_Exception handler w1
  | Raise e => if is_Exception e then handler e w1 else (Raise e, w1)
  end.
Proof using Hplon Hplat Hdlon Hdlat.
  intros Ht Hp Hd. unfold estimate_fare. rewrite Ht. cbn [negb].
  rewrite run_bind, (run_getitem _ _ _ Hplon).
  rewrite run_bind, (run_getitem _ _ _ Hplat), Hp. cbn [negb].
  rewrite run_bind, (run_getitem _ _ _ Hdlon).
  rewrite run_bind, (run_getitem _ _ _ Hdlat), Hd. cbn [negb].
  rewrite run_bind, (run_getitem _ _ _ Hplon).
  rewrite run_bind, (run_getitem _ _ _ Hplat).
  rewrite run_bind, (run_getitem _ _ _ Hdlon).
  rewrite run_bind, (run_getitem _ _ _ Hdlat).
  unfold try_except, requests_get. rewrite !run_bind.
  destruct (get_answer i) as [resp|e]; reflexivity.
Qed.
End EstimateFare.

(** [show_fare] adds exactly one event to the page when it ends normally and
    none when it raises, and never a request. *)
Lemma show_fare_cases i resp (w : world) :
  show_fare i resp w =
  if status_code resp =? 200 then
    match json resp with
    | Raise e => (Raise e, w)
    | Ok body =>
        match py_get body "fare" with
        | Raise e => (Raise e, w)
        | Ok PyNone => (Ok tt, shows w (Error "No 'fare' in API response."))
        | Ok fare =>
            match py_float (float_of_str i) fare with
            | Raise e => (Raise e, w)
            | Ok x =>
                (Ok tt, shows w (Success ("Estimated Fare: **$" +:+
                                          format_2f x +:+ "**")))
            end
        end
    end
  else (Ok tt, shows w (Error ("API error " +:+ pretty (status_code resp)))).
Proof.
  unfold show_fare. destruct (status_code resp =? 200); [|reflexivity].
  rewrite run_bind. unfold lift at 1. destruct (json resp) as [body|e]; [|reflexivity].
  rewrite run_bind. unfold lift at 1.
  destruct (py_get body "fare") as [fare|e]; [|reflexivity].
  destruct fare; try reflexivity;
    rewrite run_bind; unfold lift at 1;
    match goal with |- context [py_float ?f ?v] => destruct (py_float f v) end;
    reflexivity.
Qed.

Lemma gets_app (p q : list event) : gets (p ++ q) = gets p ++ gets q.
Proof. apply List.filter_app. Qed.

Lemma gets_shows_other (w : world) (e : event) :
  is_get e = false -> gets (page (shows w e)) = gets (page w).
Proof. intros H. cbn. rewrite gets_app. cbn. rewrite H. apply app_nil_r. Qed.

Lemma gets_shows_get (w : world) url params timeout :
  gets (page (shows w (Get url params timeout)))
  = gets (page w) ++ [Get url params timeout].
Proof. cbn. rewrite gets_app. reflexivity. Qed.

(** [show_fare] issues no request. *)
Lemma gets_show_fare i resp (w : world) :
  gets (page (show_fare i resp w).2) = gets (page w).
Proof.
  rewrite show_fare_cases.
  repeat match goal with
         | |- context [if ?b then _ else _] => destruct b
         | |- context [match ?x with _ => _ end] => destruct x
         end;
    first [reflexivity | apply gets_shows_other; reflexivity].
Qed.

(** With the three preconditions passed, the handler sends exactly one
    request, however the request and the reading of its answer end. *)
Lemma estimate_fare_one_get i sv (w : world) plon plat dlon dlat :
  session_state w !! "pickup_lon" = Some plon ->
  session_state w !! "pickup_lat" = Some plat ->
  session_state w !! "dropoff_lon" = Some dlon ->
  session_state w !! "dropoff_lat" = Some dlat ->
  dt_valid sv = true -> is_within_nyc plon plat = true ->
  is_within_nyc dlon dlat = true ->
  gets (page (estimate_fare i sv w).2) =
  gets (page w) ++ [Get (API_URL i) (fare_params sv plon plat dlon dlat) 10].
Proof.
  intros Hplon Hplat Hdlon Hdlat Ht Hp Hd.
  rewrite (estimate_fare_requests i sv w plon plat dlon dlat) by assumption.
  cbv zeta.
  destruct (get_answer i) as [resp|e].
  - unfold try_except.
    pose proof (gets_show_fare i resp
      (shows w (Get (API_URL i) (fare_params sv plon plat dlon dlat) 10))) as Hg.
    destruct (show_fare i resp _) as [[[]|e] w2]; cbn [snd] in *.
    + rewrite Hg. apply gets_shows_get.
    + destruct (is_Exception e); cbn [snd emit page];
        rewrite ?gets_app, Hg; cbn [gets List.filter is_get];
        rewrite ?app_nil_r; apply gets_shows_get.
  - destruct (is_Exception e); cbn [snd emit page];
      rewrite ?gets_app; cbn [gets List.filter is_get];
      rewrite ?app_nil_r; apply gets_shows_get.
Qed.

(** C2. With the button pressed, the handler checks in this order: the time
    ([dt_valid]), the pickup coordinate, the dropoff coordinate. The first
    check that fails decides alone what happens, whatever the later ones
    would say: the handler shows that check's own message, one of three
    different ones, ends, and has sent no request. When the three pass, the
    request goes out. *)
Theorem C2_preconditions_in_order (i : inputs) (sv : sidebar_values)
    (w : world) (plon plat dlon dlat : float) :
  button i = true ->
  session_state w !! "pickup_lon" = Some plon ->
  session_state w !! "pickup_lat" = Some plat ->
  session_state w !! "dropoff_lon" = Some dlon ->
  session_state w !! "dropoff_lat" = Some dlat ->
  (dt_valid sv = false ->
     submit i sv w = (Ok tt, shows w (Error "Please select a valid future time.")) /\
     gets (page (submit i sv w).2) = gets (page w)) /\
  (dt_valid sv = true -> is_within_nyc plon plat = false ->
     submit i sv w = (Ok tt, shows w (Error "Pickup outside NYC.")) /\
     gets (page (submit i sv w).2) = gets (page w)) /\
  (dt_valid sv = true -> is_within_nyc plon plat = true ->
   is_within_nyc dlon dlat = false ->
     submit i sv w = (Ok tt, shows w (Error "Dropoff outside NYC.")) /\
     gets (page (submit i sv w).2) = gets (page w)) /\
  (dt_valid sv = true -> is_within_nyc plon plat = true ->
   is_within_nyc dlon dlat = true ->
     gets (page (submit i sv w).2) =
     gets (page w) ++ [Get (API_URL i) (fare_params sv plon plat dlon dlat) 10]) /\
  "Please select a valid future time." <> "Pickup outside NYC." /\
  "Please select a valid future time." <> "Dropoff outside NYC." /\
  "Pickup outside NYC." <> "Dropoff outside NYC.".
Proof.
  intros Hb Hplon Hplat Hdlon Hdlat. unfold submit. rewrite Hb.
  repeat split; try discriminate.
  - apply estimate_fare_rejects_time; assumption.
  - rewrite estimate_fare_rejects_time by assumption.
    apply gets_shows_other; reflexivity.
  - apply (estimate_fare_rejects_pickup i sv w plon plat); assumption.
  - rewrite (estimate_fare_rejects_pickup i sv w plon plat) by assumption.
    apply gets_shows_other; reflexivity.
  - apply (estimate_fare_rejects_dropoff i sv w plon plat dlon dlat); assumption.
  - rewrite (estimate_fare_rejects_dropoff i sv w plon plat dlon dlat) by assumption.
    apply gets_shows_other; reflexivity.
  - intros Ht Hp Hd.
    apply (estimate_fare_one_get i sv w plon plat dlon dlat); assumption.
Qed.

(** ** The format of [pickup_datetime] *)

Lemma matches_app p1 p2 s1 s2 :
  matches p1 s1 = true -> matches p2 s2 = true ->
  matches (p1 +:+ p2) (s1 +:+ s2) = true.
Proof.
  revert s1. induction p1 as [|p p1 IH]; intros [|c s1] H1 H2;
    cbn [matches] in *; try discriminate; [exact H2|].
  change (matches (String p (p1 +:+ p2)) (String c (s1 +:+ s2)) = true).
  cbn [matches]. apply andb_true_iff in H1 as [Hc H1]. rewrite Hc.
  apply IH; assumption.
Qed.

Lemma zfill_2_digits z :
  0 <= z < 100 -> matches "dd" (Datetime.zfill 2 (pretty z)) = true.
Proof.
  apply (forall_from_spec
           (fun z => matches "dd" (Datetime.zfill 2 (pretty z))) 100 0).
  vm_compute. reflexivity.
Qed.

(** From 1000 on a year is written with four digits. *)
Lemma pretty_4_digits z :
  1000 <= z < 10000 -> matches "dddd" (pretty z) = true.
Proof.
  intros Hz.
  apply (forall_from_spec (fun z => matches "dddd" (pretty z))
           (Z.to_nat 9000) 1000); [|lia].
  vm_compute. reflexivity.
Qed.

Lemma days_in_month_le_31 y m : Datetime.days_in_month y m <= 31.
Proof.
  unfold Datetime.days_in_month, Datetime.DAYS_IN_MONTH.
  destruct ((m =? 2) && Datetime.is_leap y); [lia|].
  repeat match goal with
         | |- context [match ?x with _ => _ end] => destruct x
         end; lia.
Qed.

(** The formatted datetime of a valid datetime from the year 1000 on reads
    [YYYY-MM-DD HH:MM:SS]. *)
Lemma strftime_Ymd_HMS_shape (t : Datetime.datetime) :
  Datetime.valid t -> 1000 <= Datetime.year (Datetime.dt_date t) ->
  is_Ymd_HMS (Datetime.strftime_Ymd_HMS t) = true.
Proof.
  intros [(Hy & Hm & Hd) (Hh & Hmi & Hs & _)] Hy4.
  pose proof (days_in_month_le_31 (Datetime.year (Datetime.dt_date t))
                                  (Datetime.month (Datetime.dt_date t))).
  unfold is_Ymd_HMS, Datetime.strftime_Ymd_HMS.
  change "dddd-dd-dd dd:dd:dd"
    with ("dddd" +:+ "-" +:+ "dd" +:+ "-" +:+ "dd" +:+ " " +:+ "dd" +:+ ":" +:+
          "dd" +:+ ":" +:+ "dd").
  repeat first
    [ apply pretty_4_digits; lia
    | apply zfill_2_digits; lia
    | apply matches_app; [|]
    | reflexivity ].
Qed.

(** Two digits that read back as the number they were written for. *)
Lemma zfill_2_reads_back z :
  0 <= z < 100 ->
  exists c1 c2,
    Datetime.zfill 2 (pretty z) = String c1 (String c2 "") /\
    digits_value (String c1 (String c2 "")) = z.
Proof.
  intros Hz.
  assert (reads_as 2 (Datetime.zfill 2 (pretty z)) z = true) as H.
  { apply (forall_from_spec
             (fun z => reads_as 2 (Datetime.zfill 2 (pretty z)) z) 100 0);
      [|lia].
    vm_compute. reflexivity. }
  apply andb_true_iff in H as [Hlen Hval].
  apply Nat.eqb_eq in Hlen. apply Z.eqb_eq in Hval.
  destruct (Datetime.zfill 2 (pretty z)) as [|c1 [|c2 [|c3 s]]];
    try discriminate Hlen.
  exists c1, c2. split; [reflexivity|exact Hval].
Qed.

Lemma pretty_4_reads_back z :
  1000 <= z < 10000 ->
  exists c1 c2 c3 c4,
    pretty z = String c1 (String c2 (String c3 (String c4 ""))) /\
    digits_value (String c1 (String c2 (String c3 (String c4 "")))) = z.
Proof.
  intros Hz.
  assert (reads_as 4 (pretty z) z = true) as H.
  { apply (forall_from_spec (fun z => reads_as 4 (pretty z) z)
             (Z.to_nat 9000) 1000); [|lia].
    vm_compute. reflexivity. }
  apply andb_true_iff in H as [Hlen Hval].
  apply Nat.eqb_eq in Hlen. apply Z.eqb_eq in Hval.
  destruct (pretty z) as [|c1 [|c2 [|c3 [|c4 [|c5 s]]]]];
    try discriminate Hlen.
  exists c1, c2, c3, c4. split; [reflexivity|exact Hval].
Qed.

(** The characters of the formatted datetime, from the year 1000 on: the
    digits of the six fields, each group reading back as its field, with
    the separators of the format between them. *)
Lemma strftime_Ymd_HMS_chars (t : Datetime.datetime) :
  Datetime.valid t -> 1000 <= Datetime.year (Datetime.dt_date t) ->
  exists y1 y2 y3 y4 m1 m2 d1 d2 h1 h2 n1 n2 s1 s2,
    Datetime.strftime_Ymd_HMS t =
    String y1 (String y2 (String y3 (String y4 (String "-"
    (String m1 (String m2 (String "-" (String d1 (String d2
    (String " " (String h1 (String h2 (String ":" (String n1
    (String n2 (String ":" (String s1 (String s2 "")))))))))))))))))) /\
    digits_value (String y1 (String y2 (String y3 (String y4 "")))) =
    Datetime.year (Datetime.dt_date t) /\
    digits_value (String m1 (String m2 "")) =
    Datetime.month (Datetime.dt_date t) /\
    digits_value (String d1 (String d2 "")) =
    Datetime.day (Datetime.dt_date t) /\
    digits_value (String h1 (String h2 "")) =
    Datetime.hour (Datetime.dt_time t) /\
    digits_value (String n1 (String n2 "")) =
    Datetime.minute (Datetime.dt_time t) /\
    digits_value (String s1 (String s2 "")) =
    Datetime.second (Datetime.dt_time t).
Proof.
  intros [(Hy & Hm & Hd) (Hh & Hmi & Hs & _)] Hy4.
  pose proof (days_in_month_le_31 (Datetime.year (Datetime.dt_date t))
                                  (Datetime.month (Datetime.dt_date t))).
  destruct (pretty_4_reads_back (Datetime.year (Datetime.dt_date t)))
    as (y1 & y2 & y3 & y4 & Ey & Vy); [lia|].
  destruct (zfill_2_reads_back (Datetime.month (Datetime.dt_date t)))
    as (m1 & m2 & Em & Vm); [lia|].
  destruct (zfill_2_reads_back (Datetime.day (Datetime.dt_date t)))
    as (d1 & d2 & Ed & Vd); [lia|].
  destruct (zfill_2_reads_back (Datetime.hour (Datetime.dt_time t)))
    as (h1 & h2 & Eh & Vh); [lia|].
  destruct (zfill_2_reads_back (Datetime.minute (Datetime.dt_time t)))
    as (n1 & n2 & En & Vn); [lia|].
  destruct (zfill_2_reads_back (Datetime.second (Datetime.dt_time t)))
    as (s1 & s2 & Es & Vs); [lia|].
  exists y1, y2, y3, y4, m1, m2, d1, d2, h1, h2, n1, n2, s1, s2.
  unfold Datetime.strftime_Ymd_HMS. cbv zeta.
  rewrite Ey, Em, Ed, Eh, En, Es.
  split; [reflexivity|]. repeat split; assumption.
Qed.

(** Before the year 1000 the year has fewer digits. *)
Example strftime_first_day :
  Datetime.strftime_Ymd_HMS
    (Datetime.combine (Datetime.mkdate 1 1 1) (Datetime.mktime 0 0 0 0))
  = "1-01-01 00:00:00".
Proof. vm_compute. reflexivity. Qed.

(** ** What the sidebar hands to the submit handler *)

Lemma sidebar_values_spec i (w0 w1 : world) sv :
  sidebar i w0 = (Ok sv, w1) ->
  exists rounded,
    rounded_time (now i) = Some rounded /\
    dt_raw sv = Datetime.combine
                  (default (Datetime.dt_date (now i)) (date_input i))
                  (default (Datetime.dt_time rounded) (time_input i)) /\
    dt_valid sv = Datetime.ge (dt_raw sv) (now i) /\
    pickup_datetime_formatted sv = Datetime.strftime_Ymd_HMS (dt_raw sv) /\
    passenger_count sv = default 2 (slider i).
Proof.
  unfold sidebar. rewrite run_bind. unfold lift at 1.
  destruct (rounded_time (now i)) as [rounded|]; [|discriminate].
  rewrite run_bind.
  match goal with
  | |- context [if ?b then emit ?e else mret tt] =>
      destruct b; unfold emit, mret, M_ret, ret
  end;
    intros [= <- _]; exists rounded; repeat split.
Qed.

(** A date and time that is not before another is not in an earlier year. *)
Lemma ge_year a b :
  Datetime.ge a b = true ->
  Datetime.year (Datetime.dt_date b) <= Datetime.year (Datetime.dt_date a).
Proof.
  unfold Datetime.ge, Datetime.compare, Datetime.fields. cbv zeta.
  cbn [Datetime.cmp].
  destruct (Z.compare_spec (Datetime.year (Datetime.dt_date a))
                           (Datetime.year (Datetime.dt_date b)));
    [lia|discriminate|lia].
Qed.

(** C7. The sidebar values are those of the sidebar inputs: the date and
    the time are the picked ones (the clock's date and the default time
    where nothing was picked), the passenger count is the slider's. With
    the button pressed and the three preconditions passed, the handler
    sends exactly one request: a GET to the configured URL with a timeout
    of 10 seconds whose parameters are, in this order, [pickup_datetime],
    [pickup_longitude], [pickup_latitude], [dropoff_longitude],
    [dropoff_latitude] and [passenger_count], the coordinates being those
    of the session state and [pickup_datetime] the formatted date and time.
    With the clock in a year of four digits, from 1000 on, and a valid date
    and time picked, it reads [YYYY-MM-DD HH:MM:SS], and its digits read
    back as the year, month, day, hour, minute and second picked. *)
Theorem C7_one_get_with_six_params (i : inputs) (sv : sidebar_values)
    (w0 w1 w : world) (plon plat dlon dlat : float) :
  sidebar i w0 = (Ok sv, w1) ->
  button i = true ->
  dt_valid sv = true ->
  session_state w !! "pickup_lon" = Some plon ->
  session_state w !! "pickup_lat" = Some plat ->
  session_state w !! "dropoff_lon" = Some dlon ->
  session_state w !! "dropoff_lat" = Some dlat ->
  is_within_nyc plon plat = true ->
  is_within_nyc dlon dlat = true ->
  (exists rounded,
     rounded_time (now i) = Some rounded /\
     dt_raw sv = Datetime.combine
                   (default (Datetime.dt_date (now i)) (date_input i))
                   (default (Datetime.dt_time rounded) (time_input i))) /\
  gets (page (submit i sv w).2) =
  gets (page w) ++
  [Get (API_URL i)
       [("pickup_datetime", PyStr (Datetime.strftime_Ymd_HMS (dt_raw sv)));
        ("pickup_longitude", PyFloat plon);
        ("pickup_latitude", PyFloat plat);
        ("dropoff_longitude", PyFloat dlon);
        ("dropoff_latitude", PyFloat dlat);
        ("passenger_count", PyInt (default 2 (slider i)))]
       10] /\
  (Datetime.valid (dt_raw sv) ->
   1000 <= Datetime.year (Datetime.dt_date (now i)) ->
   is_Ymd_HMS (Datetime.strftime_Ymd_HMS (dt_raw sv)) = true /\
   read_Ymd_HMS (Datetime.strftime_Ymd_HMS (dt_raw sv)) =
   [Datetime.year (Datetime.dt_date (dt_raw sv));
    Datetime.month (Datetime.dt_date (dt_raw sv));
    Datetime.day (Datetime.dt_date (dt_raw sv));
    Datetime.hour (Datetime.dt_time (dt_raw sv));
    Datetime.minute (Datetime.dt_time (dt_raw sv));
    Datetime.second (Datetime.dt_time (dt_raw sv))]).
Proof.
  intros Hsv Hb Ht Hplon Hplat Hdlon Hdlat Hp Hd.
  destruct (sidebar_values_spec _ _ _ _ Hsv)
    as (r & Hr & Hraw & Hvalid & Hf & Hc).
  split; [exists r; split; assumption|]. split.
  - unfold submit. rewrite Hb.
    rewrite (estimate_fare_one_get i sv w plon plat dlon dlat) by assumption.
    unfold fare_params. rewrite Hf, Hc. reflexivity.
  - intros Hv Hclock.
    assert (1000 <= Datetime.year (Datetime.dt_date (dt_raw sv))) as Hy.
    { pose proof (ge_year (dt_raw sv) (now i)) as Hge.
      rewrite <- Hvalid, Ht in Hge. specialize (Hge eq_refl). lia. }
    split; [apply strftime_Ymd_HMS_shape; assumption|].
    destruct (strftime_Ymd_HMS_chars _ Hv Hy)
      as (y1 & y2 & y3 & y4 & m1 & m2 & d1 & d2 & h1 & h2 & n1 & n2 & s1 & s2
          & -> & Vy & Vm & Vd & Vh & Vn & Vs).
    unfold read_Ymd_HMS. cbn [String.substring].
    rewrite Vy, Vm, Vd, Vh, Vn, Vs. reflexivity.
Qed.

(** The sample ride booked for the next evening, for three: the one request
    that goes out carries the picked date and time and the slider's count. *)
Lemma C7_sample :
  sidebar evening_inputs (mkworld ∅ []) = (Ok evening_sidebar, mkworld ∅ []) /\
  gets (page (submit evening_inputs evening_sidebar sample_world).2) =
  [Get "https://taxifare.example/predict"
       [("pickup_datetime", PyStr "2026-11-04 18:30:00");
        ("pickup_longitude", PyFloat (-73.98));
        ("pickup_latitude", PyFloat 40.75);
        ("dropoff_longitude", PyFloat (-73.99));
        ("dropoff_latitude", PyFloat 40.76);
        ("passenger_count", PyInt 3)]
       10] /\
  read_Ymd_HMS "2026-11-04 18:30:00" = [2026; 11; 4; 18; 30; 0].
Proof.
  assert (sidebar evening_inputs (mkworld ∅ [])
          = (Ok evening_sidebar, mkworld ∅ [])) as Hsv
    by (vm_compute; reflexivity).
  destruct (C7_one_get_with_six_params evening_inputs evening_sidebar
              (mkworld ∅ []) (mkworld ∅ []) sample_world
              (-73.98) 40.75 (-73.99) 40.76
              Hsv eq_refl eq_refl eq_refl eq_refl eq_refl eq_refl
              eq_refl eq_refl) as (_ & Hget & Hread).
  split; [exact Hsv|]. split; [exact Hget|].
  apply Hread.
  - unfold Datetime.valid, Datetime.valid_date, Datetime.valid_time. cbn. lia.
  - cbn. lia.
Defined.

(** A stored pickup coordinate west of the box, with a valid time and a
    dropoff inside: the pickup message, and nothing else. *)
Lemma C2_pickup_checked_before_dropoff :
  submit sample_inputs sample_sidebar stale_world
  = (Ok tt, shows stale_world (Error "Pickup outside NYC.")).
Proof.
  apply (C2_preconditions_in_order sample_inputs sample_sidebar stale_world
           (-75) 40.75 (-73.99) 40.76); reflexivity.
Defined.

(** ** The answer of the fare API *)

Lemma two_decimals_prefix p s :
  two_decimals s = true -> two_decimals (p +:+ s) = true.
Proof.
  intros H. induction p as [|c p IH]; [exact H|].
  change (two_decimals (String c (p +:+ s)) = true).
  cbn [two_decimals]. rewrite IH. apply orb_true_r.
Qed.

Lemma matches_dd s :
  matches "dd" s = true ->
  exists a b,
    s = String a (String b "") /\ is_digit a = true /\ is_digit b = true.
Proof.
  destruct s as [|a [|b [|c s]]]; cbn [matches]; intros H.
  - discriminate.
  - rewrite andb_false_r in H. discriminate.
  - change (Ascii.eqb "d" "d") with true in H. cbn iota in H.
    rewrite andb_true_r in H. apply andb_true_iff in H as [Ha Hb].
    exists a, b. repeat split; assumption.
  - rewrite !andb_false_r in H. discriminate.
Qed.

Lemma zfill_2_two_decimals z :
  0 <= z < 100 -> two_decimals ("." +:+ Datetime.zfill 2 (pretty z)) = true.
Proof.
  intros Hz.
  destruct (matches_dd _ (zfill_2_digits z Hz)) as (a & b & -> & Ha & Hb).
  change (two_decimals (String "." (String a (String b ""))) = true).
  cbn [two_decimals]. rewrite Ha, Hb. reflexivity.
Qed.

(** A fare that is a number is shown with a point and two decimals. *)
Lemma format_2f_two_decimals x :
  is_number x = true -> two_decimals (format_2f x) = true.
Proof.
  unfold is_number, format_2f.
  destruct (Prim2SF x) as [s|s| |s m e]; try discriminate; intros _.
  - destruct s; reflexivity.
  - do 2 apply two_decimals_prefix. apply zfill_2_two_decimals.
    apply Z.mod_pos_bound. lia.
Qed.

(** A fare that is not a number is shown as Python writes it. *)
Lemma format_2f_not_a_number x :
  is_number x = false ->
  format_2f x = "inf" \/ format_2f x = "-inf" \/ format_2f x = "nan".
Proof.
  unfold is_number, format_2f.
  destruct (Prim2SF x) as [s|s| |s m e]; try discriminate; intros _.
  - destruct s; [right; left|left]; reflexivity.
  - right. right. reflexivity.
Qed.

Section FareResponse.
Variables (i : inputs) (sv : sidebar_values) (w : world).
Variables plon plat dlon dlat : float.
Hypothesis Hplon : session_state w !! "pickup_lon" = Some plon.
Hypothesis Hplat : session_state w !! "pickup_lat" = Some plat.
Hypothesis Hdlon : session_state w !! "dropoff_lon" = Some dlon.
Hypothesis Hdlat : session_state w !! "dropoff_lat" = Some dlat.
Hypothesis Htime : dt_valid sv = true.
Hypothesis Hpick : is_within_nyc plon plat = true.
Hypothesis Hdrop : is_within_nyc dlon dlat = true.

Local Abbreviation w1 := (after_request i sv w plon plat dlon dlat).

Lemma estimate_fare_network_error e :
  get_answer i = Raise e -> is_Exception e = true ->
  estimate_fare i sv w = (Ok tt, shows w1 (Error ("Network error: " +:+ exn_str e))).
Proof using All.
  intros Hg He.
  rewrite (estimate_fare_requests i sv w plon plat dlon dlat) by assumption.
  cbv zeta. rewrite Hg, He. reflexivity.
Qed.

(** An answer that came back: what [show_fare] does decides. *)
Lemma estimate_fare_answered resp :
  get_answer i = Ok resp ->
  estimate_fare i sv w =
  match show_fare i resp w1 with
  | (Ok a, w2) => (Ok a, w2)
  | (Raise e, w2) =>
      if is_Exception e
      then (Ok tt, shows w2 (Error ("Network error: " +:+ exn_str e)))
      else (Raise e, w2)
  end.
Proof using All.
  intros Hg.
  rewrite (estimate_fare_requests i sv w plon plat dlon dlat) by assumption.
  cbv zeta. rewrite Hg. reflexivity.
Qed.

Lemma estimate_fare_api_error resp :
  get_answer i = Ok resp -> status_code resp <> 200 ->
  estimate_fare i sv w =
  (Ok tt, shows w1 (Error ("API error " +:+ pretty (status_code resp)))).
Proof using All.
  intros Hg Hs. rewrite (estimate_fare_answered resp Hg), show_fare_cases.
  apply Z.eqb_neq in Hs. rewrite Hs. reflexivity.
Qed.

Lemma estimate_fare_no_fare resp d :
  get_answer i = Ok resp -> status_code resp = 200 ->
  json resp = Ok (PyDict d) ->
  dict_lookup d "fare" = None \/ dict_lookup d "fare" = Some PyNone ->
  estimate_fare i sv w = (Ok tt, shows w1 (Error "No 'fare' in API response.")).
Proof using All.
  intros Hg Hs Hj Hf. rewrite (estimate_fare_answered resp Hg), show_fare_cases.
  rewrite Hs, Hj. cbn [Z.eqb Pos.eqb py_get].
  destruct Hf as [-> | ->]; reflexivity.
Qed.

Lemma estimate_fare_success resp d fare x :
  get_answer i = Ok resp -> status_code resp = 200 ->
  json resp = Ok (PyDict d) ->
  dict_lookup d "fare" = Some fare -> fare <> PyNone ->
  py_float (float_of_str i) fare = Ok x ->
  estimate_fare i sv w =
  (Ok tt, shows w1 (Success ("Estimated Fare: **$" +:+ format_2f x +:+ "**"))).
Proof using All.
  intros Hg Hs Hj Hf Hn Hx.
  rewrite (estimate_fare_answered resp Hg), show_fare_cases.
  rewrite Hs, Hj. cbn [Z.eqb Pos.eqb py_get]. rewrite Hf. cbn [from_option id].
  destruct fare; try congruence; cbn [py_float] in Hx |- *;
    first [discriminate Hx | rewrite Hx | injection Hx as <-]; reflexivity.
Qed.

(** What is raised while the body is read ends in the handler as well. *)
Lemma estimate_fare_body_error resp e :
  get_answer i = Ok resp -> status_code resp = 200 ->
  json resp = Raise e \/
  (exists body, json resp = Ok body /\ py_get body "fare" = Raise e) \/
  (exists d fare, json resp = Ok (PyDict d) /\
     dict_lookup d "fare" = Some fare /\ fare <> PyNone /\
     py_float (float_of_str i) fare = Raise e) ->
  is_Exception e = true ->
  estimate_fare i sv w = (Ok tt, shows w1 (Error ("Network error: " +:+ exn_str e))).
Proof using All.
  intros Hg Hs Hcase He.
  rewrite (estimate_fare_answered resp Hg), show_fare_cases.
  rewrite Hs. cbn [Z.eqb Pos.eqb].
  destruct Hcase as [Hj|[(body & Hj & Hget)|(d & fare & Hj & Hf & Hn & Hx)]];
    rewrite Hj.
  - rewrite He. reflexivity.
  - rewrite Hget, He. reflexivity.
  - cbn [py_get]. rewrite Hf. cbn [from_option id].
    destruct fare; try congruence; cbn [py_float] in Hx |- *;
      first [ discriminate Hx
            | rewrite Hx, He; reflexivity
            | injection Hx as <-; reflexivity ].
Qed.
End FareResponse.

(** A fare key that is there is not always a fare that is shown: the API
    answering 200 with [{"fare": null}] gets the missing-fare message. *)
Lemma C4_fare_present_not_shown :
  let null := Ok {| status_code := 200;
                    json := Ok (PyDict [("fare", PyNone)]) |} in
  dict_lookup [("fare", PyNone)] "fare" = Some PyNone /\
  submit (answering sample_inputs null) sample_sidebar sample_world
  = (Ok tt,
     shows (after_request sample_inputs sample_sidebar sample_world
              (-73.98) 40.75 (-73.99) 40.76)
           (Error "No 'fare' in API response.")).
Proof. vm_compute. split; reflexivity. Qed.

(** C4. With the three preconditions passed, one request goes out,
    never a second one, and what is shown after it follows the answer:
    - the request raised an exception: "Network error: <exception>";
    - a status other than 200: "API error <status>";
    - status 200 and a JSON object without [fare], or whose [fare] is null:
      "No 'fare' in API response.";
    - status 200 and a JSON object whose [fare] is not null and converts
      with [float()]: "Estimated Fare: $<fare>", the fare being that float
      written with two decimals when it is a number, and [inf], [-inf] or
      [nan] when it is an infinity or not a number. *)
Theorem C4_fare_response_cases (i : inputs) (sv : sidebar_values) (w : world)
    (plon plat dlon dlat : float) :
  button i = true ->
  dt_valid sv = true ->
  session_state w !! "pickup_lon" = Some plon ->
  session_state w !! "pickup_lat" = Some plat ->
  session_state w !! "dropoff_lon" = Some dlon ->
  session_state w !! "dropoff_lat" = Some dlat ->
  is_within_nyc plon plat = true ->
  is_within_nyc dlon dlat = true ->
  let w1 := shows w (Get (API_URL i) (fare_params sv plon plat dlon dlat) 10) in
  gets (page (submit i sv w).2) = gets (page w1) /\
  (forall e, get_answer i = Raise e -> is_Exception e = true ->
     submit i sv w
     = (Ok tt, shows w1 (Error ("Network error: " +:+ exn_str e)))) /\
  (forall resp, get_answer i = Ok resp -> status_code resp <> 200 ->
     submit i sv w
     = (Ok tt, shows w1 (Error ("API error " +:+ pretty (status_code resp))))) /\
  (forall resp d, get_answer i = Ok resp -> status_code resp = 200 ->
     json resp = Ok (PyDict d) ->
     dict_lookup d "fare" = None \/ dict_lookup d "fare" = Some PyNone ->
     submit i sv w = (Ok tt, shows w1 (Error "No 'fare' in API response."))) /\
  (forall resp d fare x, get_answer i = Ok resp -> status_code resp = 200 ->
     json resp = Ok (PyDict d) ->
     dict_lookup d "fare" = Some fare -> fare <> PyNone ->
     py_float (float_of_str i) fare = Ok x ->
     submit i sv w
     = (Ok tt, shows w1 (Success ("Estimated Fare: **$" +:+ format_2f x +:+ "**")))
     /\ (is_number x = true -> two_decimals (format_2f x) = true)
     /\ (is_number x = false ->
         format_2f x = "inf" \/ format_2f x = "-inf" \/ format_2f x = "nan")).
Proof.
  intros Hb Ht Hplon Hplat Hdlon Hdlat Hp Hd w1. unfold submit. rewrite Hb.
  split; [|split; [|split; [|split]]].
  - rewrite (estimate_fare_one_get i sv w plon plat dlon dlat) by assumption.
    symmetry. apply gets_shows_get.
  - intros e. apply estimate_fare_network_error; assumption.
  - intros resp. apply estimate_fare_api_error; assumption.
  - intros resp d. apply estimate_fare_no_fare; assumption.
  - intros resp d fare x Hg Hs Hj Hf Hn Hx. split.
    + apply (estimate_fare_success i sv w plon plat dlon dlat) with resp d fare;
        assumption.
    + split; [apply format_2f_two_decimals|apply format_2f_not_a_number].
Qed.

(** The sample ride: the API answers [{"fare": 12.5}] and the page shows
    "Estimated Fare: $12.50" (in bold). *)
Lemma C4_sample :
  submit sample_inputs sample_sidebar sample_world
  = (Ok tt,
     mkworld (session_state sample_world)
             [Get "https://taxifare.example/predict"
                  (fare_params sample_sidebar (-73.98) 40.75 (-73.99) 40.76) 10;
              Success "Estimated Fare: **$12.50**"]).
Proof.
  refine (proj1 (proj2 (proj2 (proj2 (proj2
    (C4_fare_response_cases sample_inputs sample_sidebar sample_world
       (-73.98) 40.75 (-73.99) 40.76
       eq_refl eq_refl eq_refl eq_refl eq_refl eq_refl eq_refl eq_refl))))
    {| status_code := 200; json := Ok (PyDict [("fare", PyFloat 12.5)]) |}
    [("fare", PyFloat 12.5)] (PyFloat 12.5) 12.5%float
    eq_refl eq_refl eq_refl eq_refl _ eq_refl)).
  discriminate.
Defined.

(** The API answers [{"fare": 1e400}], which is read as an infinity: the
    page shows "Estimated Fare: $inf". *)
Example infinite_fare :
  let huge := Ok {| status_code := 200;
                    json := Ok (PyDict [("fare", PyFloat infinity)]) |} in
  last (page (submit (answering sample_inputs huge)
                     sample_sidebar sample_world).2)
  = Some (Success "Estimated Fare: **$inf**") /\
  two_decimals "inf" = false.
Proof. vm_compute. split; reflexivity. Qed.

(** A status of 500 is shown with its code, and the session state stays. *)
Example api_error_500 :
  let i := answering sample_inputs (Ok {| status_code := 500; json := Ok PyNone |}) in
  last (page (submit i sample_sidebar sample_world).2) = Some (Error "API error 500")
  /\ session_state (submit i sample_sidebar sample_world).2
     = session_state sample_world.
Proof. split; [vm_compute; reflexivity|apply session_unchanged_submit]. Qed.

(** The API answers [{}]: the missing-fare message. *)
Example empty_object_is_no_fare :
  let i := answering sample_inputs (Ok {| status_code := 200; json := Ok (PyDict []) |}) in
  submit i sample_sidebar sample_world
  = (Ok tt,
     shows (shows sample_world
              (Get "https://taxifare.example/predict"
                   (fare_params sample_sidebar (-73.98) 40.75 (-73.99) 40.76) 10))
           (Error "No 'fare' in API response.")).
Proof. vm_compute. reflexivity. Qed.

(** The API answers [{"fare": "abc"}]: [float()] raises, and the handler
    shows what it raised. *)
Example unreadable_fare :
  let text := Ok {| status_code := 200;
                    json := Ok (PyDict [("fare", PyStr "abc")]) |} in
  last (page (submit (answering sample_inputs text)
                     sample_sidebar sample_world).2)
  = Some (Error "Network error: could not convert string to float: 'abc'").
Proof. vm_compute. reflexivity. Qed.

(** ** The calendar: ordinals, order and timestamps *)

Section Calendar.
Import Datetime.

Lemma is_leap_spec y :
  is_leap y = true <-> (y mod 4 = 0 /\ (y mod 100 <> 0 \/ y mod 400 = 0)).
Proof.
  unfold is_leap. rewrite andb_true_iff, orb_true_iff, negb_true_iff.
  rewrite !Z.eqb_eq, Z.eqb_neq. reflexivity.
Qed.

Lemma days_before_year_succ y :
  days_before_year (y + 1) =
  days_before_year y + 365 + (if is_leap y then 1 else 0).
Proof.
  unfold days_before_year.
  replace (y + 1 - 1) with y by lia.
  pose proof (is_leap_spec y) as Hl.
  destruct (is_leap y).
  - destruct (proj1 Hl eq_refl) as [H4 H]. clear Hl.
    Z.to_euclidean_division_equations. lia.
  - assert (~ (y mod 4 = 0 /\ (y mod 100 <> 0 \/ y mod 400 = 0))) as H
      by (intros H; apply Hl in H; discriminate).
    clear Hl. Z.to_euclidean_division_equations. lia.
Qed.

Lemma days_before_year_mono a b : a <= b -> days_before_year a <= days_before_year b.
Proof.
  unfold days_before_year. intros H.
  Z.to_euclidean_division_equations. lia.
Qed.

Ltac month_cases m :=
  let H := fresh in
  assert (H : m = 1 \/ m = 2 \/ m = 3 \/ m = 4 \/ m = 5 \/ m = 6 \/
              m = 7 \/ m = 8 \/ m = 9 \/ m = 10 \/ m = 11 \/ m = 12) by lia;
  repeat destruct H as [H|H]; subst m.

Lemma day_of_year_bounds y m d :
  1 <= m <= 12 -> 1 <= d <= days_in_month y m ->
  1 <= days_before_month y m + d <= 365 + (if is_leap y then 1 else 0).
Proof.
  intros Hm. unfold days_before_month, days_in_month.
  destruct (is_leap y); month_cases m; cbn; lia.
Qed.

Lemma months_mono y m1 m2 :
  1 <= m1 -> m1 < m2 -> m2 <= 12 ->
  days_before_month y m1 + days_in_month y m1 <= days_before_month y m2.
Proof.
  intros H1 H12 H2. unfold days_before_month, days_in_month.
  destruct (is_leap y); month_cases m1; month_cases m2; cbn; lia.
Qed.

Lemma toordinal_before a b :
  valid_date a -> valid_date b -> date_before a b -> toordinal a < toordinal b.
Proof.
  intros (Hya & Hma & Hda) (Hyb & Hmb & Hdb) Hlt. unfold toordinal, ymd2ord.
  pose proof (day_of_year_bounds _ _ _ Hma Hda) as Ha.
  pose proof (day_of_year_bounds _ _ _ Hmb Hdb) as Hb.
  destruct Hlt as [Hy|[Hy [Hm|[Hm Hd]]]].
  - pose proof (days_before_year_succ (year a)) as Hs.
    pose proof (days_before_year_mono (year a + 1) (year b)) as Hmono.
    lia.
  - rewrite <- Hy in *.
    pose proof (months_mono (year a) (month a) (month b)). lia.
  - rewrite <- Hy, <- Hm in *. lia.
Qed.

Lemma time_us_bounds t : valid_time t -> 0 <= time_us t < 86400000000.
Proof. intros (Hh & Hm & Hs & Hu). unfold time_us. lia. Qed.

Lemma compare_timestamp a b :
  valid a -> valid b -> compare a b = (timestamp a ?= timestamp b).
Proof.
  intros [Hda Hta] [Hdb Htb]. unfold compare, fields, timestamp. cbn [cmp].
  pose proof (time_us_bounds _ Hta) as Hua.
  pose proof (time_us_bounds _ Htb) as Hub.
  pose proof (toordinal_before _ _ Hda Hdb) as Hab.
  pose proof (toordinal_before _ _ Hdb Hda) as Hba.
  unfold date_before in Hab, Hba.
  destruct Hta as (? & ? & ? & ?), Htb as (? & ? & ? & ?).
  assert (year (dt_date a) = year (dt_date b) ->
          month (dt_date a) = month (dt_date b) ->
          day (dt_date a) = day (dt_date b) ->
          toordinal (dt_date a) = toordinal (dt_date b)) as Heq
    by (unfold toordinal; intros -> -> ->; reflexivity).
  unfold time_us in *.
  repeat match goal with
         | |- context [?x ?= ?y] =>
             lazymatch x with
             | context [toordinal] => fail
             | _ => destruct (Z.compare_spec x y)
             end
         end; symmetry;
    first [ apply Z.compare_eq_iff | apply Z.compare_lt_iff
          | apply Z.compare_gt_iff ]; lia.
Qed.

Lemma month_day_spec leapyear n m d :
  0 <= n < 365 -> month_day leapyear n = (m, d) ->
  1 <= m <= 12 /\
  1 <= d <= (if (m =? 2) && leapyear then 29 else DAYS_IN_MONTH m) /\
  DAYS_BEFORE_MONTH m + (if (2 <? m) && leapyear then 1 else 0) + d = n + 1.
Proof.
  intros Hn Hmd.
  assert (month_day_ok leapyear n = true) as H.
  { apply (forall_from_spec (month_day_ok leapyear) 365 0); [|lia].
    destruct leapyear; vm_compute; reflexivity. }
  unfold month_day_ok in H. rewrite Hmd in H.
  rewrite !andb_true_iff, !Z.leb_le, Z.eqb_eq in H. lia.
Qed.

Lemma ord2ymd_month_day n :
  ord2ymd n =
  let n' := n - 1 in
  let n400 := n' / 146097 in
  let r400 := n' mod 146097 in
  let n100 := r400 / 36524 in
  let r100 := r400 mod 36524 in
  let n4 := r100 / 1461 in
  let r4 := r100 mod 1461 in
  let n1 := r4 / 365 in
  let r1 := r4 mod 365 in
  let y := n400 * 400 + 1 + (n100 * 100 + n4 * 4 + n1) in
  if (n1 =? 4) || (n100 =? 4) then mkdate (y - 1) 12 31
  else
    let md := month_day ((n1 =? 3) && (negb (n4 =? 24) || (n100 =? 3))) r1 in
    mkdate y md.1 md.2.
Proof.
  unfold ord2ymd, month_day. cbv zeta.
  change DI400Y with 146097. change DI100Y with 36524. change DI4Y with 1461.
  repeat match goal with
         | |- context [if ?b then _ else _] => destruct b
         end; reflexivity.
Qed.

(** The year that [ord2ymd] finds is a leap year exactly when it says so. *)
Lemma is_leap_in_cycle n400 n100 n4 n1 :
  0 <= n100 <= 3 -> 0 <= n4 <= 24 -> 0 <= n1 <= 3 ->
  is_leap (n400 * 400 + 1 + (n100 * 100 + n4 * 4 + n1))
  = (n1 =? 3) && (negb (n4 =? 24) || (n100 =? 3)).
Proof.
  intros H100 H4 H1. apply eq_true_iff_eq.
  rewrite is_leap_spec, andb_true_iff, orb_true_iff, negb_true_iff.
  rewrite !Z.eqb_eq, Z.eqb_neq.
  Z.to_euclidean_division_equations. lia.
Qed.

Lemma days_before_year_in_cycle n400 n100 n4 n1 :
  0 <= n400 -> 0 <= n100 <= 3 -> 0 <= n4 <= 24 -> 0 <= n1 <= 3 ->
  days_before_year (n400 * 400 + 1 + (n100 * 100 + n4 * 4 + n1))
  = 146097 * n400 + 36524 * n100 + 1461 * n4 + 365 * n1.
Proof.
  intros H400 H100 H4 H1. unfold days_before_year.
  Z.to_euclidean_division_equations. lia.
Qed.

(** The last day of a cycle of 4 or of 400 years is the 31 December of a
    leap year. *)
Lemma last_day_of_cycle n400 n100 n4 n1 :
  0 <= n400 -> 0 <= n100 <= 4 -> 0 <= n4 <= 24 -> 0 <= n1 <= 4 ->
  (n1 = 4 /\ n100 <= 3 /\ n4 <= 23) \/ (n100 = 4 /\ n4 = 0 /\ n1 = 0) ->
  let y := n400 * 400 + 1 + (n100 * 100 + n4 * 4 + n1) in
  is_leap (y - 1) = true /\
  days_before_year (y - 1) + 365
  = 146097 * n400 + 36524 * n100 + 1461 * n4 + 365 * n1.
Proof.
  intros H400 H100 H4 H1 Hcase y. subst y. split.
  - apply is_leap_spec.
    destruct Hcase as [(-> & ? & ?)|(-> & -> & ->)].
    + split; [|left]; Z.to_euclidean_division_equations; lia.
    + split; [|right]; Z.to_euclidean_division_equations; lia.
  - unfold days_before_year.
    destruct Hcase as [(-> & ? & ?)|(-> & -> & ->)];
      Z.to_euclidean_division_equations; lia.
Qed.

Lemma fromordinal_ok n :
  1 <= n <= MAXORDINAL ->
  valid_date (fromordinal n) /\ toordinal (fromordinal n) = n.
Proof.
  unfold MAXORDINAL, fromordinal. intros Hn. rewrite ord2ymd_month_day.
  cbv zeta.
  pose proof (Z.div_mod (n - 1) 146097 ltac:(lia)) as E400.
  pose proof (Z.mod_pos_bound (n - 1) 146097 ltac:(lia)) as B400.
  set (n400 := (n - 1) / 146097) in *. set (r400 := (n - 1) mod 146097) in *.
  pose proof (Z.div_mod r400 36524 ltac:(lia)) as E100.
  pose proof (Z.mod_pos_bound r400 36524 ltac:(lia)) as B100.
  set (n100 := r400 / 36524) in *. set (r100 := r400 mod 36524) in *.
  pose proof (Z.div_mod r100 1461 ltac:(lia)) as E4.
  pose proof (Z.mod_pos_bound r100 1461 ltac:(lia)) as B4.
  set (n4 := r100 / 1461) in *. set (r4 := r100 mod 1461) in *.
  pose proof (Z.div_mod r4 365 ltac:(lia)) as E1.
  pose proof (Z.mod_pos_bound r4 365 ltac:(lia)) as B1.
  set (n1 := r4 / 365) in *. set (r1 := r4 mod 365) in *.
  clearbody n400 r400 n100 r100 n4 r4 n1 r1.
  assert (0 <= n400 <= 24 /\ 0 <= n100 <= 4 /\ 0 <= n4 <= 24 /\ 0 <= n1 <= 4)
    as (H400 & H100 & H4 & H1) by lia.
  destruct ((n1 =? 4) || (n100 =? 4)) eqn:Hlast.
  - apply orb_true_iff in Hlast. rewrite !Z.eqb_eq in Hlast.
    destruct (last_day_of_cycle n400 n100 n4 n1) as [Hleap Hdays];
      [lia..|].
    unfold valid_date, toordinal, ymd2ord, days_in_month, days_before_month.
    cbn [year month day]. rewrite Hleap.
    change (12 =? 2) with false. change (2 <? 12) with true.
    cbn [andb DAYS_IN_MONTH DAYS_BEFORE_MONTH]. lia.
  - apply orb_false_iff in Hlast. rewrite !Z.eqb_neq in Hlast.
    destruct (month_day ((n1 =? 3) && (negb (n4 =? 24) || (n100 =? 3))) r1)
      as [m d] eqn:Hmd.
    apply month_day_spec in Hmd as (Hm & Hd & Hdoy); [|lia].
    rewrite <- (is_leap_in_cycle n400 n100 n4 n1) in Hd, Hdoy by lia.
    pose proof (days_before_year_in_cycle n400 n100 n4 n1) as Hdby.
    unfold valid_date, toordinal, ymd2ord, days_in_month, days_before_month.
    cbn [year month day fst snd]. lia.
Qed.

Lemma timedelta_of_us d s us :
  delta_us (timedelta_of d s us) = (d * 86400 + s) * 1000000 + us /\
  0 <= seconds (timedelta_of d s us) < 86400 /\
  0 <= microseconds (timedelta_of d s us) < 1000000.
Proof.
  unfold delta_us, timedelta_of. cbn [days seconds microseconds].
  Z.to_euclidean_division_equations. lia.
Qed.

Lemma timedelta_add_us a b :
  delta_us (timedelta_add a b) = delta_us a + delta_us b /\
  0 <= seconds (timedelta_add a b) < 86400 /\
  0 <= microseconds (timedelta_add a b) < 1000000.
Proof.
  unfold timedelta_add.
  destruct (timedelta_of_us (days a + days b) (seconds a + seconds b)
              (microseconds a + microseconds b)) as (Hus & Hs & Hu).
  rewrite Hus. split; [unfold delta_us; lia|]. split; assumption.
Qed.

Lemma minutes_delta_us m : delta_us (minutes_delta m) = m * 60000000.
Proof.
  unfold minutes_delta.
  destruct (timedelta_of_us 0 (m * 60) 0) as (Hus & _). rewrite Hus. lia.
Qed.

(** Adding a [timedelta] moves the timestamp by its length. *)
Lemma add_timestamp t other t' :
  valid t -> add t other = Some t' ->
  valid t' /\ timestamp t' = timestamp t + delta_us other.
Proof.
  intros [Hd (Hh & Hm & Hs & Hu)]. unfold add. cbv zeta.
  set (start := timedelta_of (toordinal (dt_date t))
                  (hour (dt_time t) * 3600 + minute (dt_time t) * 60
                   + second (dt_time t))
                  (microsecond (dt_time t))).
  set (delta := timedelta_add start other).
  destruct (timedelta_of_us (toordinal (dt_date t))
              (hour (dt_time t) * 3600 + minute (dt_time t) * 60
               + second (dt_time t))
              (microsecond (dt_time t))) as (Hstart & _).
  fold start in Hstart.
  destruct (timedelta_add_us start other) as (Hdelta & Hsec & Hmic).
  fold delta in Hdelta, Hsec, Hmic. clearbody delta start.
  destruct ((0 <? days delta) && (days delta <=? MAXORDINAL)) eqn:Hrange;
    [|discriminate].
  apply andb_true_iff in Hrange as [Hlo Hhi].
  apply Z.ltb_lt in Hlo. apply Z.leb_le in Hhi.
  destruct (fromordinal_ok (days delta)) as [Hvd Hord]; [lia|].
  intros [= <-]. unfold valid, timestamp. cbn [dt_date dt_time].
  rewrite Hord. unfold valid_time, time_us. cbn [hour minute second microsecond].
  unfold delta_us in Hdelta at 1. unfold timestamp, time_us in *.
  split; [split; [exact Hvd|]|];
    Z.to_euclidean_division_equations; lia.
Qed.

Lemma ge_timestamp a b :
  valid a -> valid b -> (ge a b = true <-> timestamp b <= timestamp a).
Proof.
  intros Ha Hb. unfold ge. rewrite (compare_timestamp a b Ha Hb).
  destruct (Z.compare_spec (timestamp a) (timestamp b)); split; intros;
    first [reflexivity | discriminate | lia].
Qed.

Lemma lt_timestamp a b :
  valid a -> valid b -> (lt a b = true <-> timestamp a < timestamp b).
Proof.
  intros Ha Hb. unfold lt. rewrite (compare_timestamp a b Ha Hb).
  destruct (Z.compare_spec (timestamp a) (timestamp b)); split; intros;
    first [reflexivity | discriminate | lia].
Qed.

(** One minute before now is before now, one minute after is not. *)
Lemma one_minute_earlier clock t :
  valid clock -> add clock (minutes_delta (-1)) = Some t -> lt t clock = true.
Proof.
  intros Hv Ht. destruct (add_timestamp _ _ _ Hv Ht) as [Hvt Hts].
  rewrite minutes_delta_us in Hts. apply lt_timestamp; [assumption..|lia].
Qed.

Lemma one_minute_later clock t :
  valid clock -> add clock (minutes_delta 1) = Some t -> ge t clock = true.
Proof.
  intros Hv Ht. destruct (add_timestamp _ _ _ Hv Ht) as [Hvt Hts].
  rewrite minutes_delta_us in Hts. apply ge_timestamp; [assumption..|lia].
Qed.

(** The timestamp of a valid datetime on the grid is a multiple of a quarter
    of an hour. *)
Lemma on_grid_timestamp g :
  valid g -> on_grid (dt_time g) -> timestamp g mod 900000000 = 0.
Proof.
  intros [_ (Hh & Hm & _)] (Hg & Hs & Hu). unfold timestamp, time_us.
  rewrite Hs, Hu. Z.to_euclidean_division_equations. lia.
Qed.

(** The default is valid, on the grid, and lies [minutes_to_next] minutes
    after the clock cut to the minute. *)
Lemma rounded_time_timestamp clock r :
  valid clock -> rounded_time clock = Some r ->
  valid r /\ on_grid (dt_time r) /\
  timestamp r =
  timestamp clock + minutes_to_next clock * 60000000
  - (second (dt_time clock) * 1000000 + microsecond (dt_time clock)).
Proof.
  intros Hv. unfold rounded_time.
  destruct (add clock (minutes_delta (minutes_to_next clock))) as [t|] eqn:Ht;
    [|discriminate].
  intros [= <-].
  destruct (add_timestamp _ _ _ Hv Ht) as [[Hvd Hvt] Hts].
  rewrite minutes_delta_us in Hts.
  destruct Hv as [_ (Hh & Hm & Hs & Hu)].
  destruct Hvt as (Hh' & Hm' & Hs' & Hu').
  unfold timestamp, time_us, minutes_to_next, replace_second_microsecond,
    valid, valid_time, on_grid in *.
  cbn [dt_date dt_time hour minute second microsecond].
  split; [split; [exact Hvd|lia]|].
  generalize dependent (toordinal (dt_date t)).
  generalize dependent (toordinal (dt_date clock)).
  intros o o' Hts.
  Z.to_euclidean_division_equations. lia.
Qed.
End Calendar.

(** ** The time check *)

Lemma datetime_lt_ge a b : Datetime.lt a b = true <-> Datetime.ge a b = false.
Proof.
  unfold Datetime.lt, Datetime.ge. destruct (Datetime.compare a b);
    split; intros H; first [reflexivity | discriminate H].
Qed.

Lemma app_one_more_ne {A} (l : list A) (x : A) : l ++ [x] <> l.
Proof.
  intros H. apply (f_equal length) in H. rewrite length_app in H.
  cbn in H. lia.
Qed.

(** Past the time check, the handler does not end on the time error. *)
Lemma estimate_fare_not_time_error i sv (w : world) :
  dt_valid sv = true ->
  estimate_fare i sv w
  <> (Ok tt, shows w (Error "Please select a valid future time.")).
Proof.
  intros Ht Heq.
  destruct (session_state w !! "pickup_lon") as [plon|] eqn:Hplon;
    [|revert Heq; unfold estimate_fare; rewrite Ht; cbn [negb];
      rewrite run_bind; unfold getitem at 1; rewrite Hplon; discriminate].
  destruct (session_state w !! "pickup_lat") as [plat|] eqn:Hplat;
    [|revert Heq; unfold estimate_fare; rewrite Ht; cbn [negb];
      rewrite run_bind, (run_getitem _ _ _ Hplon);
      rewrite run_bind; unfold getitem at 1; rewrite Hplat; discriminate].
  destruct (is_within_nyc plon plat) eqn:Hp;
    [|rewrite (estimate_fare_rejects_pickup i sv w plon plat) in Heq
        by assumption;
      injection Heq as Heq; apply app_inv_head in Heq; discriminate].
  destruct (session_state w !! "dropoff_lon") as [dlon|] eqn:Hdlon;
    [|revert Heq; unfold estimate_fare; rewrite Ht; cbn [negb];
      rewrite run_bind, (run_getitem _ _ _ Hplon);
      rewrite run_bind, (run_getitem _ _ _ Hplat), Hp; cbn [negb];
      rewrite run_bind; unfold getitem at 1; rewrite Hdlon; discriminate].
  destruct (session_state w !! "dropoff_lat") as [dlat|] eqn:Hdlat;
    [|revert Heq; unfold estimate_fare; rewrite Ht; cbn [negb];
      rewrite run_bind, (run_getitem _ _ _ Hplon);
      rewrite run_bind, (run_getitem _ _ _ Hplat), Hp; cbn [negb];
      rewrite run_bind, (run_getitem _ _ _ Hdlon);
      rewrite run_bind; unfold getitem at 1; rewrite Hdlat; discriminate].
  destruct (is_within_nyc dlon dlat) eqn:Hd;
    [|rewrite (estimate_fare_rejects_dropoff i sv w plon plat dlon dlat) in Heq
        by assumption;
      injection Heq as Heq; apply app_inv_head in Heq; discriminate].
  pose proof (estimate_fare_one_get i sv w plon plat dlon dlat
                Hplon Hplat Hdlon Hdlat Ht Hp Hd) as Hg.
  rewrite Heq in Hg. cbn [snd] in Hg.
  rewrite gets_shows_other in Hg by reflexivity.
  symmetry in Hg. exact (app_one_more_ne _ _ Hg).
Qed.

(** C6. The combined date and time [dt_raw] is the date picked (today when
    none is) with the time picked (the rounded default when none is). With
    the button pressed, the handler ends on the time error
    "Please select a valid future time.", shown before anything else is
    looked at, exactly when [dt_raw < now]; with [dt_raw >= now] the time
    check passes. The order is that of the time line. A [dt_raw] one minute
    before now is rejected, one a minute after now is not. *)
Theorem C6_time_check (i : inputs) (w0 w1 : world) (sv : sidebar_values) :
  sidebar i w0 = (Ok sv, w1) ->
  button i = true ->
  (exists rounded,
     rounded_time (now i) = Some rounded /\
     dt_raw sv = Datetime.combine
                   (default (Datetime.dt_date (now i)) (date_input i))
                   (default (Datetime.dt_time rounded) (time_input i))) /\
  (Datetime.lt (dt_raw sv) (now i) = true <->
   Datetime.ge (dt_raw sv) (now i) = false) /\
  (forall w : world,
     submit i sv w = (Ok tt, shows w (Error "Please select a valid future time."))
     <-> Datetime.lt (dt_raw sv) (now i) = true) /\
  (Datetime.valid (dt_raw sv) -> Datetime.valid (now i) ->
     (Datetime.lt (dt_raw sv) (now i) = true <->
      Datetime.timestamp (dt_raw sv) < Datetime.timestamp (now i))) /\
  (Datetime.valid (now i) ->
   Datetime.add (now i) (Datetime.minutes_delta (-1)) = Some (dt_raw sv) ->
   forall w : world,
     submit i sv w = (Ok tt, shows w (Error "Please select a valid future time."))) /\
  (Datetime.valid (now i) ->
   Datetime.add (now i) (Datetime.minutes_delta 1) = Some (dt_raw sv) ->
   forall w : world,
     submit i sv w <> (Ok tt, shows w (Error "Please select a valid future time."))).
Proof.
  intros Hsv Hb.
  destruct (sidebar_values_spec _ _ _ _ Hsv) as (r & Hr & Hraw & Hv & _ & _).
  assert (forall w : world,
            submit i sv w
            = (Ok tt, shows w (Error "Please select a valid future time."))
            <-> Datetime.lt (dt_raw sv) (now i) = true) as Hrejected.
  { intros w. unfold submit. rewrite Hb, datetime_lt_ge, <- Hv. split.
    - intros Heq. destruct (dt_valid sv) eqn:Ht; [|reflexivity].
      exfalso. exact (estimate_fare_not_time_error i sv w Ht Heq).
    - apply estimate_fare_rejects_time. }
  split; [exists r; split; assumption|].
  split; [apply datetime_lt_ge|].
  split; [exact Hrejected|].
  split; [intros Hvr Hvn; apply lt_timestamp; assumption|].
  split.
  - intros Hvn Hadd w. apply Hrejected. apply one_minute_earlier; assumption.
  - intros Hvn Hadd w Heq. apply Hrejected in Heq.
    apply datetime_lt_ge in Heq.
    rewrite (one_minute_later _ _ Hvn Hadd) in Heq. discriminate.
Qed.

(** At 10:07 with 10:06 picked, one minute before now: rejected. *)
Lemma C6_one_minute_ago_rejected :
  let sv := {| dt_raw := Datetime.combine (Datetime.mkdate 2026 11 3)
                                          (Datetime.mktime 10 6 0 0);
               dt_valid := false;
               pickup_datetime_formatted := "2026-11-03 10:06:00";
               passenger_count := 2 |} in
  Datetime.add (now sample_inputs) (Datetime.minutes_delta (-1))
  = Some (dt_raw sv) /\
  submit (picking_time sample_inputs (Datetime.mktime 10 6 0 0)) sv sample_world
  = (Ok tt, shows sample_world (Error "Please select a valid future time.")).
Proof.
  split; [reflexivity|].
  destruct (C6_time_check
              (picking_time sample_inputs (Datetime.mktime 10 6 0 0))
              (mkworld ∅ [])
              (mkworld ∅ [Error "Time must be in the future."])
              {| dt_raw := Datetime.combine (Datetime.mkdate 2026 11 3)
                                            (Datetime.mktime 10 6 0 0);
                 dt_valid := false;
                 pickup_datetime_formatted := "2026-11-03 10:06:00";
                 passenger_count := 2 |}
              eq_refl eq_refl) as (_ & _ & _ & _ & Hearlier & _).
  apply Hearlier; [|reflexivity].
  vm_compute. repeat split; discriminate.
Defined.

(** At 10:07 with 10:08 picked, one minute after now: the request goes out
    and the fare is shown. *)
Example one_minute_ahead_accepted :
  Datetime.add (now sample_inputs) (Datetime.minutes_delta 1)
  = Some (Datetime.combine (Datetime.mkdate 2026 11 3) (Datetime.mktime 10 8 0 0)) /\
  without_geocoding
    (page (rerun (picking_time sample_inputs (Datetime.mktime 10 8 0 0)) ∅).2)
  = [Get "https://taxifare.example/predict"
         [("pickup_datetime", PyStr "2026-11-03 10:08:00");
          ("pickup_longitude", PyFloat (-73.98));
          ("pickup_latitude", PyFloat 40.75);
          ("dropoff_longitude", PyFloat (-73.99));
          ("dropoff_latitude", PyFloat 40.76);
          ("passenger_count", PyInt 2)]
         10;
     Success "Estimated Fare: **$12.50**"].
Proof. vm_compute. split; reflexivity. Qed.

(** ** The stored coordinates stay inside the geofence *)

Section Keeps.
Context {A B : Type} (I : world -> Prop).

Lemma keeps_ret (a : A) : keeps I (mret a : M A).
Proof. intros w H; exact H. Qed.

Lemma keeps_lift (r : result A) : keeps I (lift r).
Proof. intros w H; exact H. Qed.

Lemma keeps_getitem key : keeps I (getitem key).
Proof.
  intros w H. unfold getitem. destruct (session_state w !! key); exact H.
Qed.

Lemma keeps_emit (e : event) :
  (forall w, I w -> I (shows w e)) -> keeps I (emit e).
Proof. intros He w H. apply He, H. Qed.

Lemma keeps_bind (c : M A) (k : A -> M B) :
  keeps I c -> (forall a, keeps I (k a)) -> keeps I (c ≫= k).
Proof.
  intros Hc Hk w H. rewrite run_bind. specialize (Hc w H).
  destruct (c w) as [[a|e] w']; cbn in *; [apply Hk|]; exact Hc.
Qed.

Lemma keeps_try_except (body : M A) catches handler :
  keeps I body -> (forall e, keeps I (handler e)) ->
  keeps I (try_except body catches handler).
Proof.
  intros Hb Hh w H. unfold try_except. specialize (Hb w H).
  destruct (body w) as [[a|e] w']; cbn in *; [exact Hb|].
  destruct (catches e); cbn; [apply Hh|]; exact Hb.
Qed.
End Keeps.

Lemma append_cons c s t : String c s +:+ t = String c (s +:+ t).
Proof. reflexivity. Qed.

(** An event other than the two geofence errors of the submit handler can
    be shown in service. *)
Lemma in_service_shows (w : world) (e : event) :
  e <> Error "Pickup outside NYC." -> e <> Error "Dropoff outside NYC." ->
  in_service w -> in_service (shows w e).
Proof.
  intros H1 H2 [Hc [Hp Hd]]. split; [exact Hc|].
  split; cbn; rewrite in_app_iff; intros [H|[H|[]]]; auto.
Qed.

Ltac other_event :=
  let H := fresh in
  intros H; repeat rewrite append_cons in H; discriminate H.

Create HintDb in_service discriminated.

Ltac keeps_in_service :=
  repeat first
    [ solve [auto with in_service]
    | apply keeps_ret
    | apply keeps_lift
    | apply keeps_getitem
    | apply keeps_emit; intros ? ?; apply in_service_shows;
        [other_event|other_event|assumption]
    | apply keeps_bind; [|intros ?]
    | apply keeps_try_except; [|intros ?]
    | match goal with
      | |- keeps _ (if ?b then _ else _) => destruct b
      | |- keeps _ (match ?x with _ => _ end) => destruct x
      end ].

Lemma keeps_sidebar i : keeps in_service (sidebar i).
Proof. unfold sidebar. keeps_in_service. Qed.

Lemma keeps_render_map lat_key lon_key :
  keeps in_service (render_map lat_key lon_key).
Proof. unfold render_map. keeps_in_service. Qed.

Lemma keeps_address_caption lat_key lon_key answer :
  keeps in_service (address_caption lat_key lon_key answer).
Proof. unfold address_caption, geolocator_reverse. keeps_in_service. Qed.

Lemma keeps_show_fare i resp : keeps in_service (show_fare i resp).
Proof. unfold show_fare. keeps_in_service. Qed.
#[export] Hint Resolve keeps_sidebar keeps_render_map keeps_address_caption
  keeps_show_fare : in_service.

(** A click keeps the stored coordinates inside the geofence: the pair it
    writes passed the test, and the other pair is not touched. *)
Lemma keeps_pickup_click clicked : keeps in_service (pickup_click clicked).
Proof.
  intros w [[Hpick Hdrop] Hpage]. unfold pickup_click.
  destruct clicked as [c|]; [|split; [split|]; assumption].
  destruct (is_within_nyc (lng c) (lat c)) eqn:Hc.
  - rewrite click_handler_inside by exact Hc. split; [split|exact Hpage]; cbn.
    + exists (lat c), (lng c). split; [|split; [|exact Hc]].
      * rewrite lookup_insert_ne by discriminate. apply lookup_insert_eq.
      * apply lookup_insert_eq.
    + destruct Hdrop as (dlat & dlon & Hdlat & Hdlon & Hd).
      exists dlat, dlon. rewrite !lookup_insert_ne by discriminate.
      split; [|split]; assumption.
  - rewrite click_handler_outside by exact Hc.
    apply in_service_shows; [discriminate|discriminate|].
    split; [split|]; assumption.
Qed.

Lemma keeps_dropoff_click clicked : keeps in_service (dropoff_click clicked).
Proof.
  intros w [[Hpick Hdrop] Hpage]. unfold dropoff_click.
  destruct clicked as [c|]; [|split; [split|]; assumption].
  destruct (is_within_nyc (lng c) (lat c)) eqn:Hc.
  - rewrite click_handler_inside by exact Hc. split; [split|exact Hpage]; cbn.
    + destruct Hpick as (plat & plon & Hplat & Hplon & Hp).
      exists plat, plon. rewrite !lookup_insert_ne by discriminate.
      split; [|split]; assumption.
    + exists (lat c), (lng c). split; [|split; [|exact Hc]].
      * rewrite lookup_insert_ne by discriminate. apply lookup_insert_eq.
      * apply lookup_insert_eq.
  - rewrite click_handler_outside by exact Hc.
    apply in_service_shows; [discriminate|discriminate|].
    split; [split|]; assumption.
Qed.
#[export] Hint Resolve keeps_pickup_click keeps_dropoff_click : in_service.

(** In service, the submit handler never takes one of its two geofence
    branches. *)
Lemma keeps_estimate_fare i sv : keeps in_service (estimate_fare i sv).
Proof.
  intros w Hw. destruct (dt_valid sv) eqn:Ht.
  - pose proof Hw as [[(plat & plon & Hplat & Hplon & Hp)
                        (dlat & dlon & Hdlat & Hdlon & Hd)] Hpage].
    assert (in_service
              (shows w (Get (API_URL i) (fare_params sv plon plat dlon dlat) 10)))
      as Hw1 by (apply in_service_shows; [discriminate|discriminate|exact Hw]).
    rewrite (estimate_fare_requests i sv w plon plat dlon dlat) by assumption.
    cbv zeta. destruct (get_answer i) as [resp|e].
    + apply (keeps_try_except in_service (show_fare i resp));
        [|intros e|exact Hw1]; keeps_in_service.
    + destruct (is_Exception e); [|exact Hw1].
      apply in_service_shows; [other_event|other_event|exact Hw1].
  - rewrite estimate_fare_rejects_time by exact Ht.
    apply in_service_shows; [discriminate|discriminate|exact Hw].
Qed.

Lemma keeps_submit i sv : keeps in_service (submit i sv).
Proof.
  unfold submit. destruct (button i); [apply keeps_estimate_fare|].
  apply keeps_ret.
Qed.
#[export] Hint Resolve keeps_submit : in_service.

(** The script after the session state is initialised. *)
Lemma keeps_after_init i :
  keeps in_service
    (sv ← sidebar i; pickup_column i;; dropoff_column i;; submit i sv).
Proof. unfold pickup_column, dropoff_column. keeps_in_service. Qed.

(** A new session gets the default coordinate twice, and it is inside. *)
Lemma init_session_new :
  init_session (mkworld ∅ []) =
  (Ok tt, mkworld (<["dropoff_lon" := DEFAULT_LON]>
                     (<["dropoff_lat" := DEFAULT_LAT]>
                        (<["pickup_lon" := DEFAULT_LON]>
                           (<["pickup_lat" := DEFAULT_LAT]> ∅)))) []).
Proof. reflexivity. Qed.

Lemma init_key_present key v (w : world) :
  session_state w !! key = Some v -> init_key key w = (Ok tt, w).
Proof.
  intros H. unfold init_key, contains. rewrite run_bind, H. reflexivity.
Qed.

(** A session that has the four keys is left as it is. *)
Lemma init_session_again (w : world) :
  coordinates_in_nyc (session_state w) -> init_session w = (Ok tt, w).
Proof.
  intros [(plat & plon & Hplat & Hplon & _) (dlat & dlon & Hdlat & Hdlon & _)].
  unfold init_session. cbn [for_each].
  rewrite run_bind, (init_key_present _ _ _ Hplat).
  rewrite run_bind, (init_key_present _ _ _ Hplon).
  rewrite run_bind, (init_key_present _ _ _ Hdlat).
  rewrite run_bind, (init_key_present _ _ _ Hdlon).
  reflexivity.
Qed.

Lemma coordinates_in_nyc_default :
  coordinates_in_nyc (<["dropoff_lon" := DEFAULT_LON]>
                        (<["dropoff_lat" := DEFAULT_LAT]>
                           (<["pickup_lon" := DEFAULT_LON]>
                              (<["pickup_lat" := DEFAULT_LAT]> ∅)))).
Proof.
  split; exists DEFAULT_LAT, DEFAULT_LON; repeat split; reflexivity.
Qed.

(** A rerun, from a new session or from one whose coordinates are inside,
    ends in service. *)
Lemma rerun_in_service i s :
  s = ∅ \/ coordinates_in_nyc s -> in_service (rerun i s).2.
Proof.
  intros Hs. unfold rerun, app.
  change (in_service
            ((init_session ≫= λ _, sv ← sidebar i;
               pickup_column i;; dropoff_column i;; submit i sv)
               (mkworld s [])).2).
  rewrite run_bind. destruct Hs as [-> | Hs].
  - rewrite init_session_new. apply keeps_after_init.
    split; [apply coordinates_in_nyc_default|]. split; intros [].
  - rewrite init_session_again by exact Hs. apply keeps_after_init.
    split; [exact Hs|]. split; intros [].
Qed.

Lemma reachable_in_nyc s : reachable s -> s = ∅ \/ coordinates_in_nyc s.
Proof.
  induction 1 as [|i s Hs IH]; [left; reflexivity|].
  right. apply rerun_in_service, IH.
Qed.

(** C10. The default coordinate (40.75, -73.98) passes [is_within_nyc]. In
    every session the script can reach, the session state is that of a new
    session or holds a pickup and a dropoff coordinate that both pass
    [is_within_nyc]; after any rerun from such a session both coordinates
    are stored and pass it, and the page shows neither
    "Pickup outside NYC." nor "Dropoff outside NYC.": the two geofence
    branches of the submit handler are never taken. *)
Theorem C10_stored_coordinates_stay_in_nyc :
  is_within_nyc DEFAULT_LON DEFAULT_LAT = true /\
  (forall s, reachable s -> s = ∅ \/ coordinates_in_nyc s) /\
  (forall i s, reachable s ->
     coordinates_in_nyc (session_state (rerun i s).2) /\
     ~ In (Error "Pickup outside NYC.") (page (rerun i s).2) /\
     ~ In (Error "Dropoff outside NYC.") (page (rerun i s).2)).
Proof.
  split; [reflexivity|]. split; [exact reachable_in_nyc|].
  intros i s Hs.
  destruct (rerun_in_service i s (reachable_in_nyc s Hs)) as [Hc [Hp Hd]].
  split; [exact Hc|]. split; assumption.
Qed.

(** ** The default pickup time *)

(** At 10:07 the default is 10:15; at 10:15 sharp it is 10:15; late on New
    Year's Eve it is midnight. *)
Example rounded_time_10_07 :
  rounded_time (Datetime.combine (Datetime.mkdate 2026 11 3)
                                 (Datetime.mktime 10 7 0 0))
  = Some (Datetime.combine (Datetime.mkdate 2026 11 3)
                           (Datetime.mktime 10 15 0 0)).
Proof. reflexivity. Qed.

Example rounded_time_10_15_sharp :
  rounded_time (Datetime.combine (Datetime.mkdate 2026 11 3)
                                 (Datetime.mktime 10 15 0 0))
  = Some (Datetime.combine (Datetime.mkdate 2026 11 3)
                           (Datetime.mktime 10 15 0 0)).
Proof. reflexivity. Qed.

Example rounded_time_new_year :
  rounded_time (Datetime.combine (Datetime.mkdate 2026 12 31)
                                 (Datetime.mktime 23 50 12 0))
  = Some (Datetime.combine (Datetime.mkdate 2027 1 1)
                           (Datetime.mktime 0 0 0 0)).
Proof. reflexivity. Qed.

(** When the minute is off the grid, or the clock is on a full minute, the
    default is the least time on the grid that is not before the clock. *)
Lemma rounded_time_least_boundary clock r :
  Datetime.valid clock -> rounded_time clock = Some r ->
  Datetime.minute (Datetime.dt_time clock) mod 15 <> 0 \/
  (Datetime.second (Datetime.dt_time clock) = 0 /\
   Datetime.microsecond (Datetime.dt_time clock) = 0) ->
  Datetime.valid r /\ Datetime.on_grid (Datetime.dt_time r) /\
  Datetime.ge r clock = true /\
  (forall g, Datetime.valid g -> Datetime.on_grid (Datetime.dt_time g) ->
     Datetime.ge g clock = true -> Datetime.ge g r = true).
Proof.
  intros Hv Hr Hcase.
  destruct (rounded_time_timestamp clock r Hv Hr) as (Hvr & Hgrid & Hts).
  pose proof (on_grid_timestamp r Hvr Hgrid) as Hr15.
  assert (Datetime.timestamp clock <= Datetime.timestamp r
          < Datetime.timestamp clock + 900000000) as Hnear.
  { destruct Hv as [_ (_ & Hm & Hs & Hu)]. unfold minutes_to_next in Hts.
    Z.to_euclidean_division_equations. lia. }
  split; [exact Hvr|]. split; [exact Hgrid|].
  split; [apply ge_timestamp; [assumption..|lia]|].
  intros g Hvg Hg Hge. apply ge_timestamp in Hge; [|assumption..].
  pose proof (on_grid_timestamp g Hvg Hg) as Hg15.
  apply ge_timestamp; [assumption..|].
  Z.to_euclidean_division_equations. lia.
Qed.

(** When the minute is on the grid and the clock is not on the full minute,
    the default is before the clock, by less than a minute. *)
Lemma rounded_time_behind clock r :
  Datetime.valid clock -> rounded_time clock = Some r ->
  Datetime.minute (Datetime.dt_time clock) mod 15 = 0 ->
  Datetime.second (Datetime.dt_time clock) <> 0 \/
  Datetime.microsecond (Datetime.dt_time clock) <> 0 ->
  Datetime.lt r clock = true /\
  Datetime.timestamp clock - 60000000 < Datetime.timestamp r.
Proof.
  intros Hv Hr Hmin Hcase.
  destruct (rounded_time_timestamp clock r Hv Hr) as (Hvr & Hgrid & Hts).
  assert (Datetime.timestamp clock - 60000000 < Datetime.timestamp r
          < Datetime.timestamp clock) as Hnear.
  { destruct Hv as [_ (_ & Hm & Hs & Hu)]. unfold minutes_to_next in Hts.
    rewrite Hmin in Hts. change ((15 - 0) mod 15) with 0 in Hts. lia. }
  split; [apply lt_timestamp; [assumption..|lia]|lia].
Qed.

(** C3, at 10:15:30. The minute is on the grid, so no minute is added, and
    the seconds are cut off: the default time is 10:15:00, half a minute
    before the clock and not the next boundary 10:30. With the date and
    time inputs left at their defaults the page opens on
    "Time must be in the future." and the time check fails. The same
    happens at every clock whose minute is on the grid and whose seconds or
    microseconds are not zero. *)
Theorem C3_default_time_behind_the_clock :
  let clock := Datetime.combine (Datetime.mkdate 2026 11 3)
                                (Datetime.mktime 10 15 30 0) in
  let default_time := Datetime.combine (Datetime.mkdate 2026 11 3)
                                       (Datetime.mktime 10 15 0 0) in
  (minutes_to_next clock = 0 /\
   rounded_time clock = Some default_time /\
   Datetime.lt default_time clock = true /\
   sidebar (at_time sample_inputs clock) (mkworld ∅ [])
   = (Ok {| dt_raw := default_time;
            dt_valid := false;
            pickup_datetime_formatted := "2026-11-03 10:15:00";
            passenger_count := 2 |},
      mkworld ∅ [Error "Time must be in the future."])) /\
  (forall now r,
     Datetime.valid now -> rounded_time now = Some r ->
     Datetime.minute (Datetime.dt_time now) mod 15 = 0 ->
     Datetime.second (Datetime.dt_time now) <> 0 \/
     Datetime.microsecond (Datetime.dt_time now) <> 0 ->
     Datetime.lt r now = true).
Proof.
  cbv zeta. split; [repeat split|].
  intros now r Hv Hr Hmin Hcase.
  apply (rounded_time_behind now r Hv Hr Hmin Hcase).
Qed.

(** * More properties of the script *)

(** ** The session state at the start of a run *)

Lemma init_key_run key (w : world) :
  init_key key w =
  (Ok tt,
   match session_state w !! key with
   | Some _ => w
   | None =>
       mkworld (<[key := if str_in "lat" key then DEFAULT_LAT else DEFAULT_LON]>
                  (session_state w)) (page w)
   end).
Proof.
  unfold init_key, contains. rewrite run_bind.
  destruct (session_state w !! key); reflexivity.
Qed.

Lemma init_key_lookup key (w : world) key' :
  session_state (init_key key w).2 !! key' =
  if decide (key = key')
  then Some (default (if str_in "lat" key then DEFAULT_LAT else DEFAULT_LON)
                     (session_state w !! key))
  else session_state w !! key'.
Proof.
  rewrite init_key_run. cbn [snd].
  destruct (session_state w !! key) as [v|] eqn:Hkey.
  - destruct (decide (key = key')) as [<-|]; [exact Hkey|reflexivity].
  - cbn [session_state]. rewrite lookup_insert.
    destruct (decide (key = key')); reflexivity.
Qed.

Lemma init_key_page key (w : world) : page (init_key key w).2 = page w.
Proof.
  rewrite init_key_run. destruct (session_state w !! key); reflexivity.
Qed.

Ltac decide_keys :=
  repeat first
    [ rewrite decide_True by reflexivity
    | rewrite decide_False by first [discriminate | congruence] ].

Lemma init_session_run (w : world) :
  init_session w =
  (Ok tt,
   (init_key "dropoff_lon"
      (init_key "dropoff_lat"
         (init_key "pickup_lon" (init_key "pickup_lat" w).2).2).2).2).
Proof.
  unfold init_session. cbn [for_each].
  rewrite run_bind, (init_key_run "pickup_lat"). cbn [snd].
  rewrite run_bind, (init_key_run "pickup_lon"). cbn [snd].
  rewrite run_bind, (init_key_run "dropoff_lat"). cbn [snd].
  rewrite run_bind, (init_key_run "dropoff_lon"). cbn [snd].
  reflexivity.
Qed.

Lemma init_session_run_snd (w : world) :
  (init_key "dropoff_lon"
     (init_key "dropoff_lat"
        (init_key "pickup_lon" (init_key "pickup_lat" w).2).2).2).2
  = (init_session w).2.
Proof. rewrite init_session_run. reflexivity. Qed.

Lemma init_session_lookup (w : world) key :
  session_state (init_session w).2 !! key =
  if decide (key = "pickup_lat")
  then Some (default DEFAULT_LAT (session_state w !! key))
  else if decide (key = "pickup_lon")
  then Some (default DEFAULT_LON (session_state w !! key))
  else if decide (key = "dropoff_lat")
  then Some (default DEFAULT_LAT (session_state w !! key))
  else if decide (key = "dropoff_lon")
  then Some (default DEFAULT_LON (session_state w !! key))
  else session_state w !! key.
Proof.
  rewrite init_session_run. cbn [snd]. rewrite !init_key_lookup.
  destruct (decide (key = "pickup_lat")) as [->|H1]; [decide_keys; reflexivity|].
  destruct (decide (key = "pickup_lon")) as [->|H2]; [decide_keys; reflexivity|].
  destruct (decide (key = "dropoff_lat")) as [->|H3]; [decide_keys; reflexivity|].
  destruct (decide (key = "dropoff_lon")) as [->|H4]; [decide_keys; reflexivity|].
  decide_keys. reflexivity.
Qed.

Lemma init_session_page (w : world) : page (init_session w).2 = page w.
Proof. rewrite init_session_run. cbn [snd]. rewrite !init_key_page. reflexivity. Qed.

Lemma init_session_ok (w : world) : (init_session w).1 = Ok tt.
Proof. rewrite init_session_run. reflexivity. Qed.

(** X1. The loop over the four keys at the start of the script, from any
    session state: it ends normally and shows nothing; a key that is there
    keeps its value; a missing [pickup_lat] or [dropoff_lat] becomes 40.75
    and a missing [pickup_lon] or [dropoff_lon] becomes -73.98; no other key
    is written. *)
Theorem X1_init_session_fills_missing_keys (w : world) :
  (init_session w).1 = Ok tt /\
  page (init_session w).2 = page w /\
  session_state (init_session w).2 !! "pickup_lat"
  = Some (default 40.75%float (session_state w !! "pickup_lat")) /\
  session_state (init_session w).2 !! "pickup_lon"
  = Some (default (-73.98)%float (session_state w !! "pickup_lon")) /\
  session_state (init_session w).2 !! "dropoff_lat"
  = Some (default 40.75%float (session_state w !! "dropoff_lat")) /\
  session_state (init_session w).2 !! "dropoff_lon"
  = Some (default (-73.98)%float (session_state w !! "dropoff_lon")) /\
  (forall key, ~ In key session_keys ->
     session_state (init_session w).2 !! key = session_state w !! key).
Proof.
  split; [apply init_session_ok|]. split; [apply init_session_page|].
  repeat split; try (rewrite init_session_lookup; reflexivity).
  intros key Hkey. rewrite init_session_lookup.
  rewrite !decide_False; [reflexivity|..];
    intros ->; apply Hkey; cbn; tauto.
Qed.

(** ** The stages of a run *)

Lemma has_keys_lookup (w : world) key :
  has_keys w -> In key session_keys -> exists v, session_state w !! key = Some v.
Proof. intros Hw Hkey. exact (Hw key Hkey). Qed.

Lemma has_keys_init (w : world) : has_keys (init_session w).2.
Proof.
  intros key Hkey. rewrite init_session_lookup.
  destruct Hkey as [<-|[<-|[<-|[<-|[]]]]]; decide_keys; eauto.
Qed.

Lemma has_keys_same_session (w w' : world) :
  session_state w' = session_state w -> has_keys w -> has_keys w'.
Proof. intros Hs Hw key Hkey. rewrite Hs. exact (Hw key Hkey). Qed.

Lemma has_keys_click lat_key lon_key outside clicked (w : world) :
  has_keys w -> has_keys (click_handler lat_key lon_key outside clicked w).2.
Proof.
  intros Hw key Hkey. destruct clicked as [c|]; [|exact (Hw key Hkey)].
  destruct (is_within_nyc (lng c) (lat c)) eqn:Hc.
  - rewrite click_handler_inside by exact Hc. cbn.
    rewrite !lookup_insert.
    repeat match goal with
           | |- context [decide (?a = ?b)] => destruct (decide (a = b))
           end; first [eexists; reflexivity | exact (Hw key Hkey)].
  - rewrite click_handler_outside by exact Hc. exact (Hw key Hkey).
Qed.

(** The sidebar: it stops on the overflow of the default time, or hands on
    its values, having shown its error when the time is not valid. *)
Lemma sidebar_run i (w : world) :
  sidebar i w =
  match rounded_time (now i) with
  | None => (Raise OverflowError_date, w)
  | Some rounded =>
      (Ok (sidebar_values_of i rounded),
       if dt_valid (sidebar_values_of i rounded) then w
       else shows w (Error "Time must be in the future."))
  end.
Proof.
  unfold sidebar. rewrite run_bind. unfold lift at 1.
  destruct (rounded_time (now i)) as [rounded|]; [|reflexivity].
  rewrite run_bind. unfold sidebar_values_of. cbn [dt_valid].
  destruct (Datetime.ge _ (now i)); reflexivity.
Qed.

Lemma render_map_run lat_key lon_key (w : world) plat plon :
  session_state w !! lat_key = Some plat ->
  session_state w !! lon_key = Some plon ->
  render_map lat_key lon_key w = (Ok tt, w).
Proof.
  intros Hlat Hlon. unfold render_map.
  rewrite run_bind, (run_getitem _ _ _ Hlat).
  rewrite run_bind, (run_getitem _ _ _ Hlon).
  rewrite run_bind, (run_getitem _ _ _ Hlat).
  rewrite run_bind, (run_getitem _ _ _ Hlon). reflexivity.
Qed.

Lemma address_caption_run lat_key lon_key answer (w : world) plat plon :
  session_state w !! lat_key = Some plat ->
  session_state w !! lon_key = Some plon ->
  address_caption lat_key lon_key answer w =
  (Ok tt, mkworld (session_state w)
                  (page w ++ [Reverse plat plon; Caption (caption_of answer)])).
Proof.
  intros Hlat Hlon.
  pose proof (address_caption_ok lat_key lon_key answer w) as Hr.
  pose proof (session_unchanged_address_caption lat_key lon_key answer w) as Hs.
  pose proof (address_caption_page lat_key lon_key answer w plat plon Hlat Hlon)
    as Hp.
  destruct (address_caption lat_key lon_key answer w) as [r [s p]].
  cbn in Hr, Hs, Hp. subst r s p. reflexivity.
Qed.

(** A column of the page: the map, the click, the caption. The caption is
    looked up for the coordinate as the click left it. *)
Lemma column_run lat_key lon_key outside clicked answer (w : world) plat plon :
  lat_key <> lon_key ->
  session_state w !! lat_key = Some plat ->
  session_state w !! lon_key = Some plon ->
  (render_map lat_key lon_key;;
   click_handler lat_key lon_key outside clicked;;
   address_caption lat_key lon_key answer) w =
  match accepted clicked with
  | Some c =>
      (Ok tt,
       mkworld (<[lon_key := lng c]> (<[lat_key := lat c]> (session_state w)))
               (page w ++ [Reverse (lat c) (lng c); Caption (caption_of answer)]))
  | None =>
      (Ok tt,
       mkworld (session_state w)
               (page w ++ match clicked with Some _ => [Error outside] | None => [] end ++
                [Reverse plat plon; Caption (caption_of answer)]))
  end.
Proof.
  intros Hne Hlat Hlon.
  rewrite run_bind, (render_map_run _ _ _ _ _ Hlat Hlon).
  rewrite run_bind. unfold accepted.
  destruct clicked as [c|].
  - destruct (is_within_nyc (lng c) (lat c)) eqn:Hc.
    + rewrite click_handler_inside by exact Hc.
      rewrite (address_caption_run _ _ _ _ (lat c) (lng c)); [reflexivity|..];
        cbn [session_state].
      * rewrite lookup_insert_ne by congruence. apply lookup_insert_eq.
      * apply lookup_insert_eq.
    + rewrite click_handler_outside by exact Hc.
      rewrite (address_caption_run _ _ _ _ plat plon) by assumption.
      cbn [session_state page]. rewrite <- app_assoc. reflexivity.
  - cbn [click_handler]. unfold mret, M_ret, ret.
    apply address_caption_run; assumption.
Qed.

Lemma pickup_column_run i (w : world) plat plon :
  session_state w !! "pickup_lat" = Some plat ->
  session_state w !! "pickup_lon" = Some plon ->
  pickup_column i w =
  match accepted (pick_state i) with
  | Some c =>
      (Ok tt,
       mkworld (<["pickup_lon" := lng c]>
                  (<["pickup_lat" := lat c]> (session_state w)))
               (page w ++ [Reverse (lat c) (lng c);
                           Caption (caption_of (pick_address i))]))
  | None =>
      (Ok tt,
       mkworld (session_state w)
               (page w ++
                match pick_state i with
                | Some _ => [Error "Selected pickup is outside NYC."]
                | None => []
                end ++
                [Reverse plat plon; Caption (caption_of (pick_address i))]))
  end.
Proof. apply column_run. discriminate. Qed.

Lemma dropoff_column_run i (w : world) dlat dlon :
  session_state w !! "dropoff_lat" = Some dlat ->
  session_state w !! "dropoff_lon" = Some dlon ->
  dropoff_column i w =
  match accepted (drop_state i) with
  | Some c =>
      (Ok tt,
       mkworld (<["dropoff_lon" := lng c]>
                  (<["dropoff_lat" := lat c]> (session_state w)))
               (page w ++ [Reverse (lat c) (lng c);
                           Caption (caption_of (drop_address i))]))
  | None =>
      (Ok tt,
       mkworld (session_state w)
               (page w ++
                match drop_state i with
                | Some _ => [Error "Selected dropoff is outside NYC."]
                | None => []
                end ++
                [Reverse dlat dlon; Caption (caption_of (drop_address i))]))
  end.
Proof. apply column_run. discriminate. Qed.

Lemma has_keys_pickup_column i (w : world) :
  has_keys w ->
  (pickup_column i w).1 = Ok tt /\ has_keys (pickup_column i w).2 /\
  session_state (pickup_column i w).2
  = session_state (pickup_click (pick_state i) w).2.
Proof.
  intros Hw.
  destruct (has_keys_lookup w "pickup_lat" Hw) as [plat Hplat]; [cbn; tauto|].
  destruct (has_keys_lookup w "pickup_lon" Hw) as [plon Hplon]; [cbn; tauto|].
  pose proof (has_keys_click "pickup_lat" "pickup_lon"
                "Selected pickup is outside NYC." (pick_state i) w Hw) as Hk.
  rewrite (pickup_column_run i w plat plon Hplat Hplon).
  unfold pickup_click in *. unfold accepted.
  destruct (pick_state i) as [c|]; [|repeat split; exact Hw].
  destruct (is_within_nyc (lng c) (lat c)) eqn:Hc.
  - rewrite click_handler_inside in * by exact Hc. repeat split. exact Hk.
  - rewrite click_handler_outside in * by exact Hc. repeat split. exact Hw.
Qed.

Lemma has_keys_dropoff_column i (w : world) :
  has_keys w ->
  (dropoff_column i w).1 = Ok tt /\ has_keys (dropoff_column i w).2 /\
  session_state (dropoff_column i w).2
  = session_state (dropoff_click (drop_state i) w).2.
Proof.
  intros Hw.
  destruct (has_keys_lookup w "dropoff_lat" Hw) as [dlat Hdlat]; [cbn; tauto|].
  destruct (has_keys_lookup w "dropoff_lon" Hw) as [dlon Hdlon]; [cbn; tauto|].
  pose proof (has_keys_click "dropoff_lat" "dropoff_lon"
                "Selected dropoff is outside NYC." (drop_state i) w Hw) as Hk.
  rewrite (dropoff_column_run i w dlat dlon Hdlat Hdlon).
  unfold dropoff_click in *. unfold accepted.
  destruct (drop_state i) as [c|]; [|repeat split; exact Hw].
  destruct (is_within_nyc (lng c) (lat c)) eqn:Hc.
  - rewrite click_handler_inside in * by exact Hc. repeat split. exact Hk.
  - rewrite click_handler_outside in * by exact Hc. repeat split. exact Hw.
Qed.

(** the world in which the columns of a run are drawn *)
Lemma has_keys_after_sidebar i rounded s :
  has_keys (if dt_valid (sidebar_values_of i rounded)
            then (init_session (mkworld s [])).2
            else shows (init_session (mkworld s [])).2
                       (Error "Time must be in the future.")).
Proof.
  pose proof (has_keys_init (mkworld s [])) as Hk.
  destruct (dt_valid _); exact Hk.
Qed.

(** A run, stage by stage: the session state is initialised; the sidebar
    stops the run or hands on its values; the two columns end normally; the
    submit handler ends the run. *)
Lemma rerun_run i s :
  rerun i s =
  match rounded_time (now i) with
  | None => (Raise OverflowError_date, (init_session (mkworld s [])).2)
  | Some rounded =>
      let sv := sidebar_values_of i rounded in
      let w2 := if dt_valid sv then (init_session (mkworld s [])).2
                else shows (init_session (mkworld s [])).2
                           (Error "Time must be in the future.") in
      submit i sv (dropoff_column i (pickup_column i w2).2).2
  end.
Proof.
  unfold rerun, app. rewrite run_bind.
  pose proof (init_session_ok (mkworld s [])) as Hr1.
  pose proof (has_keys_init (mkworld s [])) as Hw1.
  destruct (init_session (mkworld s [])) as [r1 w1].
  cbn [fst snd] in *. subst r1. rewrite run_bind, sidebar_run.
  destruct (rounded_time (now i)) as [rounded|]; [|reflexivity].
  cbv zeta.
  assert (has_keys (if dt_valid (sidebar_values_of i rounded) then w1
                    else shows w1 (Error "Time must be in the future.")))
    as Hw2 by (destruct (dt_valid _); exact Hw1).
  set (w2 := if dt_valid _ then _ else _) in *. clearbody w2.
  destruct (has_keys_pickup_column i w2 Hw2) as (Hr3 & Hw3 & _).
  rewrite run_bind. destruct (pickup_column i w2) as [r3 w3].
  cbn [fst snd] in *. subst r3.
  destruct (has_keys_dropoff_column i w3 Hw3) as (Hr4 & Hw4 & _).
  rewrite run_bind. destruct (dropoff_column i w3) as [r4 w4].
  cbn [fst snd] in *. subst r4. reflexivity.
Qed.

(** ** What a run does to the session state *)

Lemma click_handler_session lat_key lon_key outside clicked (w : world) :
  session_state (click_handler lat_key lon_key outside clicked w).2
  = store lat_key lon_key (accepted clicked) (session_state w).
Proof.
  unfold accepted. destruct clicked as [c|]; [|reflexivity].
  destruct (is_within_nyc (lng c) (lat c)) eqn:Hc.
  - rewrite click_handler_inside by exact Hc. reflexivity.
  - rewrite click_handler_outside by exact Hc. reflexivity.
Qed.

Lemma init_session_has_keys (w : world) :
  has_keys w -> session_state (init_session w).2 = session_state w.
Proof.
  intros Hw. apply map_eq. intros key. rewrite init_session_lookup.
  repeat match goal with
         | |- context [decide (key = ?k)] =>
             destruct (decide (key = k)) as [->|];
             [destruct (has_keys_lookup w k Hw) as [v ->]; [cbn; tauto|];
              reflexivity|]
         end.
  reflexivity.
Qed.

(** Storing the same two coordinates again changes nothing. *)
Lemma store_again a b (s : gmap string float) :
  let clicks s :=
    store "dropoff_lat" "dropoff_lon" b (store "pickup_lat" "pickup_lon" a s) in
  clicks (clicks s) = clicks s.
Proof.
  cbv zeta. destruct a as [a|], b as [b|]; cbn [store];
    try reflexivity; apply map_eq; intros key; rewrite !lookup_insert;
    repeat match goal with
           | |- context [decide (?k = key)] => destruct (decide (k = key))
           end; reflexivity.
Qed.

Lemma has_keys_store lat_key lon_key c s p p' :
  has_keys (mkworld s p) -> has_keys (mkworld (store lat_key lon_key c s) p').
Proof.
  intros Hw key Hkey. destruct c as [c|]; cbn; [|exact (Hw key Hkey)].
  rewrite !lookup_insert.
  repeat match goal with
         | |- context [decide (?a = ?b)] => destruct (decide (a = b))
         end; first [eexists; reflexivity | exact (Hw key Hkey)].
Qed.

Lemma rerun_session i s :
  session_state (rerun i s).2 =
  match rounded_time (now i) with
  | None => session_state (init_session (mkworld s [])).2
  | Some _ =>
      store "dropoff_lat" "dropoff_lon" (accepted (drop_state i))
        (store "pickup_lat" "pickup_lon" (accepted (pick_state i))
           (session_state (init_session (mkworld s [])).2))
  end.
Proof.
  rewrite rerun_run.
  destruct (rounded_time (now i)) as [rounded|]; [|reflexivity].
  cbv zeta. rewrite session_unchanged_submit.
  pose proof (has_keys_init (mkworld s [])) as Hw1.
  assert (forall w2, session_state w2 = session_state (init_session (mkworld s [])).2 ->
            session_state (dropoff_column i (pickup_column i w2).2).2 =
            store "dropoff_lat" "dropoff_lon" (accepted (drop_state i))
              (store "pickup_lat" "pickup_lon" (accepted (pick_state i))
                 (session_state (init_session (mkworld s [])).2))) as H.
  { intros w2 Hs2.
    assert (has_keys w2) as Hw2 by (exact (has_keys_same_session _ _ Hs2 Hw1)).
    destruct (has_keys_pickup_column i w2 Hw2) as (_ & Hw3 & Hs3).
    destruct (has_keys_dropoff_column i _ Hw3) as (_ & _ & Hs4).
    rewrite Hs4. unfold dropoff_click. rewrite click_handler_session, Hs3.
    unfold pickup_click. rewrite click_handler_session, Hs2. reflexivity. }
  apply H. destruct (dt_valid _); reflexivity.
Qed.

Lemma has_keys_rerun i s : has_keys (mkworld (session_state (rerun i s).2) []).
Proof.
  rewrite rerun_session.
  pose proof (has_keys_init (mkworld s [])) as Hw1.
  destruct (rounded_time (now i)); [|exact Hw1].
  do 2 apply (has_keys_store _ _ _ _ []). exact Hw1.
Qed.

(** X2. What a run leaves in the session state, from any session state: the
    missing keys are filled in, and, unless the sidebar stopped the run, the
    pickup click and then the dropoff click are handled; the sidebar, the
    maps, the captions and the submit handler add nothing. A second run on
    the same inputs leaves the session state as the first one left it. *)
Theorem X2_session_after_a_run (i : inputs) (s : gmap string float) :
  session_state (rerun i s).2 =
  match rounded_time (now i) with
  | None => session_state (init_session (mkworld s [])).2
  | Some _ =>
      session_state
        (dropoff_click (drop_state i)
           (pickup_click (pick_state i) (init_session (mkworld s [])).2).2).2
  end /\
  session_state (rerun i (session_state (rerun i s).2)).2
  = session_state (rerun i s).2.
Proof.
  split.
  - rewrite rerun_session. unfold dropoff_click, pickup_click.
    rewrite !click_handler_session. reflexivity.
  - rewrite (rerun_session i (session_state (rerun i s).2)).
    rewrite (init_session_has_keys _ (has_keys_rerun i s)). cbn [session_state].
    rewrite rerun_session.
    destruct (rounded_time (now i)); [|reflexivity].
    apply (store_again (accepted (pick_state i)) (accepted (drop_state i))).
Qed.

(** ** How a run can end *)

(** With the four keys there, the submit handler lets through only what
    [except Exception] does not catch. *)
Lemma submit_raises i sv (w : world) e :
  has_keys w -> (submit i sv w).1 = Raise e ->
  button i = true /\ is_Exception e = false.
Proof.
  intros Hw. unfold submit. destruct (button i); [|discriminate].
  intros He. split; [reflexivity|]. revert He.
  destruct (has_keys_lookup w "pickup_lat" Hw) as [plat Hplat]; [cbn; tauto|].
  destruct (has_keys_lookup w "pickup_lon" Hw) as [plon Hplon]; [cbn; tauto|].
  destruct (has_keys_lookup w "dropoff_lat" Hw) as [dlat Hdlat]; [cbn; tauto|].
  destruct (has_keys_lookup w "dropoff_lon" Hw) as [dlon Hdlon]; [cbn; tauto|].
  destruct (dt_valid sv) eqn:Ht;
    [|rewrite estimate_fare_rejects_time by exact Ht; discriminate].
  destruct (is_within_nyc plon plat) eqn:Hp;
    [|rewrite (estimate_fare_rejects_pickup i sv w plon plat) by assumption;
      discriminate].
  destruct (is_within_nyc dlon dlat) eqn:Hd;
    [|rewrite (estimate_fare_rejects_dropoff i sv w plon plat dlon dlat)
        by assumption; discriminate].
  rewrite (estimate_fare_requests i sv w plon plat dlon dlat) by assumption.
  cbv zeta. destruct (get_answer i) as [resp|e0].
  - unfold try_except. destruct (show_fare i resp _) as [[[]|e0] w2].
    + discriminate.
    + destruct (is_Exception e0) eqn:He0; [discriminate|].
      intros [= <-]. exact He0.
  - destruct (is_Exception e0) eqn:He0; [discriminate|].
    intros [= <-]. exact He0.
Qed.

(** X3. A run, from any session state, ends in an exception in two ways
    only: the default time overflows in the sidebar ([OverflowError]), or the
    button was pressed and the fare request, or the reading of its answer,
    raised something that is not an [Exception]. It never ends in a
    [KeyError] of the session state, in an exception of the geocoder, or in
    an [Exception] of the fare request. *)
Theorem X3_exceptions_that_end_a_run (i : inputs) (s : gmap string float)
    (e : exn) :
  (rerun i s).1 = Raise e ->
  (rounded_time (now i) = None /\ e = OverflowError_date) \/
  (button i = true /\ is_Exception e = false).
Proof.
  rewrite rerun_run.
  destruct (rounded_time (now i)) as [rounded|];
    [|intros [= <-]; left; split; reflexivity].
  cbv zeta. intros He. right.
  pose proof (has_keys_init (mkworld s [])) as Hw1.
  assert (has_keys (if dt_valid (sidebar_values_of i rounded)
                    then (init_session (mkworld s [])).2
                    else shows (init_session (mkworld s [])).2
                               (Error "Time must be in the future.")))
    as Hw2 by (destruct (dt_valid _); exact Hw1).
  destruct (has_keys_pickup_column i _ Hw2) as (_ & Hw3 & _).
  destruct (has_keys_dropoff_column i _ Hw3) as (_ & Hw4 & _).
  exact (submit_raises i _ _ e Hw4 He).
Qed.

(** An interrupt during the fare request ends the run. *)
Lemma X3_interrupted :
  (rerun interrupted_inputs ∅).1 = Raise (mkexn false "KeyboardInterrupt") /\
  ((rounded_time (now interrupted_inputs) = None /\
    mkexn false "KeyboardInterrupt" = OverflowError_date) \/
   (button interrupted_inputs = true /\
    is_Exception (mkexn false "KeyboardInterrupt") = false)).
Proof.
  split; [reflexivity|].
  apply (X3_exceptions_that_end_a_run interrupted_inputs ∅). reflexivity.
Defined.

(** ** The columns *)

(** X4. A column of the page, with its coordinate stored. It never raises.
    A click that passes the geofence is stored and the address is looked up
    for the clicked point; a click that fails shows the map's error, and
    then, as without a click, the address is looked up for the stored
    point. Exactly one lookup and one caption follow. *)
Theorem X4_column_looks_up_the_coordinate_after_the_click (i : inputs)
    (w : world) (plat plon dlat dlon : float) :
  session_state w !! "pickup_lat" = Some plat ->
  session_state w !! "pickup_lon" = Some plon ->
  session_state w !! "dropoff_lat" = Some dlat ->
  session_state w !! "dropoff_lon" = Some dlon ->
  pickup_column i w =
  match pick_state i with
  | Some c =>
      if is_within_nyc (lng c) (lat c)
      then (Ok tt,
            mkworld (<["pickup_lon" := lng c]>
                       (<["pickup_lat" := lat c]> (session_state w)))
                    (page w ++ [Reverse (lat c) (lng c);
                                Caption (caption_of (pick_address i))]))
      else (Ok tt,
            mkworld (session_state w)
                    (page w ++ [Error "Selected pickup is outside NYC.";
                                Reverse plat plon;
                                Caption (caption_of (pick_address i))]))
  | None =>
      (Ok tt,
       mkworld (session_state w)
               (page w ++ [Reverse plat plon;
                           Caption (caption_of (pick_address i))]))
  end /\
  dropoff_column i w =
  match drop_state i with
  | Some c =>
      if is_within_nyc (lng c) (lat c)
      then (Ok tt,
            mkworld (<["dropoff_lon" := lng c]>
                       (<["dropoff_lat" := lat c]> (session_state w)))
                    (page w ++ [Reverse (lat c) (lng c);
                                Caption (caption_of (drop_address i))]))
      else (Ok tt,
            mkworld (session_state w)
                    (page w ++ [Error "Selected dropoff is outside NYC.";
                                Reverse dlat dlon;
                                Caption (caption_of (drop_address i))]))
  | None =>
      (Ok tt,
       mkworld (session_state w)
               (page w ++ [Reverse dlat dlon;
                           Caption (caption_of (drop_address i))]))
  end.
Proof.
  intros Hplat Hplon Hdlat Hdlon. split.
  - rewrite (pickup_column_run i w plat plon Hplat Hplon). unfold accepted.
    destruct (pick_state i) as [c|]; [|reflexivity].
    destruct (is_within_nyc (lng c) (lat c)); reflexivity.
  - rewrite (dropoff_column_run i w dlat dlon Hdlat Hdlon). unfold accepted.
    destruct (drop_state i) as [c|]; [|reflexivity].
    destruct (is_within_nyc (lng c) (lat c)); reflexivity.
Qed.

(** The sample ride: the dropoff clicked at (40.76, -73.99) is stored and
    looked up. *)
Lemma X4_sample :
  dropoff_column sample_inputs (mkworld (session_state stale_world) []) =
  (Ok tt,
   mkworld (<["dropoff_lon" := (-73.99)%float]>
              (<["dropoff_lat" := 40.76%float]> (session_state stale_world)))
           [Reverse 40.76 (-73.99); Caption "📨 Address: Not found"]).
Proof.
  apply (X4_column_looks_up_the_coordinate_after_the_click sample_inputs
           (mkworld (session_state stale_world) [])
           40.75 (-75) 40.76 (-73.99)); reflexivity.
Defined.

(** ** The request of a whole run *)

Lemma keeps_pickup_column i : keeps in_service (pickup_column i).
Proof. unfold pickup_column. keeps_in_service. Qed.

Lemma keeps_dropoff_column i : keeps in_service (dropoff_column i).
Proof. unfold dropoff_column. keeps_in_service. Qed.

Lemma init_in_service s :
  s = ∅ \/ coordinates_in_nyc s -> in_service (init_session (mkworld s [])).2.
Proof.
  intros [-> | Hs].
  - rewrite init_session_new. split; [apply coordinates_in_nyc_default|].
    split; intros [].
  - rewrite init_session_again by exact Hs. split; [exact Hs|].
    split; intros [].
Qed.

Lemma gets_pickup_column i (w : world) :
  has_keys w -> gets (page (pickup_column i w).2) = gets (page w).
Proof.
  intros Hw.
  destruct (has_keys_lookup w "pickup_lat" Hw) as [plat Hplat]; [cbn; tauto|].
  destruct (has_keys_lookup w "pickup_lon" Hw) as [plon Hplon]; [cbn; tauto|].
  rewrite (pickup_column_run i w plat plon Hplat Hplon).
  destruct (accepted (pick_state i)), (pick_state i); cbn [snd page];
    rewrite !gets_app; cbn; rewrite ?app_nil_r; reflexivity.
Qed.

Lemma gets_dropoff_column i (w : world) :
  has_keys w -> gets (page (dropoff_column i w).2) = gets (page w).
Proof.
  intros Hw.
  destruct (has_keys_lookup w "dropoff_lat" Hw) as [dlat Hdlat]; [cbn; tauto|].
  destruct (has_keys_lookup w "dropoff_lon" Hw) as [dlon Hdlon]; [cbn; tauto|].
  rewrite (dropoff_column_run i w dlat dlon Hdlat Hdlon).
  destruct (accepted (drop_state i)), (drop_state i); cbn [snd page];
    rewrite !gets_app; cbn; rewrite ?app_nil_r; reflexivity.
Qed.

Lemma store_lookup_own lat_key lon_key c (s : gmap string float) c' :
  lat_key <> lon_key -> c = Some c' ->
  store lat_key lon_key c s !! lat_key = Some (lat c') /\
  store lat_key lon_key c s !! lon_key = Some (lng c').
Proof.
  intros Hne ->. cbn. split.
  - rewrite lookup_insert_ne by congruence. apply lookup_insert_eq.
  - apply lookup_insert_eq.
Qed.

Lemma store_lookup_other lat_key lon_key c (s : gmap string float) key :
  key <> lat_key -> key <> lon_key ->
  store lat_key lon_key c s !! key = s !! key.
Proof.
  intros Hlat Hlon. destruct c as [c|]; [|reflexivity]. cbn.
  rewrite !lookup_insert_ne by congruence. reflexivity.
Qed.

(** X5. A whole run in a session the script can reach, with a default time
    that does not overflow, a date and time not before now, and the button
    pressed: the run sends exactly one request, and its coordinates are
    those the run leaves in the session state, which pass the geofence and
    are, for a map whose click passed it, the point clicked in this very
    run. *)
Theorem X5_request_of_a_run (i : inputs) (s : gmap string float)
    (rounded : Datetime.datetime) :
  reachable s ->
  rounded_time (now i) = Some rounded ->
  dt_valid (sidebar_values_of i rounded) = true ->
  button i = true ->
  exists plon plat dlon dlat,
    session_state (rerun i s).2 !! "pickup_lon" = Some plon /\
    session_state (rerun i s).2 !! "pickup_lat" = Some plat /\
    session_state (rerun i s).2 !! "dropoff_lon" = Some dlon /\
    session_state (rerun i s).2 !! "dropoff_lat" = Some dlat /\
    is_within_nyc plon plat = true /\ is_within_nyc dlon dlat = true /\
    (forall c, accepted (pick_state i) = Some c -> plon = lng c /\ plat = lat c) /\
    (forall c, accepted (drop_state i) = Some c -> dlon = lng c /\ dlat = lat c) /\
    gets (page (rerun i s).2) =
    [Get (API_URL i)
         [("pickup_datetime",
           PyStr (Datetime.strftime_Ymd_HMS
                    (dt_raw (sidebar_values_of i rounded))));
          ("pickup_longitude", PyFloat plon);
          ("pickup_latitude", PyFloat plat);
          ("dropoff_longitude", PyFloat dlon);
          ("dropoff_latitude", PyFloat dlat);
          ("passenger_count", PyInt (default 2 (slider i)))]
         10].
Proof.
  intros Hs Hr Ht Hb.
  pose proof (rerun_in_service i s (reachable_in_nyc s Hs))
    as [[(plat & plon & Hplat & Hplon & Hp)
         (dlat & dlon & Hdlat & Hdlon & Hd)] _].
  exists plon, plat, dlon, dlat.
  do 6 (split; [assumption|]).
  split; [|split].
  - intros c Hc. rewrite rerun_session, Hr in Hplat, Hplon.
    rewrite store_lookup_other in Hplat, Hplon by discriminate.
    destruct (store_lookup_own "pickup_lat" "pickup_lon" _
                (session_state (init_session (mkworld s [])).2) c
                ltac:(discriminate) Hc) as [Hlat Hlon].
    split; congruence.
  - intros c Hc. rewrite rerun_session, Hr in Hdlat, Hdlon.
    destruct (store_lookup_own "dropoff_lat" "dropoff_lon" _
                (store "pickup_lat" "pickup_lon" (accepted (pick_state i))
                   (session_state (init_session (mkworld s [])).2)) c
                ltac:(discriminate) Hc) as [Hlat Hlon].
    split; congruence.
  - revert Hplat Hplon Hdlat Hdlon. rewrite rerun_run, Hr. cbv zeta.
    rewrite Ht, session_unchanged_submit.
    pose proof (has_keys_init (mkworld s [])) as Hw1.
    destruct (has_keys_pickup_column i _ Hw1) as (_ & Hw3 & _).
    pose proof (gets_pickup_column i _ Hw1) as Hg3.
    pose proof (gets_dropoff_column i _ Hw3) as Hg4.
    set (w4 := (dropoff_column i _).2) in *. clearbody w4.
    intros Hplat Hplon Hdlat Hdlon. unfold submit. rewrite Hb.
    rewrite (estimate_fare_one_get i _ w4 plon plat dlon dlat)
      by assumption.
    rewrite Hg4, Hg3, init_session_page. reflexivity.
Qed.

(** The sample ride from a new session. *)
Lemma X5_sample :
  exists plon plat dlon dlat,
    session_state (rerun sample_inputs ∅).2 !! "pickup_lon" = Some plon /\
    session_state (rerun sample_inputs ∅).2 !! "pickup_lat" = Some plat /\
    session_state (rerun sample_inputs ∅).2 !! "dropoff_lon" = Some dlon /\
    session_state (rerun sample_inputs ∅).2 !! "dropoff_lat" = Some dlat /\
    is_within_nyc plon plat = true /\ is_within_nyc dlon dlat = true /\
    (forall c, accepted (pick_state sample_inputs) = Some c ->
       plon = lng c /\ plat = lat c) /\
    (forall c, accepted (drop_state sample_inputs) = Some c ->
       dlon = lng c /\ dlat = lat c) /\
    gets (page (rerun sample_inputs ∅).2) =
    [Get "https://taxifare.example/predict"
         [("pickup_datetime", PyStr "2026-11-03 10:15:00");
          ("pickup_longitude", PyFloat plon);
          ("pickup_latitude", PyFloat plat);
          ("dropoff_longitude", PyFloat dlon);
          ("dropoff_latitude", PyFloat dlat);
          ("passenger_count", PyInt 2)]
         10].
Proof.
  apply (X5_request_of_a_run sample_inputs ∅
           (Datetime.combine (Datetime.mkdate 2026 11 3)
                             (Datetime.mktime 10 15 0 0)));
    [apply reachable_new|reflexivity..].
Defined.

(** ** The two time errors *)

Lemma adds_none_of_start bad (w : world) : adds_none_of bad (page w) w.
Proof. exists []. split; [symmetry; apply app_nil_r|]. intros e _ []. Qed.

Lemma adds_none_of_shows bad p0 (w : world) e :
  ~ In e bad -> adds_none_of bad p0 w -> adds_none_of bad p0 (shows w e).
Proof.
  intros He (added & Hp & Hbad). exists (added ++ [e]). split.
  - cbn. rewrite Hp, app_assoc. reflexivity.
  - intros e' He' Hin. apply in_app_iff in Hin as [Hin|[<-|[]]].
    + exact (Hbad e' He' Hin).
    + exact (He He').
Qed.

Lemma adds_none_of_trans bad p0 (w w' : world) :
  adds_none_of bad p0 w -> adds_none_of bad (page w) w' ->
  adds_none_of bad p0 w'.
Proof.
  intros (a & Hp & Ha) (b & Hp' & Hb). exists (a ++ b). split.
  - rewrite Hp', Hp, app_assoc. reflexivity.
  - intros e He Hin. apply in_app_iff in Hin as [Hin|Hin].
    + exact (Ha e He Hin).
    + exact (Hb e He Hin).
Qed.

Ltac no_time_error :=
  let H := fresh in
  intros [H|[H|[]]]; repeat rewrite append_cons in H; discriminate H.

Ltac keeps_no_time_error :=
  repeat first
    [ apply keeps_ret
    | apply keeps_lift
    | apply keeps_getitem
    | apply keeps_emit; intros ? ?; apply adds_none_of_shows;
        [no_time_error|assumption]
    | apply keeps_bind; [|intros ?]
    | apply keeps_try_except; [|intros ?]
    | match goal with
      | |- keeps _ (if ?b then _ else _) => destruct b
      | |- keeps _ (match ?x with _ => _ end) => destruct x
      end ].

(** Unless it rejects the time, the submit handler shows neither time error. *)
Lemma submit_no_time_error i sv p0 :
  button i = false \/ dt_valid sv = true ->
  keeps (adds_none_of time_errors p0) (submit i sv).
Proof.
  intros Hcase. unfold submit. destruct (button i); [|apply keeps_ret].
  destruct Hcase as [|Ht]; [discriminate|].
  unfold estimate_fare, show_fare, requests_get. rewrite Ht. cbn [negb].
  keeps_no_time_error.
Qed.

Lemma pickup_column_no_time_error i (w : world) :
  has_keys w -> adds_none_of time_errors (page w) (pickup_column i w).2.
Proof.
  intros Hw.
  destruct (has_keys_lookup w "pickup_lat" Hw) as [plat Hplat]; [cbn; tauto|].
  destruct (has_keys_lookup w "pickup_lon" Hw) as [plon Hplon]; [cbn; tauto|].
  rewrite (pickup_column_run i w plat plon Hplat Hplon).
  destruct (accepted (pick_state i)), (pick_state i); cbn [snd page];
    (eexists; split; [reflexivity|]);
    intros e [<-|[<-|[]]]; cbn; intuition discriminate.
Qed.

Lemma dropoff_column_no_time_error i (w : world) :
  has_keys w -> adds_none_of time_errors (page w) (dropoff_column i w).2.
Proof.
  intros Hw.
  destruct (has_keys_lookup w "dropoff_lat" Hw) as [dlat Hdlat]; [cbn; tauto|].
  destruct (has_keys_lookup w "dropoff_lon" Hw) as [dlon Hdlon]; [cbn; tauto|].
  rewrite (dropoff_column_run i w dlat dlon Hdlat Hdlon).
  destruct (accepted (drop_state i)), (drop_state i); cbn [snd page];
    (eexists; split; [reflexivity|]);
    intros e [<-|[<-|[]]]; cbn; intuition discriminate.
Qed.

(** X6. In a run that the sidebar does not stop, from any session state:
    the page shows the sidebar's "Time must be in the future." exactly when
    the date and time are before now, and the submit handler's
    "Please select a valid future time." exactly when, besides, the button
    was pressed. So the second is never shown without the first. *)
Theorem X6_time_errors_of_a_run (i : inputs) (s : gmap string float)
    (rounded : Datetime.datetime) :
  rounded_time (now i) = Some rounded ->
  (In (Error "Time must be in the future.") (page (rerun i s).2) <->
   dt_valid (sidebar_values_of i rounded) = false) /\
  (In (Error "Please select a valid future time.") (page (rerun i s).2) <->
   dt_valid (sidebar_values_of i rounded) = false /\ button i = true).
Proof.
  intros Hr. rewrite rerun_run, Hr. cbv zeta.
  pose proof (has_keys_init (mkworld s [])) as Hw1.
  pose proof (init_session_page (mkworld s [])) as Hp1. cbn [page] in Hp1.
  set (w1 := (init_session (mkworld s [])).2) in *. clearbody w1.
  set (sv := sidebar_values_of i rounded).
  set (w2 := if dt_valid sv then w1
             else shows w1 (Error "Time must be in the future.")).
  assert (has_keys w2) as Hw2 by (subst w2; destruct (dt_valid sv); exact Hw1).
  pose proof (pickup_column_no_time_error i w2 Hw2) as H3.
  destruct (has_keys_pickup_column i w2 Hw2) as (_ & Hw3 & _).
  pose proof (dropoff_column_no_time_error i _ Hw3) as H4.
  pose proof (adds_none_of_trans _ _ _ _ H3 H4) as H24. clear H3 H4 Hw3.
  set (w4 := (dropoff_column i (pickup_column i w2).2).2) in *. clearbody w4.
  destruct (dt_valid sv) eqn:Ht.
  - (* the time is valid: neither error *)
    assert (page w2 = []) as Hp2 by (subst w2; exact Hp1).
    destruct (submit_no_time_error i sv (page w2) (or_intror Ht) w4 H24)
      as (added & Hp & Hbad).
    rewrite Hp, Hp2. cbn [app]. split; split.
    + intros Hin. exfalso. apply (Hbad _ ltac:(left; reflexivity) Hin).
    + discriminate.
    + intros Hin. exfalso.
      apply (Hbad _ ltac:(right; left; reflexivity) Hin).
    + intros [? _]. discriminate.
  - (* the time is not valid *)
    assert (page w2 = [Error "Time must be in the future."]) as Hp2
      by (subst w2; cbn; rewrite Hp1; reflexivity).
    destruct (button i) eqn:Hb.
    + unfold submit. rewrite Hb, estimate_fare_rejects_time by exact Ht.
      destruct H24 as (added & Hp & Hbad). cbn [snd shows page].
      rewrite Hp, Hp2. split; split; try (intros _; auto).
      * apply in_app_iff. left. left. reflexivity.
      * apply in_app_iff. right. left. reflexivity.
    + destruct (submit_no_time_error i sv (page w2) (or_introl Hb) w4 H24)
        as (added & Hp & Hbad).
      rewrite Hp, Hp2. split; split.
      * reflexivity.
      * intros _. left. reflexivity.
      * intros [Hin|Hin]; [discriminate Hin|]. exfalso.
        apply (Hbad _ ltac:(right; left; reflexivity) Hin).
      * intros [_ ?]. discriminate.
Qed.

(** The sample ride at 10:15:30 with the inputs untouched: both errors. *)
Lemma X6_sample :
  let i := at_time sample_inputs
             (Datetime.combine (Datetime.mkdate 2026 11 3)
                               (Datetime.mktime 10 15 30 0)) in
  In (Error "Time must be in the future.") (page (rerun i ∅).2) /\
  In (Error "Please select a valid future time.") (page (rerun i ∅).2).
Proof.
  cbv zeta.
  destruct (X6_time_errors_of_a_run
              (at_time sample_inputs
                 (Datetime.combine (Datetime.mkdate 2026 11 3)
                                   (Datetime.mktime 10 15 30 0)))
              ∅
              (Datetime.combine (Datetime.mkdate 2026 11 3)
                                (Datetime.mktime 10 15 0 0))
              eq_refl) as [Htime Hplease].
  split; [apply Htime; reflexivity|apply Hplease; split; reflexivity].
Defined.

(** ** The default time *)

Section DefaultTime.
Import Datetime.

Lemma cut_timestamp clock :
  valid clock ->
  valid (replace_second_microsecond clock 0 0) /\
  timestamp (replace_second_microsecond clock 0 0) =
  timestamp clock
  - (second (dt_time clock) * 1000000 + microsecond (dt_time clock)).
Proof.
  intros [Hd (Hh & Hm & Hs & Hu)].
  unfold valid, valid_time, timestamp, time_us, replace_second_microsecond.
  cbn [dt_date dt_time hour minute second microsecond].
  split; [split; [exact Hd|]|]; lia.
Qed.

Lemma toordinal_first : toordinal (mkdate 1 1 1) = 1.
Proof. reflexivity. Qed.

Lemma toordinal_last : toordinal (mkdate 9999 12 31) = MAXORDINAL.
Proof. reflexivity. Qed.

Lemma valid_date_last : valid_date (mkdate 9999 12 31).
Proof. unfold valid_date. cbn. lia. Qed.

Lemma days_in_month_last y : days_in_month y 12 = 31.
Proof. unfold days_in_month. cbn. reflexivity. Qed.

(** The ordinal of a valid date is in range, and only that of the last day
    of the year 9999 is the greatest. *)
Lemma toordinal_range d :
  valid_date d ->
  1 <= toordinal d <= MAXORDINAL /\
  (toordinal d = MAXORDINAL -> d = mkdate 9999 12 31).
Proof.
  intros Hd. pose proof Hd as (Hy & Hm & Hday).
  assert (1 <= toordinal d) as Hlo.
  { unfold toordinal, ymd2ord.
    pose proof (day_of_year_bounds _ _ _ Hm Hday).
    pose proof (days_before_year_mono 1 (year d) ltac:(lia)) as Hmono.
    change (days_before_year 1) with 0 in Hmono. lia. }
  destruct d as [y m dd]. cbn [year month day] in *.
  destruct (Z.eq_dec y 9999) as [->|Hy'];
    [destruct (Z.eq_dec m 12) as [->|Hm'];
       [rewrite days_in_month_last in Hday;
        destruct (Z.eq_dec dd 31) as [->|Hd']|]|].
  - split; [rewrite toordinal_last; unfold MAXORDINAL; lia|reflexivity].
  - pose proof (toordinal_before (mkdate 9999 12 dd) (mkdate 9999 12 31) Hd
                  valid_date_last) as Hlt.
    rewrite toordinal_last in Hlt. unfold date_before in Hlt.
    cbn [year month day] in Hlt. split; [lia|intros; lia].
  - pose proof (toordinal_before (mkdate 9999 m dd) (mkdate 9999 12 31) Hd
                  valid_date_last) as Hlt.
    rewrite toordinal_last in Hlt. unfold date_before in Hlt.
    cbn [year month day] in Hlt. split; [lia|intros; lia].
  - pose proof (toordinal_before (mkdate y m dd) (mkdate 9999 12 31) Hd
                  valid_date_last) as Hlt.
    rewrite toordinal_last in Hlt. unfold date_before in Hlt.
    cbn [year month day] in Hlt. split; [lia|intros; lia].
Qed.

(** The day that [now + timedelta(minutes=minutes_to_next)] falls on: the
    next one from 23:46 on, else the same. *)
Lemma add_minutes_to_next_days clock :
  valid_time (dt_time clock) ->
  days (timedelta_add
          (timedelta_of (toordinal (dt_date clock))
             (hour (dt_time clock) * 3600 + minute (dt_time clock) * 60
              + second (dt_time clock))
             (microsecond (dt_time clock)))
          (minutes_delta (minutes_to_next clock))) =
  toordinal (dt_date clock)
  + (if (hour (dt_time clock) =? 23) && (45 <? minute (dt_time clock))
     then 1 else 0).
Proof.
  intros (Hh & Hm & Hs & Hu).
  unfold timedelta_add, minutes_delta, timedelta_of, minutes_to_next.
  cbn [days seconds microseconds].
  generalize (toordinal (dt_date clock)). intros o.
  destruct (Z.eqb_spec (hour (dt_time clock)) 23);
    destruct (Z.ltb_spec 45 (minute (dt_time clock))); cbn [andb];
    Z.to_euclidean_division_equations; lia.
Qed.

(** X7. The default of the time input is the clock with its seconds cut
    off, moved up to the quarter-hour grid: it is on the grid, not before
    the cut clock, less than a quarter of an hour after it, and no time on
    the grid lies between the two. *)
Theorem X7_default_time_rounds_the_cut_clock_up (clock r : datetime) :
  valid clock -> rounded_time clock = Some r ->
  valid r /\ on_grid (dt_time r) /\
  ge r (replace_second_microsecond clock 0 0) = true /\
  timestamp r < timestamp (replace_second_microsecond clock 0 0) + 900000000 /\
  (forall g, valid g -> on_grid (dt_time g) ->
     ge g (replace_second_microsecond clock 0 0) = true -> ge g r = true).
Proof.
  intros Hv Hr.
  destruct (rounded_time_timestamp clock r Hv Hr) as (Hvr & Hgrid & Hts).
  destruct (cut_timestamp clock Hv) as [Hvc Hcut].
  pose proof (on_grid_timestamp r Hvr Hgrid) as Hr15.
  assert (timestamp (replace_second_microsecond clock 0 0) <= timestamp r
          < timestamp (replace_second_microsecond clock 0 0) + 900000000)
    as Hnear.
  { rewrite Hcut, Hts. unfold minutes_to_next.
    Z.to_euclidean_division_equations. lia. }
  split; [exact Hvr|]. split; [exact Hgrid|].
  split; [apply ge_timestamp; [assumption..|lia]|].
  split; [lia|].
  intros g Hvg Hg Hge. apply ge_timestamp in Hge; [|assumption..].
  pose proof (on_grid_timestamp g Hvg Hg) as Hg15.
  apply ge_timestamp; [assumption..|].
  Z.to_euclidean_division_equations. lia.
Qed.

(** The clock at 10:07:42.5. *)
Lemma X7_at_10_07 :
  let clock := combine (mkdate 2026 11 3) (mktime 10 7 42 500000) in
  let r := combine (mkdate 2026 11 3) (mktime 10 15 0 0) in
  valid r /\ on_grid (dt_time r) /\
  ge r (replace_second_microsecond clock 0 0) = true /\
  timestamp r < timestamp (replace_second_microsecond clock 0 0) + 900000000 /\
  (forall g, valid g -> on_grid (dt_time g) ->
     ge g (replace_second_microsecond clock 0 0) = true -> ge g r = true).
Proof.
  cbv zeta.
  apply (X7_default_time_rounds_the_cut_clock_up
           (combine (mkdate 2026 11 3) (mktime 10 7 42 500000))
           (combine (mkdate 2026 11 3) (mktime 10 15 0 0))).
  - unfold valid, valid_date, valid_time. cbn. lia.
  - reflexivity.
Defined.

(** X8. For a valid clock, the addition that gives the default time,
    [now + datetime.timedelta(minutes=minutes_to_next)], leaves the calendar
    and raises [OverflowError] exactly when the clock is on 9999-12-31 at
    hour 23 and minute 46 or later. At every other valid clock, 23:45:59 of
    that day too, the default time is computed. *)
Theorem X8_default_time_overflow (clock : datetime) :
  valid clock ->
  (rounded_time clock = None <->
   dt_date clock = mkdate 9999 12 31 /\
   hour (dt_time clock) = 23 /\ 46 <= minute (dt_time clock)).
Proof.
  intros [Hd Ht].
  destruct (toordinal_range _ Hd) as [Hord Hmax].
  pose proof (add_minutes_to_next_days clock Ht) as Hdays.
  unfold rounded_time, add. cbv zeta. rewrite Hdays. clear Hdays.
  destruct (Z.eqb_spec (hour (dt_time clock)) 23) as [Hh|Hh];
    destruct (Z.ltb_spec 45 (minute (dt_time clock))) as [Hm|Hm];
    cbn [andb].
  - destruct (Z.eq_dec (toordinal (dt_date clock)) MAXORDINAL) as [He|He].
    + rewrite He. cbn. split; [intros _|reflexivity].
      split; [exact (Hmax He)|]. split; [exact Hh|lia].
    + replace ((0 <? toordinal (dt_date clock) + 1)
               && (toordinal (dt_date clock) + 1 <=? MAXORDINAL))
        with true by (symmetry; apply andb_true_iff; split;
                      [apply Z.ltb_lt|apply Z.leb_le]; lia).
      split; [discriminate|]. intros (Hlast & _). exfalso. apply He.
      rewrite Hlast. reflexivity.
  - replace ((0 <? toordinal (dt_date clock) + 0)
             && (toordinal (dt_date clock) + 0 <=? MAXORDINAL))
      with true by (symmetry; apply andb_true_iff; split;
                    [apply Z.ltb_lt|apply Z.leb_le]; lia).
    split; [discriminate|]. intros (_ & _ & ?). lia.
  - replace ((0 <? toordinal (dt_date clock) + 0)
             && (toordinal (dt_date clock) + 0 <=? MAXORDINAL))
      with true by (symmetry; apply andb_true_iff; split;
                    [apply Z.ltb_lt|apply Z.leb_le]; lia).
    split; [discriminate|]. intros (_ & ? & _). lia.
  - replace ((0 <? toordinal (dt_date clock) + 0)
             && (toordinal (dt_date clock) + 0 <=? MAXORDINAL))
      with true by (symmetry; apply andb_true_iff; split;
                    [apply Z.ltb_lt|apply Z.leb_le]; lia).
    split; [discriminate|]. intros (_ & ? & _). lia.
Qed.

(** The last quarter of an hour of the calendar: at 23:50 the addition
    overflows, half a minute after 23:45 it does not. *)
Lemma X8_end_of_the_calendar :
  rounded_time (combine (mkdate 9999 12 31) (mktime 23 50 0 0)) = None /\
  rounded_time (combine (mkdate 9999 12 31) (mktime 23 45 30 0)) <> None.
Proof.
  split.
  - apply (X8_default_time_overflow
             (combine (mkdate 9999 12 31) (mktime 23 50 0 0))).
    + unfold valid, valid_date, valid_time. cbn. lia.
    + cbn. split; [reflexivity|]. split; [reflexivity|lia].
  - intros Hnone.
    apply (X8_default_time_overflow
             (combine (mkdate 9999 12 31) (mktime 23 45 30 0))) in Hnone.
    + cbn in Hnone. lia.
    + unfold valid, valid_date, valid_time. cbn. lia.
Defined.

(** X9. With the date and the time input untouched, the date is that of the
    clock and the time that of the default. The check [dt_raw >= now] then
    passes exactly when the default is not behind the clock (the minute is
    off the grid, or the clock is on a full minute) and the default did not
    move to the next day (the clock is not past 23:45): past 23:45 the time
    is 00:00 but the date still today's. *)
Theorem X9_untouched_inputs (i : inputs) (rounded : datetime) :
  valid (now i) -> date_input i = None -> time_input i = None ->
  rounded_time (now i) = Some rounded ->
  dt_raw (sidebar_values_of i rounded) =
  combine (dt_date (now i)) (dt_time rounded) /\
  (dt_valid (sidebar_values_of i rounded) = true <->
   (minute (dt_time (now i)) mod 15 <> 0 \/
    (second (dt_time (now i)) = 0 /\ microsecond (dt_time (now i)) = 0)) /\
   ~ (hour (dt_time (now i)) = 23 /\ 45 < minute (dt_time (now i)))).
Proof.
  intros Hv Hdate Htime Hr.
  unfold sidebar_values_of. cbn [dt_raw dt_valid]. rewrite Hdate, Htime.
  cbn [default from_option id]. split; [reflexivity|].
  destruct (rounded_time_timestamp _ _ Hv Hr) as ([Hvd Hvt] & _ & Hts).
  assert (valid (combine (dt_date (now i)) (dt_time rounded))) as Hraw
    by (split; [exact (proj1 Hv)|exact Hvt]).
  rewrite (ge_timestamp _ _ Hraw Hv).
  pose proof (time_us_bounds _ Hvt) as Hus.
  destruct Hv as [_ (Hh & Hm & Hs & Hu)].
  unfold timestamp, minutes_to_next in *. cbn [dt_date dt_time] in *.
  unfold time_us in Hts at 2. unfold time_us at 1.
  generalize dependent (time_us (dt_time rounded)). intros T Hts HT.
  generalize dependent (toordinal (dt_date rounded)).
  generalize dependent (toordinal (dt_date (now i))).
  intros o o' Hts.
  Z.to_euclidean_division_equations. lia.
Qed.

(** Two minutes to midnight: the default is 00:00 of the day of the clock. *)
Lemma X9_two_minutes_to_midnight :
  let i := at_time sample_inputs
             (combine (mkdate 2026 11 3) (mktime 23 58 0 0)) in
  let rounded := combine (mkdate 2026 11 4) (mktime 0 0 0 0) in
  dt_raw (sidebar_values_of i rounded) =
  combine (mkdate 2026 11 3) (mktime 0 0 0 0) /\
  dt_valid (sidebar_values_of i rounded) = false.
Proof.
  cbv zeta.
  destruct (X9_untouched_inputs
              (at_time sample_inputs
                 (combine (mkdate 2026 11 3) (mktime 23 58 0 0)))
              (combine (mkdate 2026 11 4) (mktime 0 0 0 0)))
    as [Hraw Hiff].
  - unfold valid, valid_date, valid_time. cbn. lia.
  - reflexivity.
  - reflexivity.
  - reflexivity.
  - split; [exact Hraw|].
    destruct (dt_valid _) eqn:Hvalid; [|reflexivity].
    destruct (proj1 Hiff eq_refl) as [_ Hnot]. exfalso. apply Hnot.
    cbn. lia.
Defined.

End DefaultTime.

(** ** No request but the one *)

(** The requests of the submit handler, with the four keys there. *)
Lemma gets_submit i sv (w : world) :
  has_keys w ->
  gets (page (submit i sv w).2) = gets (page w) \/
  button i = true /\ dt_valid sv = true /\
  exists params,
    gets (page (submit i sv w).2) =
    gets (page w) ++ [Get (API_URL i) params 10].
Proof.
  intros Hw. unfold submit. destruct (button i); [|left; reflexivity].
  destruct (has_keys_lookup w "pickup_lat" Hw) as [plat Hplat]; [cbn; tauto|].
  destruct (has_keys_lookup w "pickup_lon" Hw) as [plon Hplon]; [cbn; tauto|].
  destruct (has_keys_lookup w "dropoff_lat" Hw) as [dlat Hdlat]; [cbn; tauto|].
  destruct (has_keys_lookup w "dropoff_lon" Hw) as [dlon Hdlon]; [cbn; tauto|].
  destruct (dt_valid sv) eqn:Ht;
    [|left; rewrite estimate_fare_rejects_time by exact Ht;
      apply gets_shows_other; reflexivity].
  destruct (is_within_nyc plon plat) eqn:Hp;
    [|left;
      rewrite (estimate_fare_rejects_pickup i sv w plon plat) by assumption;
      apply gets_shows_other; reflexivity].
  destruct (is_within_nyc dlon dlat) eqn:Hd;
    [|left;
      rewrite (estimate_fare_rejects_dropoff i sv w plon plat dlon dlat)
        by assumption;
      apply gets_shows_other; reflexivity].
  right. split; [reflexivity|]. split; [reflexivity|].
  exists (fare_params sv plon plat dlon dlat).
  apply estimate_fare_one_get; assumption.
Qed.

(** X10. A run, from any session state, sends at most one request, to the
    fare API with a timeout of ten seconds, and none at all unless the
    button was pressed, the default time did not overflow and the date and
    time are not before now. *)
Theorem X10_at_most_one_request (i : inputs) (s : gmap string float) :
  gets (page (rerun i s).2) = [] \/
  button i = true /\
  (exists rounded, rounded_time (now i) = Some rounded /\
                   dt_valid (sidebar_values_of i rounded) = true) /\
  (exists params, gets (page (rerun i s).2) = [Get (API_URL i) params 10]).
Proof.
  rewrite rerun_run.
  destruct (rounded_time (now i)) as [rounded|];
    [|left; cbn [snd]; rewrite init_session_page; reflexivity].
  cbv zeta.
  pose proof (has_keys_init (mkworld s [])) as Hw1.
  pose proof (init_session_page (mkworld s [])) as Hp1. cbn [page] in Hp1.
  set (w1 := (init_session (mkworld s [])).2) in *. clearbody w1.
  set (sv := sidebar_values_of i rounded).
  set (w2 := if dt_valid sv then w1
             else shows w1 (Error "Time must be in the future.")).
  assert (has_keys w2) as Hw2 by (subst w2; destruct (dt_valid sv); exact Hw1).
  assert (gets (page w2) = []) as Hg2
    by (subst w2; destruct (dt_valid sv);
        [|rewrite gets_shows_other by reflexivity]; rewrite Hp1; reflexivity).
  destruct (has_keys_pickup_column i w2 Hw2) as (_ & Hw3 & _).
  destruct (has_keys_dropoff_column i _ Hw3) as (_ & Hw4 & _).
  pose proof (gets_pickup_column i w2 Hw2) as Hg3.
  pose proof (gets_dropoff_column i _ Hw3) as Hg4.
  rewrite Hg3, Hg2 in Hg4. clear Hg3 Hg2 Hw3.
  set (w4 := (dropoff_column i (pickup_column i w2).2).2) in *. clearbody w4.
  destruct (gets_submit i sv w4 Hw4) as [Hnone|(Hb & Ht & params & Hone)].
  - left. rewrite Hnone. exact Hg4.
  - right. split; [exact Hb|]. split; [exists rounded; split; [reflexivity|exact Ht]|].
    exists params. rewrite Hone, Hg4. reflexivity.
Qed.

(** ** The date and time sent *)

(** X11. The [pickup_datetime] of a valid date and time from the year 1000
    on has nineteen characters, and the digits at the places of the format
    ["%Y-%m-%d %H:%M:%S"] read back as its year, month, day, hour, minute
    and second: the string carries [dt_raw] down to the second, and drops
    the microseconds only. *)
Theorem X11_pickup_datetime_reads_back (t : Datetime.datetime) :
  Datetime.valid t -> 1000 <= Datetime.year (Datetime.dt_date t) ->
  String.length (Datetime.strftime_Ymd_HMS t) = 19%nat /\
  read_Ymd_HMS (Datetime.strftime_Ymd_HMS t) =
  [Datetime.year (Datetime.dt_date t); Datetime.month (Datetime.dt_date t);
   Datetime.day (Datetime.dt_date t); Datetime.hour (Datetime.dt_time t);
   Datetime.minute (Datetime.dt_time t); Datetime.second (Datetime.dt_time t)].
Proof.
  intros Hv Hy.
  destruct (strftime_Ymd_HMS_chars t Hv Hy)
    as (y1 & y2 & y3 & y4 & m1 & m2 & d1 & d2 & h1 & h2 & n1 & n2 & s1 & s2
        & -> & Vy & Vm & Vd & Vh & Vn & Vs).
  split; [reflexivity|].
  unfold read_Ymd_HMS. cbn [String.substring].
  rewrite Vy, Vm, Vd, Vh, Vn, Vs. reflexivity.
Qed.

(** The sample ride's time, with half a second on the clock. *)
Lemma X11_sample :
  String.length "2026-11-03 10:15:00" = 19%nat /\
  read_Ymd_HMS
    (Datetime.strftime_Ymd_HMS
       (Datetime.combine (Datetime.mkdate 2026 11 3)
                         (Datetime.mktime 10 15 0 500000)))
  = [2026; 11; 3; 10; 15; 0].
Proof.
  split; [reflexivity|].
  apply (X11_pickup_datetime_reads_back
           (Datetime.combine (Datetime.mkdate 2026 11 3)
                             (Datetime.mktime 10 15 0 500000))).
  - unfold Datetime.valid, Datetime.valid_date, Datetime.valid_time. cbn. lia.
  - cbn. lia.
Defined.
